(** * ntn: flag validation, service topology and init orchestration

    A shallow embedding of the TypeScript sources
    - [src/types/flags.ts]            (module [Flags]),
    - [src/config/defaults.ts]        (module [Defaults]),
    - [src/config/services.ts]        (module [Services]),
    - [src/config/validation.ts]      (module [Validation]),
    - [src/utils/logger.ts], [src/utils/shell.ts]   (module [Shell]),
    - [src/docker/compose.ts]         (module [Compose]),
    - [src/orchestration/index.ts], [l1-setup.ts], [prysm.ts] and
      [deployBiddingToken] of [timeboost.ts]   (module [Orchestration]),
    followed by the properties proved about them.

    The flags that hold counts ([batchposters], [redundantsequencers])
    are modelled as [Z]: the command line accepts only 0, 1, 2 and 3
    for them, and their declared type [0 | 1 | 2 | 3] is not enforced
    at run time (the validator itself tests for values outside of it),
    so no range is built into the model.  [l3FeeTokenDecimals] is any
    number the command line parses: it is a [JsNumber], an integer or
    [NaN].  [async] functions are
    functions from the world before to an outcome (a value or a thrown
    value) and the world after; the child processes they start are
    answered by a [CommandExecutor]. *)

From Stdlib Require Import ZArith Bool String Ascii List Lia DecimalString Permutation.
Import ListNotations.
Open Scope string_scope.
Open Scope list_scope.
Open Scope Z_scope.

(** [String(n)] / template interpolation of an integral number (the
    decimal digits; JavaScript prints these for integers of magnitude
    below 10^21). *)
Definition numberToString (n : Z) : string :=
  NilZero.string_of_int (Z.to_int n).

(** A number that need not be a count: an integer, or [NaN], which is
    what an option of type number holds when its text is not a number. *)
Inductive JsNumber :=
  | Integer (z : Z)
  | NaN.

Module Number.

(** [a < b]: false whenever an operand is [NaN]. *)
Definition lt (a b : JsNumber) : bool :=
  match a, b with
  | Integer x, Integer y => x <? y
  | _, _ => false
  end.

(** [a > b]: false whenever an operand is [NaN]. *)
Definition gt (a b : JsNumber) : bool :=
  match a, b with
  | Integer x, Integer y => y <? x
  | _, _ => false
  end.

(** [a === b]: false whenever an operand is [NaN]; [a !== b] is its
    negation. *)
Definition strictEquals (a b : JsNumber) : bool :=
  match a, b with
  | Integer x, Integer y => x =? y
  | _, _ => false
  end.

(** [String(n)] / template interpolation. *)
Definition toString (n : JsNumber) : string :=
  match n with
  | Integer z => numberToString z
  | NaN => "NaN"
  end.

End Number.

(* ================================================================= *)
(** ** src/types/flags.ts *)

Module Flags.

Record TestnodeFlags := {
  (* Initialization *)
  init : bool;
  force : bool;
  (* Dev mode *)
  devNitro : bool;
  devBlockscout : bool;
  devContracts : bool;
  (* Build control *)
  build : bool;
  buildDevNitro : bool;
  buildDevBlockscout : bool;
  buildUtils : bool;
  forceBuildUtils : bool;
  buildNodeImages : bool;
  (* Features *)
  validate : bool;
  blockscout : bool;
  tokenbridge : bool;
  l3node : bool;
  l3FeeToken : bool;
  l3FeeTokenPricer : bool;
  l3FeeTokenDecimals : JsNumber;
  l3TokenBridge : bool;
  l2Anytrust : bool;
  l2Timeboost : bool;
  (* Scaling *)
  batchposters : Z;
  redundantsequencers : Z;
  (* Consensus *)
  pos : bool;
  (* Runtime *)
  run : bool;
  detach : bool;
  nowait : bool;
  simple : bool;
  (* Traffic *)
  l1Traffic : bool;
  l2Traffic : bool;
  l3Traffic : bool;
  (* CI *)
  ci : bool;
  (* Global *)
  verbose : bool
}.

Definition defaultFlags : TestnodeFlags := {|
  init := false;
  force := false;
  devNitro := false;
  devBlockscout := false;
  devContracts := false;
  build := false;
  buildDevNitro := false;
  buildDevBlockscout := false;
  buildUtils := false;
  forceBuildUtils := false;
  buildNodeImages := false;
  validate := false;
  blockscout := false;
  tokenbridge := false;
  l3node := false;
  l3FeeToken := false;
  l3FeeTokenPricer := false;
  l3FeeTokenDecimals := Integer 18;
  l3TokenBridge := false;
  l2Anytrust := false;
  l2Timeboost := false;
  batchposters := 1;
  redundantsequencers := 0;
  pos := false;
  run := true;
  detach := false;
  nowait := false;
  simple := true;
  l1Traffic := true;
  l2Traffic := true;
  l3Traffic := true;
  ci := false;
  verbose := false
|}.

(** [{ ...f, batchposters: n }] *)
Definition withBatchposters (f : TestnodeFlags) (n : Z) : TestnodeFlags := {|
  init := init f;
  force := force f;
  devNitro := devNitro f;
  devBlockscout := devBlockscout f;
  devContracts := devContracts f;
  build := build f;
  buildDevNitro := buildDevNitro f;
  buildDevBlockscout := buildDevBlockscout f;
  buildUtils := buildUtils f;
  forceBuildUtils := forceBuildUtils f;
  buildNodeImages := buildNodeImages f;
  validate := validate f;
  blockscout := blockscout f;
  tokenbridge := tokenbridge f;
  l3node := l3node f;
  l3FeeToken := l3FeeToken f;
  l3FeeTokenPricer := l3FeeTokenPricer f;
  l3FeeTokenDecimals := l3FeeTokenDecimals f;
  l3TokenBridge := l3TokenBridge f;
  l2Anytrust := l2Anytrust f;
  l2Timeboost := l2Timeboost f;
  batchposters := n;
  redundantsequencers := redundantsequencers f;
  pos := pos f;
  run := run f;
  detach := detach f;
  nowait := nowait f;
  simple := simple f;
  l1Traffic := l1Traffic f;
  l2Traffic := l2Traffic f;
  l3Traffic := l3Traffic f;
  ci := ci f;
  verbose := verbose f
|}.

End Flags.

(* ================================================================= *)
(** ** src/config/defaults.ts *)

Module Defaults.

Definition MAX_BATCH_POSTERS : Z := 3.
Definition MAX_REDUNDANT_SEQUENCERS : Z := 3.
Definition MIN_FEE_TOKEN_DECIMALS : Z := 0.
Definition MAX_FEE_TOKEN_DECIMALS : Z := 36.
Definition DEFAULT_FEE_TOKEN_DECIMALS : Z := 18.

End Defaults.

(* ================================================================= *)
(** ** src/config/services.ts *)

Module Services.

(** The subset of [TestnodeFlags] read by [calculateServices]. *)
Record ServiceCalculationFlags := {
  simple : bool;
  redundantsequencers : Z;
  batchposters : Z;
  validate : bool;
  l3node : bool;
  blockscout : bool;
  l2Timeboost : bool
}.

(** TypeScript passes a [TestnodeFlags] where a
    [ServiceCalculationFlags] is expected (structural subtyping); the
    callee reads the seven fields below. *)
Definition ofTestnodeFlags (f : Flags.TestnodeFlags) : ServiceCalculationFlags := {|
  simple := Flags.simple f;
  redundantsequencers := Flags.redundantsequencers f;
  batchposters := Flags.batchposters f;
  validate := Flags.validate f;
  l3node := Flags.l3node f;
  blockscout := Flags.blockscout f;
  l2Timeboost := Flags.l2Timeboost f
|}.

Inductive ServiceName :=
  | geth
  | sequencer
  | redis
  | poster
  | poster_b
  | poster_c
  | staker_unsafe
  | validator
  | sequencer_b
  | sequencer_c
  | sequencer_d
  | l3node_service
  | blockscout_service
  | timeboost_auctioneer
  | timeboost_bid_validator
  | beacon_chain
  | validator_client
  | prysm.

(** The string each member of the union type stands for. *)
Definition serviceString (s : ServiceName) : string :=
  match s with
  | geth => "geth"
  | sequencer => "sequencer"
  | redis => "redis"
  | poster => "poster"
  | poster_b => "poster_b"
  | poster_c => "poster_c"
  | staker_unsafe => "staker-unsafe"
  | validator => "validator"
  | sequencer_b => "sequencer_b"
  | sequencer_c => "sequencer_c"
  | sequencer_d => "sequencer_d"
  | l3node_service => "l3node"
  | blockscout_service => "blockscout"
  | timeboost_auctioneer => "timeboost-auctioneer"
  | timeboost_bid_validator => "timeboost-bid-validator"
  | beacon_chain => "beacon-chain"
  | validator_client => "validator-client"
  | prysm => "prysm"
  end.

Definition ServiceName_eq_dec (a b : ServiceName) : {a = b} + {a <> b}.
Proof. decide equality. Defined.

(** [if (c) services.push(...xs)] on the list built so far. *)
Definition pushIf (c : bool) (xs : list ServiceName) (services : list ServiceName)
  : list ServiceName :=
  if c then services ++ xs else services.

Definition calculateServices (flags : ServiceCalculationFlags) : list ServiceName :=
  let services := [] in
  (* Base sequencer is always included *)
  let services := services ++ [sequencer] in
  (* Redis is needed for non-simple mode *)
  let services := pushIf (negb (simple flags)) [redis] services in
  (* Redundant sequencers *)
  let services := pushIf (0 <? redundantsequencers flags) [sequencer_b] services in
  let services := pushIf (1 <? redundantsequencers flags) [sequencer_c] services in
  let services := pushIf (2 <? redundantsequencers flags) [sequencer_d] services in
  (* Batch posters - first poster only in non-simple mode *)
  let services :=
    pushIf ((0 <? batchposters flags) && negb (simple flags)) [poster] services in
  let services := pushIf (1 <? batchposters flags) [poster_b] services in
  let services := pushIf (2 <? batchposters flags) [poster_c] services in
  (* Validator or staker *)
  let services :=
    if validate flags then services ++ [validator]
    else if negb (simple flags) then services ++ [staker_unsafe]
    else services in
  (* L3 node *)
  let services := pushIf (l3node flags) [l3node_service] services in
  (* Blockscout *)
  let services := pushIf (blockscout flags) [blockscout_service] services in
  (* Timeboost services *)
  let services :=
    pushIf (l2Timeboost flags) [timeboost_auctioneer; timeboost_bid_validator] services in
  services.

(** Takes [Pick<ServiceCalculationFlags, 'redundantsequencers'>]: only
    that field is passed. *)
Definition calculateInitialSequencerNodes (redundantsequencers : Z) : list ServiceName :=
  let nodes := [sequencer] in
  let nodes := pushIf (0 <? redundantsequencers) [sequencer_b] nodes in
  nodes.

End Services.

(* ================================================================= *)
(** ** src/config/validation.ts *)

Module Validation.
Import Flags Defaults.

Inductive ValidationErrorCode :=
  | NOWAIT_REQUIRES_DETACH
  | L3_FEE_TOKEN_REQUIRES_L3NODE
  | L3_FEE_TOKEN_PRICER_REQUIRES_FEE_TOKEN
  | L3_FEE_TOKEN_DECIMALS_REQUIRES_FEE_TOKEN
  | L3_FEE_TOKEN_DECIMALS_OUT_OF_RANGE
  | L3_TOKEN_BRIDGE_REQUIRES_L3NODE
  | BATCH_POSTERS_OUT_OF_RANGE
  | REDUNDANT_SEQUENCERS_OUT_OF_RANGE.

Inductive ValidationWarningCode :=
  | SIMPLE_MODE_IGNORES_BATCH_POSTERS
  | SIMPLE_MODE_IGNORES_REDUNDANT_SEQUENCERS
  | L3_TRAFFIC_WITHOUT_L3NODE.

(** [field?: keyof TestnodeFlags] is kept as the key's name. *)
Record ValidationError := {
  code : ValidationErrorCode;
  message : string;
  field : option string
}.

Record ValidationWarning := {
  wcode : ValidationWarningCode;
  wmessage : string;
  wfield : option string
}.

Record ValidationResult := {
  valid : bool;
  errors : list ValidationError;
  warnings : list ValidationWarning
}.

Definition errIf (c : bool) (e : ValidationError) (errors : list ValidationError)
  : list ValidationError :=
  if c then errors ++ [e] else errors.

Definition warnIf (c : bool) (w : ValidationWarning) (ws : list ValidationWarning)
  : list ValidationWarning :=
  if c then ws ++ [w] else ws.

Definition validateRuntimeDependencies (flags : TestnodeFlags) : list ValidationError :=
  let errors := [] in
  let errors :=
    errIf (nowait flags && negb (detach flags))
      {| code := NOWAIT_REQUIRES_DETACH;
         message := "--nowait requires --detach to be provided";
         field := Some "nowait" |} errors in
  errors.

Definition validateL3Dependencies (flags : TestnodeFlags) : list ValidationError :=
  let errors := [] in
  let errors :=
    errIf (l3FeeToken flags && negb (l3node flags))
      {| code := L3_FEE_TOKEN_REQUIRES_L3NODE;
         message := "--l3-fee-token requires --l3node to be provided";
         field := Some "l3FeeToken" |} errors in
  let errors :=
    errIf (l3FeeTokenPricer flags && negb (l3FeeToken flags))
      {| code := L3_FEE_TOKEN_PRICER_REQUIRES_FEE_TOKEN;
         message := "--l3-fee-token-pricer requires --l3-fee-token to be provided";
         field := Some "l3FeeTokenPricer" |} errors in
  let errors :=
    errIf (negb (Number.strictEquals (l3FeeTokenDecimals flags) (Integer 18))
           && negb (l3FeeToken flags))
      {| code := L3_FEE_TOKEN_DECIMALS_REQUIRES_FEE_TOKEN;
         message := "--l3-fee-token-decimals requires --l3-fee-token to be provided";
         field := Some "l3FeeTokenDecimals" |} errors in
  let errors :=
    errIf (l3TokenBridge flags && negb (l3node flags))
      {| code := L3_TOKEN_BRIDGE_REQUIRES_L3NODE;
         message := "--l3-token-bridge requires --l3node to be provided";
         field := Some "l3TokenBridge" |} errors in
  errors.

Definition validateRangeConstraints (flags : TestnodeFlags) : list ValidationError :=
  let errors := [] in
  let decimalsOutOfRange :=
    Number.lt (l3FeeTokenDecimals flags) (Integer MIN_FEE_TOKEN_DECIMALS)
    || Number.gt (l3FeeTokenDecimals flags) (Integer MAX_FEE_TOKEN_DECIMALS) in
  let errors :=
    errIf decimalsOutOfRange
      {| code := L3_FEE_TOKEN_DECIMALS_OUT_OF_RANGE;
         message :=
           "l3-fee-token-decimals must be in range ["
           ++ numberToString MIN_FEE_TOKEN_DECIMALS ++ ","
           ++ numberToString MAX_FEE_TOKEN_DECIMALS ++ "], value: "
           ++ Number.toString (l3FeeTokenDecimals flags);
         field := Some "l3FeeTokenDecimals" |} errors in
  let errors :=
    errIf ((batchposters flags <? 0) || (MAX_BATCH_POSTERS <? batchposters flags))
      {| code := BATCH_POSTERS_OUT_OF_RANGE;
         message :=
           "batchposters must be between 0 and "
           ++ numberToString MAX_BATCH_POSTERS ++ ", value: "
           ++ numberToString (batchposters flags);
         field := Some "batchposters" |} errors in
  let errors :=
    errIf ((redundantsequencers flags <? 0)
           || (MAX_REDUNDANT_SEQUENCERS <? redundantsequencers flags))
      {| code := REDUNDANT_SEQUENCERS_OUT_OF_RANGE;
         message :=
           "redundantsequencers must be between 0 and "
           ++ numberToString MAX_REDUNDANT_SEQUENCERS ++ ", value: "
           ++ numberToString (redundantsequencers flags);
         field := Some "redundantsequencers" |} errors in
  errors.

Definition generateWarnings (flags : TestnodeFlags) : list ValidationWarning :=
  let warnings := [] in
  let warnings :=
    warnIf (simple flags && (1 <? batchposters flags))
      {| wcode := SIMPLE_MODE_IGNORES_BATCH_POSTERS;
         wmessage :=
           "Simple mode uses a single combined node; batchposters setting will be ignored";
         wfield := Some "batchposters" |} warnings in
  let warnings :=
    warnIf (simple flags && (0 <? redundantsequencers flags))
      {| wcode := SIMPLE_MODE_IGNORES_REDUNDANT_SEQUENCERS;
         wmessage :=
           "Simple mode uses a single sequencer; redundantsequencers setting will be ignored";
         wfield := Some "redundantsequencers" |} warnings in
  let warnings :=
    warnIf (l3Traffic flags && negb (l3node flags))
      {| wcode := L3_TRAFFIC_WITHOUT_L3NODE;
         wmessage := "L3 traffic generation enabled but --l3node is not set";
         wfield := Some "l3Traffic" |} warnings in
  warnings.

Definition validateFlags (flags : TestnodeFlags) : ValidationResult :=
  let errors :=
    validateRuntimeDependencies flags
    ++ validateL3Dependencies flags
    ++ validateRangeConstraints flags in
  let warnings := generateWarnings flags in
  {| valid := (Z.of_nat (List.length errors) =? 0);
     errors := errors;
     warnings := warnings |}.

(** The three items the claims name, as the source builds them. *)
Definition nowaitRequiresDetach : ValidationError :=
  {| code := NOWAIT_REQUIRES_DETACH;
     message := "--nowait requires --detach to be provided";
     field := Some "nowait" |}.

Definition pricerRequiresFeeToken : ValidationError :=
  {| code := L3_FEE_TOKEN_PRICER_REQUIRES_FEE_TOKEN;
     message := "--l3-fee-token-pricer requires --l3-fee-token to be provided";
     field := Some "l3FeeTokenPricer" |}.

Definition decimalsRequireFeeToken : ValidationError :=
  {| code := L3_FEE_TOKEN_DECIMALS_REQUIRES_FEE_TOKEN;
     message := "--l3-fee-token-decimals requires --l3-fee-token to be provided";
     field := Some "l3FeeTokenDecimals" |}.

End Validation.

(* ================================================================= *)
(** ** JavaScript string primitives used by the sources

    A JavaScript string is a sequence of code units; the model keeps the
    code units below 256 ([ascii]).  [String.prototype.trim] and the
    regular-expression class [\s] remove/match the same set of code
    units (WhiteSpace and LineTerminator); below 256 these are TAB, LF,
    VT, FF, CR, SPACE and NBSP. *)

Module JsString.

Definition LF : ascii := ascii_of_nat 10.
Definition CR : ascii := ascii_of_nat 13.
Definition DQUOTE : ascii := ascii_of_nat 34.

Definition isWhiteSpace (c : ascii) : bool :=
  let n := N_of_ascii c in
  ((n =? 9) || (n =? 10) || (n =? 11) || (n =? 12) || (n =? 13)
   || (n =? 32) || (n =? 160))%N.

(** Truthiness of a string: [Boolean(s)]. *)
Definition truthy (s : string) : bool :=
  match s with EmptyString => false | String _ _ => true end.

Fixpoint trimStart (s : string) : string :=
  match s with
  | EmptyString => EmptyString
  | String c r => if isWhiteSpace c then trimStart r else s
  end.

Fixpoint trimEnd (s : string) : string :=
  match s with
  | EmptyString => EmptyString
  | String c r =>
      match trimEnd r with
      | EmptyString => if isWhiteSpace c then EmptyString else String c EmptyString
      | r' => String c r'
      end
  end.

(** [s.trim()] *)
Definition trim (s : string) : string := trimEnd (trimStart s).

(** [s.split(sep)] for a one-character separator: never empty. *)
Fixpoint splitChar (sep : ascii) (s : string) : list string :=
  match s with
  | EmptyString => [EmptyString]
  | String c r =>
      if Ascii.eqb c sep then EmptyString :: splitChar sep r
      else match splitChar sep r with
           | w :: ws => String c w :: ws
           | [] => [String c EmptyString]
           end
  end.

(** [s.split(/\s+/)]: the separators are the maximal runs of white space. *)
Fixpoint splitWhiteSpace (s : string) : list string :=
  match s with
  | EmptyString => [EmptyString]
  | String c r =>
      if isWhiteSpace c then
        match r with
        | String c' _ =>
            if isWhiteSpace c' then splitWhiteSpace r
            else EmptyString :: splitWhiteSpace r
        | EmptyString => EmptyString :: splitWhiteSpace r
        end
      else match splitWhiteSpace r with
           | w :: ws => String c w :: ws
           | [] => [String c EmptyString]
           end
  end.

(** [xs[xs.length - 1]], [undefined] being [None]. *)
Definition lastElement {A : Type} (xs : list A) : option A :=
  List.last (List.map Some xs) None.

(** [s.replace(/\r\n/g, '\n')] *)
Fixpoint replaceCRLF (s : string) : string :=
  match s with
  | String c1 (String c2 r as t) =>
      if Ascii.eqb c1 CR && Ascii.eqb c2 LF then String LF (replaceCRLF r)
      else String c1 (replaceCRLF t)
  | _ => s
  end.

(** [s.replace(/\r/g, '')] *)
Fixpoint removeCR (s : string) : string :=
  match s with
  | EmptyString => EmptyString
  | String c r => if Ascii.eqb c CR then removeCR r else String c (removeCR r)
  end.

(** [s.startsWith(p)] *)
Definition startsWith (s p : string) : bool := String.prefix p s.

(** [s.includes(p)] *)
Fixpoint includes (s p : string) : bool :=
  String.prefix p s ||
  match s with
  | EmptyString => false
  | String _ r => includes r p
  end.

(** [xs.join(sep)] *)
Definition join (sep : string) (xs : list string) : string := String.concat sep xs.

(** [xs.filter(Boolean)] on strings. *)
Definition filterTruthy (xs : list string) : list string := List.filter truthy xs.

End JsString.

(* ================================================================= *)
(** ** src/utils/logger.ts and src/utils/shell.ts

    The child processes are the environment: [CommandExecutor] answers
    each command from the commands issued so far.  Everything the
    program does to the outside is recorded in the [World]: the commands
    it ran and the lines it logged, newest first. *)

Module Shell.
Import JsString.

(** A thrown JavaScript value: an [Error] with its message, or any other
    value, kept as what [String(value)] gives. *)
Inductive Thrown :=
  | ErrorObj (message : string)
  | NonError (repr : string).

Record ExecOptions := {
  cwd : option string;
  env : option (list (string * string));
  timeout : option Z
}.

Record ExecResult := {
  stdout : string;
  stderr : string;
  code : Z
}.

Inductive Call :=
  | RunWithCode (cmd : string) (options : ExecOptions)
  | RunStreaming (cmd : string) (args : list string) (options : ExecOptions).

(** [execShell] is what the callback of [exec] reports ([stdout],
    [stderr] and [error?.code ?? 0]); [spawnShell] is the exit code of
    the spawned child ([code ?? 0]) or the value of its ['error'] event. *)
Class CommandExecutor := {
  execShell : list Call -> string -> ExecOptions -> ExecResult;
  spawnShell : list Call -> string -> list string -> ExecOptions -> Thrown + Z
}.

Inductive LogLevel := Info | Success | Warn | Error | Debug | Step | Command.

Record World := {
  verboseMode : bool;
  calls : list Call;
  logged : list (LogLevel * string)
}.

Definition initialWorld (verbose : bool) : World :=
  {| verboseMode := verbose; calls := []; logged := [] |}.

Inductive Outcome (A : Type) :=
  | Returned (a : A)
  | Threw (t : Thrown).
Arguments Returned {A} a.
Arguments Threw {A} t.

(** An [async] function: from the world before to its outcome and the
    world after. *)
Definition M (A : Type) : Type := World -> Outcome A * World.

Definition ret {A} (a : A) : M A := fun w => (Returned a, w).

Definition bind {A B} (m : M A) (k : A -> M B) : M B :=
  fun w =>
    match m w with
    | (Returned a, w') => k a w'
    | (Threw t, w') => (Threw t, w')
    end.

(** [throw t] *)
Definition throw {A} (t : Thrown) : M A := fun w => (Threw t, w).

(** [try { m } catch (error) { handler(error) }] *)
Definition tryCatch {A} (m : M A) (handler : Thrown -> M A) : M A :=
  fun w =>
    match m w with
    | (Returned a, w') => (Returned a, w')
    | (Threw t, w') => handler t w'
    end.

(** [if (c) { m }] *)
Definition when (c : bool) (m : M unit) : M unit :=
  if c then m else ret tt.

Definition appendLog (line : LogLevel * string) (w : World) : World :=
  {| verboseMode := verboseMode w; calls := calls w; logged := line :: logged w |}.

(** [console.log] / [console.error] of a line of the given kind. *)
Definition writeLog (level : LogLevel) (message : string) : M unit :=
  fun w => (Returned tt, appendLog (level, message) w).

Definition isVerbose : M bool := fun w => (Returned (verboseMode w), w).

Module logger.
Definition info (message : string) : M unit := writeLog Info message.
Definition success (message : string) : M unit := writeLog Success message.
Definition warn (message : string) : M unit := writeLog Warn message.
Definition error (message : string) : M unit := writeLog Error message.
Definition debug (message : string) : M unit :=
    bind isVerbose (fun v => when v (writeLog Debug message)).
Definition step (message : string) : M unit := writeLog Step message.
Definition command (cmd : string) : M unit :=
    bind isVerbose (fun v => when v (writeLog Command cmd)).
End logger.

Definition recordCall (c : Call) (w : World) : World :=
  {| verboseMode := verboseMode w; calls := c :: calls w; logged := logged w |}.

Section Executor.
Context {executor : CommandExecutor}.

Definition runStreaming (cmd : string) (args : list string) (options : ExecOptions)
  : M Z :=
  bind (logger.command (cmd ++ " " ++ join " " args)%string) (fun _ w =>
    let w' := recordCall (RunStreaming cmd args options) w in
    match spawnShell (calls w) cmd args options with
    | inl e => (Threw e, w')
    | inr c => (Returned c, w')
    end).

Definition runWithCode (cmd : string) (options : ExecOptions) : M ExecResult :=
  bind (logger.command cmd) (fun _ w =>
    (Returned (execShell (calls w) cmd options),
     recordCall (RunWithCode cmd options) w)).

End Executor.

Definition getLastLine (output : string) : string :=
  let lines := splitChar LF (trim output) in
  match lastElement lines with
  | Some l => trim l
  | None => EmptyString
  end.

Definition cleanOutput (output : string) : string :=
  trim (removeCR (replaceCRLF output)).

End Shell.

Declare Scope js_scope.
Delimit Scope js_scope with js.
Notation "x <- m ;; k" := (Shell.bind m (fun x => k))
  (at level 61, m at next level, right associativity) : js_scope.
Notation "m ;; k" := (Shell.bind m (fun _ => k))
  (at level 61, right associativity) : js_scope.

(* ================================================================= *)
(** ** src/docker/compose.ts *)

Module Compose.
Import JsString Shell.
Local Open Scope js_scope.

Record ComposeOptions := {
  composeFile : option string;
  projectName : option string;
  detach : bool;
  wait : bool;
  removeOrphans : bool;
  noBuild : bool;
  forceRecreate : bool;
  volumes : bool;
  (* inherited from ExecOptions *)
  cwd : option string;
  env : option (list (string * string));
  timeout : option Z
}.

(** The option bags the callers write: [{ cwd }], [{ cwd, detach: true }],
    [{ cwd, timeout }] and [{ detach: true, wait, cwd }]. *)
Definition options (cwd : string) (detach wait : bool) (timeout : option Z)
  : ComposeOptions :=
  {| composeFile := None; projectName := None;
     detach := detach; wait := wait;
     removeOrphans := false; noBuild := false; forceRecreate := false;
     volumes := false;
     cwd := Some cwd; env := None; timeout := timeout |}.

Definition truthyOpt (o : option string) : bool :=
  match o with Some s => truthy s | None => false end.

Definition buildBaseArgs (options : ComposeOptions) : list string :=
  let args := [] in
  let args :=
    if truthyOpt (composeFile options)
    then args ++ ["-f"; match composeFile options with Some f => f | None => "" end]
    else args in
  let args :=
    if truthyOpt (projectName options)
    then args ++ ["-p"; match projectName options with Some p => p | None => "" end]
    else args in
  args.

Section Executor.
Context {executor : CommandExecutor}.

Definition composeRun (service : string) (command : list string)
    (options : ComposeOptions) : M ExecResult :=
  let baseArgs := buildBaseArgs options in
  let cmd :=
    join " " (["docker"; "compose"] ++ baseArgs ++ ["run"; "--rm"; service] ++ command) in
  runWithCode cmd
    {| Shell.cwd := cwd options; Shell.env := env options;
       Shell.timeout := timeout options |}.

Definition composeUp (services : list string) (options : ComposeOptions) : M Z :=
  let baseArgs := buildBaseArgs options in
  let upArgs := [] in
  let upArgs := if detach options then upArgs ++ ["-d"] else upArgs in
  let upArgs := if wait options then upArgs ++ ["--wait"] else upArgs in
  let upArgs := if removeOrphans options then upArgs ++ ["--remove-orphans"] else upArgs in
  let upArgs := if noBuild options then upArgs ++ ["--no-build"] else upArgs in
  let upArgs := if forceRecreate options then upArgs ++ ["--force-recreate"] else upArgs in
  let args := ["compose"] ++ baseArgs ++ ["up"] ++ upArgs ++ services in
  runStreaming "docker" args
    {| Shell.cwd := cwd options; Shell.env := env options; Shell.timeout := None |}.

Definition composeDown (options : ComposeOptions) : M ExecResult :=
  let baseArgs := buildBaseArgs options in
  let downArgs := [] in
  let downArgs := if volumes options then downArgs ++ ["-v"] else downArgs in
  let downArgs :=
    if removeOrphans options then downArgs ++ ["--remove-orphans"] else downArgs in
  let cmd := join " " (["docker"; "compose"] ++ baseArgs ++ ["down"] ++ downArgs) in
  runWithCode cmd
    {| Shell.cwd := cwd options; Shell.env := env options;
       Shell.timeout := timeout options |}.

End Executor.
End Compose.

(* ================================================================= *)
(** ** src/orchestration: index.ts, l1-setup.ts, prysm.ts, timeboost.ts *)

Module Orchestration.
Import JsString Shell Compose.
Local Open Scope js_scope.

(** src/orchestration/anytrust.ts *)
Record AnyTrustConfig := {
  dasBlsA : string;
  dasBlsB : string
}.

Record InitContext := {
  flags : Flags.TestnodeFlags;
  workDir : string;
  l2OwnerAddress : option string;
  l2OwnerKey : option string;
  sequencerAddress : option string;
  wasmRoot : option string;
  l1ChainId : Z;
  anyTrustConfig : option AnyTrustConfig
}.

(** [ctx.l2OwnerAddress = a] *)
Definition setL2OwnerAddress (ctx : InitContext) (a : string) : InitContext :=
  {| flags := flags ctx; workDir := workDir ctx;
     l2OwnerAddress := Some a; l2OwnerKey := l2OwnerKey ctx;
     sequencerAddress := sequencerAddress ctx; wasmRoot := wasmRoot ctx;
     l1ChainId := l1ChainId ctx; anyTrustConfig := anyTrustConfig ctx |}.

(** [ctx.anyTrustConfig = c] *)
Definition setAnyTrustConfig (ctx : InitContext) (c : option AnyTrustConfig)
  : InitContext :=
  {| flags := flags ctx; workDir := workDir ctx;
     l2OwnerAddress := l2OwnerAddress ctx; l2OwnerKey := l2OwnerKey ctx;
     sequencerAddress := sequencerAddress ctx; wasmRoot := wasmRoot ctx;
     l1ChainId := l1ChainId ctx; anyTrustConfig := c |}.

(** A phase mutates the context it is given; the model returns the
    context as the phase left it. *)
Record InitPhase := {
  name : string;
  run : InitContext -> M InitContext;
  skip : option (InitContext -> bool)
}.

Definition TESTNODE_VOLUME_PREFIX : string := "nitro-testnode".

(** [new Error(message)] thrown. *)
Definition throwError {A} (message : string) : M A := throw (ErrorObj message).

Section Executor.
Context {executor : CommandExecutor}.

(* ----------------------------------------------------------------- *)
(** *** prysm.ts *)

Definition writePrysmConfig (ctx : InitContext) : M unit :=
  logger.step "Writing Prysm config" ;;
  result <- composeRun "scripts" ["write-prysm-config"]
              (options (workDir ctx) false false None) ;;
  if negb (code result =? 0)
  then throwError ("Failed to write Prysm config: " ++ stderr result)%string
  else ret tt.

Definition createBeaconChainGenesis (ctx : InitContext) : M unit :=
  logger.step "Creating Prysm genesis" ;;
  result <- composeRun "create_beacon_chain_genesis" []
              (options (workDir ctx) false false (Some 120000)) ;;
  if negb (code result =? 0)
  then throwError ("Failed to create beacon chain genesis: " ++ stderr result)%string
  else ret tt.

Definition startBeaconChain (ctx : InitContext) : M unit :=
  logger.step "Starting Prysm beacon chain" ;;
  exitCode <- composeUp ["prysm_beacon_chain"] (options (workDir ctx) true false None) ;;
  if negb (exitCode =? 0)
  then throwError "Failed to start Prysm beacon chain"
  else ret tt.

Definition startValidator (ctx : InitContext) : M unit :=
  logger.step "Starting Prysm validator" ;;
  exitCode <- composeUp ["prysm_validator"] (options (workDir ctx) true false None) ;;
  if negb (exitCode =? 0)
  then throwError "Failed to start Prysm validator"
  else ret tt.

Definition setupPrysm (ctx : InitContext) : M unit :=
  if negb (Flags.pos (flags ctx))
  then logger.debug "Skipping Prysm setup (PoS not enabled)"
  else
    logger.step "Setting up Prysm PoS consensus" ;;
    writePrysmConfig ctx ;;
    createBeaconChainGenesis ctx ;;
    startBeaconChain ctx ;;
    startValidator ctx ;;
    logger.success "Prysm PoS setup complete".

(* ----------------------------------------------------------------- *)
(** *** l1-setup.ts *)

Definition generateL1Keys (ctx : InitContext) : M unit :=
  logger.step "Generating L1 keys" ;;
  writeAccountsResult <- composeRun "scripts" ["write-accounts"]
                           (options (workDir ctx) false false None) ;;
  if negb (code writeAccountsResult =? 0)
  then throwError ("Failed to write accounts: " ++ stderr writeAccountsResult)%string
  else
  passphraseResult <- composeRun "geth" ["sh"; "-c"; "echo passphrase > /datadir/passphrase"]
                        (options (workDir ctx) false false None) ;;
  if negb (code passphraseResult =? 0)
  then throwError ("Failed to create passphrase: " ++ stderr passphraseResult)%string
  else
  keystoreResult <- composeRun "geth" ["sh"; "-c"; "chown -R 1000:1000 /keystore"]
                      (options (workDir ctx) false false None) ;;
  if negb (code keystoreResult =? 0)
  then throwError ("Failed to fix keystore ownership: " ++ stderr keystoreResult)%string
  else
  configResult <- composeRun "geth" ["sh"; "-c"; "chown -R 1000:1000 /config"]
                    (options (workDir ctx) false false None) ;;
  if negb (code configResult =? 0)
  then throwError ("Failed to fix config ownership: " ++ stderr configResult)%string
  else
  logger.success "L1 keys generated".

Definition writeGethGenesis (ctx : InitContext) : M unit :=
  logger.step "Writing geth genesis config" ;;
  result <- composeRun "scripts" ["write-geth-genesis-config"]
              (options (workDir ctx) false false None) ;;
  if negb (code result =? 0)
  then throwError ("Failed to write geth genesis config: " ++ stderr result)%string
  else ret tt.

Definition initializeGeth (ctx : InitContext) : M unit :=
  logger.step "Initializing geth genesis configuration" ;;
  result <- composeRun "geth"
              ["init"; "--state.scheme"; "hash"; "--datadir"; "/datadir/";
               "/config/geth_genesis.json"]
              (options (workDir ctx) false false None) ;;
  if negb (code result =? 0)
  then throwError ("Failed to initialize geth: " ++ stderr result)%string
  else ret tt.

(** The sync-wait step of [startGeth]: its [composeRun] call, named so
    that statements can refer to it. *)
Definition waitForSync (ctx : InitContext) : M ExecResult :=
  composeRun "scripts" ["wait-for-sync"; "--url"; "http://geth:8545"]
    (options (workDir ctx) false false (Some 120000)).

Definition startGeth (ctx : InitContext) : M unit :=
  logger.step "Starting geth" ;;
  exitCode <- composeUp ["geth"] (options (workDir ctx) true false None) ;;
  if negb (exitCode =? 0)
  then throwError "Failed to start geth"
  else
  logger.step "Waiting for geth to sync" ;;
  syncResult <- waitForSync ctx ;;
  if negb (code syncResult =? 0)
  then throwError ("Geth sync failed: " ++ stderr syncResult)%string
  else
  logger.success "Geth is ready".

(** [for (const account of accounts) { ... }] *)
Fixpoint fundEach (ctx : InitContext) (accounts : list string) : M unit :=
  match accounts with
  | [] => ret tt
  | account :: rest =>
      logger.debug ("Funding " ++ account)%string ;;
      result <- composeRun "scripts"
                  ["send-l1"; "--ethamount"; "1000"; "--to"; account; "--wait"]
                  (options (workDir ctx) false false None) ;;
      if negb (code result =? 0)
      then throwError ("Failed to fund " ++ account ++ ": " ++ stderr result)%string
      else fundEach ctx rest
  end.

Definition fundAccounts (ctx : InitContext) : M unit :=
  logger.step "Funding validator, sequencer and l2owner" ;;
  let accounts := ["validator"; "sequencer"; "l2owner"] in
  fundEach ctx accounts ;;
  logger.success "Accounts funded".

Definition getL2OwnerAddress (ctx : InitContext) : M string :=
  result <- composeRun "scripts" ["print-address"; "--account"; "l2owner"]
              (options (workDir ctx) false false None) ;;
  if negb (code result =? 0)
  then throwError ("Failed to get l2owner address: " ++ stderr result)%string
  else
  let address := cleanOutput (getLastLine (stdout result)) in
  if negb (truthy address) || negb (startsWith address "0x")
  then throwError ("Invalid l2owner address: " ++ address)%string
  else ret address.

Definition setupL1 (ctx : InitContext) : M InitContext :=
  generateL1Keys ctx ;;
  writeGethGenesis ctx ;;
  setupPrysm ctx ;;
  initializeGeth ctx ;;
  startGeth ctx ;;
  fundAccounts ctx ;;
  address <- getL2OwnerAddress ctx ;;
  let ctx := setL2OwnerAddress ctx address in
  logger.debug ("L2 owner address: " ++ address)%string ;;
  logger.success "L1 setup complete" ;;
  ret ctx.

(* ----------------------------------------------------------------- *)
(** *** timeboost.ts *)

Definition deployBiddingToken (ctx : InitContext) : M string :=
  logger.step "Deploying bidding token" ;;
  result <- composeRun "scripts" ["create-erc20"; "--deployer"; "auctioneer"]
              (options (workDir ctx) false false (Some 120000)) ;;
  if negb (code result =? 0)
  then throwError ("Failed to deploy bidding token: " ++ stderr result)%string
  else
  (* Extract token address from output (last word of last line) *)
  let lastLine := getLastLine (stdout result) in
  let words := splitWhiteSpace lastLine in
  let tokenAddress :=
    cleanOutput (match lastElement words with
                 | Some w => if truthy w then w else ""
                 | None => ""
                 end) in
  if negb (truthy tokenAddress) || negb (startsWith tokenAddress "0x")
  then throwError ("Invalid bidding token address: " ++ tokenAddress)%string
  else
  logger.debug ("Bidding token address: " ++ tokenAddress)%string ;;
  ret tokenAddress.

End Executor.

(* ----------------------------------------------------------------- *)
(** *** index.ts

    [buildDockerImages], [deployL2], [configureL2Nodes] and
    [setupTrafficGenerators] are imported sub-workflows; the scheduler
    is modelled for arbitrary bodies of them. *)

Section Index.
Context {executor : CommandExecutor}.
Variable buildDockerImages : InitContext -> M InitContext.
Variable deployL2 : InitContext -> M (InitContext * option AnyTrustConfig).
Variable configureL2Nodes : InitContext -> option AnyTrustConfig -> M InitContext.
Variable setupTrafficGenerators : InitContext -> M InitContext.

(** The two "remove leftovers" blocks of [cleanupExisting]:
    [if (result.code === 0 && result.stdout.trim()) { ... }]. *)
Definition removeLeftovers (ctx : InitContext) (result : ExecResult)
    (kind : string) (rmCommand : string) : M unit :=
  when ((code result =? 0) && truthy (trim (stdout result)))
    (let ids := filterTruthy (splitChar LF (trim (stdout result))) in
     when (0 <? Z.of_nat (List.length ids))
       (logger.debug ("Removing " ++ numberToString (Z.of_nat (List.length ids))
                      ++ " leftover " ++ kind ++ "(s)")%string ;;
        _ <- runWithCode (rmCommand ++ " " ++ join " " ids)%string
               {| Shell.cwd := Some (workDir ctx); Shell.env := None;
                  Shell.timeout := None |} ;;
        ret tt)).

Definition cleanupExisting (ctx : InitContext) : M InitContext :=
  let cwdOnly :=
    {| Shell.cwd := Some (workDir ctx); Shell.env := None; Shell.timeout := None |} in
  logger.step "Removing old data" ;;
  (* docker compose down *)
  downResult <- composeDown
                  {| composeFile := None; projectName := None; detach := false;
                     wait := false; removeOrphans := false; noBuild := false;
                     forceRecreate := false; volumes := false;
                     Compose.cwd := Some (workDir ctx); Compose.env := None;
                     Compose.timeout := None |} ;;
  when (negb (code downResult =? 0))
    (logger.debug ("Compose down warning: " ++ stderr downResult)%string) ;;
  (* Remove leftover containers *)
  containersResult <-
    runWithCode
      "docker container ls -a --filter label=com.docker.compose.project=nitro-testnode -q"
      cwdOnly ;;
  removeLeftovers ctx containersResult "container" "docker rm" ;;
  (* Prune volumes with project label *)
  _ <- runWithCode
         ("docker volume prune -f --filter label=com.docker.compose.project="
          ++ TESTNODE_VOLUME_PREFIX)%string cwdOnly ;;
  (* Remove leftover volumes *)
  volumesResult <-
    runWithCode
      ("docker volume ls --filter label=com.docker.compose.project="
       ++ TESTNODE_VOLUME_PREFIX ++ " -q")%string cwdOnly ;;
  removeLeftovers ctx volumesResult "volume" "docker volume rm" ;;
  logger.success "Cleanup complete" ;;
  ret ctx.

Definition launchServices (ctx : InitContext) : M InitContext :=
  let services := Services.calculateServices (Services.ofTestnodeFlags (flags ctx)) in
  logger.step ("Starting services: "
               ++ join ", " (List.map Services.serviceString services))%string ;;
  let useWait := negb (Flags.nowait (flags ctx)) in
  exitCode <- composeUp (List.map Services.serviceString services)
                (options (workDir ctx) true useWait None) ;;
  if negb (exitCode =? 0)
  then throwError "Failed to launch services"
  else
  logger.success "Services launched" ;;
  ret ctx.

Definition createInitPhases : list InitPhase :=
  [ {| name := "Cleanup existing data";
       run := cleanupExisting;
       skip := None |};
    {| name := "Build docker images";
       run := fun ctx => buildDockerImages ctx;
       skip := None |};
    {| name := "Setup L1 chain";
       run := fun ctx => setupL1 ctx;
       skip := None |};
    {| name := "Deploy L2 chain";
       run := fun ctx =>
                r <- deployL2 ctx ;;
                ret (setAnyTrustConfig (fst r) (snd r));
       skip := None |};
    {| name := "Configure L2 nodes";
       run := fun ctx => configureL2Nodes ctx (anyTrustConfig ctx);
       skip := None |};
    {| name := "Setup traffic generators";
       run := fun ctx => setupTrafficGenerators ctx;
       skip := Some (fun ctx =>
                 negb (Flags.l1Traffic (flags ctx))
                 && negb (Flags.l2Traffic (flags ctx))
                 && negb (Flags.l3Traffic (flags ctx))) |};
    {| name := "Launch services";
       run := launchServices;
       skip := None |} ].

(** [phase.skip?.(ctx)] as a condition. *)
Definition skipped (phase : InitPhase) (ctx : InitContext) : bool :=
  match skip phase with
  | Some p => p ctx
  | None => false
  end.

(** [error instanceof Error ? error.message : String(error)] *)
Definition errorMessageOf (error : Thrown) : string :=
  match error with
  | ErrorObj message => message
  | NonError repr => repr
  end.

(** The body of the [for (const phase of phases)] loop of [runInit]. *)
Definition runPhase (phase : InitPhase) (ctx : InitContext) : M InitContext :=
  if skipped phase ctx
  then logger.debug ("Skipping phase: " ++ name phase)%string ;; ret ctx
  else
    logger.info (name phase) ;;
    tryCatch (run phase ctx)
      (fun error =>
         let errorMessage := errorMessageOf error in
         logger.error ("Phase " ++ String DQUOTE (name phase) ++ String DQUOTE " failed: "
                       ++ errorMessage)%string ;;
         throw error).

(** The [for (const phase of phases)] loop of [runInit]. *)
Fixpoint runPhases (phases : list InitPhase) (ctx : InitContext) : M InitContext :=
  match phases with
  | [] => ret ctx
  | phase :: rest =>
      ctx' <- runPhase phase ctx ;;
      runPhases rest ctx'
  end.

Definition runInit (flags : Flags.TestnodeFlags) (workDir : string) : M unit :=
  logger.info "Initializing Nitro Testnode" ;;
  let ctx :=
    {| flags := flags; workDir := workDir;
       l2OwnerAddress := None; l2OwnerKey := None;
       sequencerAddress := None; wasmRoot := None;
       l1ChainId := 1337; anyTrustConfig := None |} in
  let phases := createInitPhases in
  _ <- runPhases phases ctx ;;
  logger.success "Testnode initialization complete".

End Index.
End Orchestration.

(* ================================================================= *)
(** ** Specification-level definitions *)

(** The output-extraction rule in the words of the specification: the
    final non-empty line of the trimmed output, split on white space,
    last element taken, carriage returns stripped.  It is compared with
    what [deployBiddingToken] computes. *)
Module OutputExtraction.
Import JsString.

Definition finalNonEmptyLine (output : string) : string :=
  List.last (filterTruthy (splitChar LF (trim output))) EmptyString.

Definition lastToken (output : string) : string :=
  removeCR (List.last (splitWhiteSpace (finalNonEmptyLine output)) EmptyString).

(** Two notions used to compare the rule with the source: a string
    without white-space code units, *)
Fixpoint noWhiteSpace (s : string) : bool :=
  match s with
  | EmptyString => true
  | String c r => negb (isWhiteSpace c) && noWhiteSpace r
  end.

(** and the value [tokenAddress] of [deployBiddingToken], as a function
    of the command's standard output. *)
Definition extracted (output : string) : string :=
  Shell.cleanOutput
    (match lastElement (splitWhiteSpace (Shell.getLastLine output)) with
     | Some w => if truthy w then w else ""
     | None => ""
     end).

End OutputExtraction.

Module Scheduler.
Import JsString Shell Compose Orchestration.
Local Open Scope js_scope.

Section Reach.
Context {executor : CommandExecutor}.
Variable buildDockerImages : InitContext -> M InitContext.
Variable deployL2 : InitContext -> M (InitContext * option AnyTrustConfig).
Variable configureL2Nodes : InitContext -> option AnyTrustConfig -> M InitContext.
Variable setupTrafficGenerators : InitContext -> M InitContext.

(** The context [runInit] starts from. *)
Definition initialContext (flags : Flags.TestnodeFlags) (workDir : string)
  : InitContext :=
  {| Orchestration.flags := flags; Orchestration.workDir := workDir;
     l2OwnerAddress := None; l2OwnerKey := None;
     sequencerAddress := None; wasmRoot := None;
     l1ChainId := 1337; anyTrustConfig := None |}.

(** The part of [runInit] that precedes a given phase: the banner and
    the phases [pre], all of which have to return. *)
Definition runBefore (pre : list InitPhase) (flags : Flags.TestnodeFlags)
    (workDir : string) : M InitContext :=
  logger.info "Initializing Nitro Testnode" ;;
  runPhases pre (initialContext flags workDir).

(** The part of [runInit] that precedes [startGeth]: the banner, the
    two phases before "Setup L1 chain", the announcement of that phase
    and the steps of [setupL1] up to [initializeGeth]. *)
Definition runUntilStartGeth (flags : Flags.TestnodeFlags) (workDir : string)
  : M InitContext :=
  ctx <- runBefore
           (List.firstn 2 (createInitPhases buildDockerImages deployL2
                             configureL2Nodes setupTrafficGenerators))
           flags workDir ;;
  logger.info "Setup L1 chain" ;;
  generateL1Keys ctx ;;
  writeGethGenesis ctx ;;
  setupPrysm ctx ;;
  initializeGeth ctx ;;
  ret ctx.

(** The line the scheduler logs when a phase fails. *)
Definition phaseFailedLine (phase : InitPhase) (error : Thrown) : LogLevel * string :=
  (Error,
   ("Phase " ++ String DQUOTE (name phase) ++ String DQUOTE " failed: "
    ++ errorMessageOf error)%string).

End Reach.

(** The world after [logger.command cmd]: the line is written in
    verbose mode only. *)
Definition commandLogged (cmd : string) (w : World) : World :=
  if verboseMode w then appendLog (Command, cmd) w else w.

(** The two commands of [startGeth], as [composeUp] and [composeRun]
    hand them to the executor. *)
Definition gethUpArgs : list string := ["compose"; "up"; "-d"; "geth"].

Definition gethUpOptions (ctx : InitContext) : ExecOptions :=
  {| Shell.cwd := Some (workDir ctx); Shell.env := None; Shell.timeout := None |}.

Definition syncWaitCommand : string :=
  "docker compose run --rm scripts wait-for-sync --url http://geth:8545".

Definition syncWaitOptions (ctx : InitContext) : ExecOptions :=
  {| Shell.cwd := Some (workDir ctx); Shell.env := None;
     Shell.timeout := Some 120000 |}.

(** The command of [deployBiddingToken]. *)
Definition createTokenCommand : string :=
  "docker compose run --rm scripts create-erc20 --deployer auctioneer".

Definition createTokenOptions (ctx : InitContext) : ExecOptions :=
  {| Shell.cwd := Some (workDir ctx); Shell.env := None;
     Shell.timeout := Some 120000 |}.

End Scheduler.

(* ================================================================= *)
(** ** Concrete inputs used by the examples *)

Module Examples.
Import JsString Shell Compose Orchestration.
Local Open Scope js_scope.

(** [defaultFlags] with the fields the validation examples vary. *)
Definition exampleFlags (l3node pricer nowait : bool) (decimals : JsNumber)
  : Flags.TestnodeFlags := {|
  Flags.init := false;
  Flags.force := false;
  Flags.devNitro := false;
  Flags.devBlockscout := false;
  Flags.devContracts := false;
  Flags.build := false;
  Flags.buildDevNitro := false;
  Flags.buildDevBlockscout := false;
  Flags.buildUtils := false;
  Flags.forceBuildUtils := false;
  Flags.buildNodeImages := false;
  Flags.validate := false;
  Flags.blockscout := false;
  Flags.tokenbridge := false;
  Flags.l3node := l3node;
  Flags.l3FeeToken := false;
  Flags.l3FeeTokenPricer := pricer;
  Flags.l3FeeTokenDecimals := decimals;
  Flags.l3TokenBridge := false;
  Flags.l2Anytrust := false;
  Flags.l2Timeboost := false;
  Flags.batchposters := 1;
  Flags.redundantsequencers := 0;
  Flags.pos := false;
  Flags.run := true;
  Flags.detach := false;
  Flags.nowait := nowait;
  Flags.simple := true;
  Flags.l1Traffic := true;
  Flags.l2Traffic := true;
  Flags.l3Traffic := true;
  Flags.ci := false;
  Flags.verbose := false
|}.

(** An executor whose every command succeeds with empty output, except
    the sync wait, which exits with code 1. *)
Definition syncFailingExecutor : CommandExecutor := {|
  execShell := fun _ cmd _ =>
    if String.eqb cmd Scheduler.syncWaitCommand
    then {| stdout := ""; stderr := "timed out"; code := 1 |}
    else {| stdout := ""; stderr := ""; code := 0 |};
  spawnShell := fun _ _ _ _ => inr 0
|}.

(** A sub-workflow body that runs one command named [tag]. *)
Definition noisy {executor : CommandExecutor} (tag : string) (ctx : InitContext)
  : M InitContext :=
  _ <- runWithCode tag {| Shell.cwd := None; Shell.env := None; Shell.timeout := None |} ;;
  ret ctx.

Definition noisyDeployL2 {executor : CommandExecutor} (ctx : InitContext)
  : M (InitContext * option AnyTrustConfig) :=
  ctx' <- noisy "deploy-l2" ctx ;;
  ret (ctx', None).

(** A run of [runInit] against [syncFailingExecutor]. *)
Definition syncFailingRun : Outcome unit * World :=
  runInit (executor := syncFailingExecutor)
    (noisy (executor := syncFailingExecutor) "build")
    (noisyDeployL2 (executor := syncFailingExecutor))
    (fun ctx _ => noisy (executor := syncFailingExecutor) "configure-l2" ctx)
    (noisy (executor := syncFailingExecutor) "traffic")
    Flags.defaultFlags "/testnode" (initialWorld false).

(** The sub-workflow bodies and phases of that run. *)
Definition syncFailingPhases : list InitPhase :=
  createInitPhases (executor := syncFailingExecutor)
    (noisy (executor := syncFailingExecutor) "build")
    (noisyDeployL2 (executor := syncFailingExecutor))
    (fun ctx _ => noisy (executor := syncFailingExecutor) "configure-l2" ctx)
    (noisy (executor := syncFailingExecutor) "traffic").

(** Whether the command [tag] was run in the world [w]. *)
Definition ranCommand (tag : string) (w : World) : bool :=
  List.existsb
    (fun c => match c with
              | RunWithCode cmd _ => String.eqb cmd tag
              | RunStreaming _ _ _ => false
              end)
    (calls w).

(** [defaultFlags] (simple mode) with two batch posters. *)
Definition simpleTwoPosters : Flags.TestnodeFlags :=
  Flags.withBatchposters Flags.defaultFlags 2.

(** Output of a token deployment: two lines, the address last. *)
Definition tokenOutput : string :=
  ("Deploying contract" ++ String LF
     ("Contract deployed at address: 0xABCDEF0123456789000000000000000000000000"
      ++ String CR (String LF "")))%string.

Definition tokenExecutor : CommandExecutor := {|
  execShell := fun _ _ _ => {| stdout := tokenOutput; stderr := ""; code := 0 |};
  spawnShell := fun _ _ _ _ => inr 0
|}.

End Examples.

(* ================================================================= *)
(** ** src/config/services.ts: grouping and formatting *)

Module ServiceGroups.
Import JsString Services.

(** The object [categorizeServices] returns. *)
Record Categories := {
  core : list ServiceName;
  sequencers : list ServiceName;
  posters : list ServiceName;
  validation : list ServiceName;
  l3 : list ServiceName;
  explorer : list ServiceName;
  timeboost : list ServiceName
}.

(** [s === 'redis'] and the like: equality of service names. *)
Definition same (a b : ServiceName) : bool :=
  if ServiceName_eq_dec a b then true else false.

Definition categorizeServices (services : list ServiceName) : Categories := {|
  core := List.filter (fun s => same s redis) services;
  sequencers :=
    List.filter
      (fun s => same s sequencer || same s sequencer_b || same s sequencer_c || same s sequencer_d)
      services;
  posters := List.filter (fun s => same s poster || same s poster_b || same s poster_c) services;
  validation := List.filter (fun s => same s validator || same s staker_unsafe) services;
  l3 := List.filter (fun s => same s l3node_service) services;
  explorer := List.filter (fun s => same s blockscout_service) services;
  timeboost :=
    List.filter (fun s => same s timeboost_auctioneer || same s timeboost_bid_validator) services
|}.

Definition formatServicesForCompose (services : list ServiceName) : string :=
  join " " (List.map serviceString services).

(** The service names no category of [categorizeServices] tests for. *)
Definition uncategorized (s : ServiceName) : bool :=
  same s geth || same s beacon_chain || same s validator_client || same s prysm.

(** A list without repeated service names, as a test. *)
Fixpoint distinct (l : list ServiceName) : bool :=
  match l with
  | [] => true
  | x :: r => negb (List.existsb (same x) r) && distinct r
  end.

(** A string in which the code unit [c] does not occur. *)
Fixpoint lacksChar (c : ascii) (s : string) : bool :=
  match s with
  | EmptyString => true
  | String x r => negb (Ascii.eqb x c) && lacksChar c r
  end.

(** All services of all categories, category by category. *)
Definition allCategorized (c : Categories) : list ServiceName :=
  core c ++ sequencers c ++ posters c ++ validation c ++ l3 c ++ explorer c ++ timeboost c.

End ServiceGroups.

(* ================================================================= *)
(** ** src/config/validation.ts: [assertValidFlags] *)

Module ValidationAssert.
Import JsString Shell Flags Validation.

(** A synchronous function: it returns or throws, and touches nothing. *)
Definition assertValidFlags (flags : TestnodeFlags) : Outcome unit :=
  let result := validateFlags flags in
  if negb (valid result) then
    let errorMessages := join (String LF "") (List.map message (errors result)) in
    Threw (ErrorObj ("Invalid flag configuration:" ++ String LF errorMessages)%string)
  else Returned tt.

(** The fatal rules of the validator, one proposition per rule.  The
    range rule of the decimals is the negation of the validator's test
    [decimals < 0 || decimals > 36], which is false of [NaN] as it is of
    the integers from 0 to 36. *)
Record Rules (flags : TestnodeFlags) : Prop := {
  rule_nowait : nowait flags = true -> detach flags = true;
  rule_fee_token : l3FeeToken flags = true -> l3node flags = true;
  rule_pricer : l3FeeTokenPricer flags = true -> l3FeeToken flags = true;
  rule_decimals : l3FeeTokenDecimals flags <> Integer 18 -> l3FeeToken flags = true;
  rule_bridge : l3TokenBridge flags = true -> l3node flags = true;
  rule_decimals_range :
    match l3FeeTokenDecimals flags with
    | Integer decimals => 0 <= decimals <= 36
    | NaN => True
    end;
  rule_batchposters : 0 <= batchposters flags <= 3;
  rule_redundantsequencers : 0 <= redundantsequencers flags <= 3
}.

End ValidationAssert.

(* ================================================================= *)
(** ** src/commands/init.ts *)

Module InitCommand.
Import JsString Shell Orchestration.
Local Open Scope js_scope.

Record InitCommandFlags := {
  force : bool;
  simple : bool;
  l3node : bool;
  l3FeeToken : bool;
  l3FeeTokenDecimals : JsNumber;
  l3FeeTokenPricer : bool;
  l3TokenBridge : bool;
  tokenbridge : bool;
  blockscout : bool;
  l2Anytrust : bool;
  l2Timeboost : bool;
  pos : bool;
  validate : bool;
  batchposters : Z;
  redundantsequencers : Z;
  devNitro : bool;
  devBlockscout : bool;
  devContracts : bool;
  build : bool;
  buildDevNitro : bool;
  buildDevBlockscout : bool;
  buildUtils : bool;
  forceBuildUtils : bool;
  buildNodeImages : bool;
  l1Traffic : bool;
  l2Traffic : bool;
  l3Traffic : bool;
  ci : bool;
  verbose : bool
}.

Definition toTestnodeFlags (flags : InitCommandFlags) : Flags.TestnodeFlags :=
  let effectiveSimple := simple flags in
  let effectiveSimple :=
    if devNitro flags || devBlockscout flags then false else effectiveSimple in
  let effectiveSimple := if validate flags then false else effectiveSimple in
  let effectiveSimple := if 1 <? batchposters flags then false else effectiveSimple in
  let effectiveSimple :=
    if 0 <? redundantsequencers flags then false else effectiveSimple in
  {| Flags.init := true;
     Flags.force := force flags;
     Flags.run := true;
     Flags.detach := false;
     Flags.nowait := false;
     Flags.simple := effectiveSimple;
     Flags.l3node := l3node flags;
     Flags.l3FeeToken := l3FeeToken flags;
     Flags.l3FeeTokenDecimals := l3FeeTokenDecimals flags;
     Flags.l3FeeTokenPricer := l3FeeTokenPricer flags;
     Flags.l3TokenBridge := l3TokenBridge flags;
     Flags.tokenbridge := tokenbridge flags;
     Flags.blockscout := blockscout flags;
     Flags.l2Anytrust := l2Anytrust flags;
     Flags.l2Timeboost := l2Timeboost flags;
     Flags.pos := pos flags;
     Flags.validate := validate flags;
     Flags.batchposters := batchposters flags;
     Flags.redundantsequencers := redundantsequencers flags;
     Flags.devNitro := devNitro flags;
     Flags.devBlockscout := devBlockscout flags;
     Flags.devContracts := devContracts flags;
     Flags.build := build flags;
     Flags.buildDevNitro := buildDevNitro flags;
     Flags.buildDevBlockscout := buildDevBlockscout flags;
     Flags.buildUtils := buildUtils flags;
     Flags.forceBuildUtils := forceBuildUtils flags;
     Flags.buildNodeImages := buildNodeImages flags;
     Flags.l1Traffic := l1Traffic flags;
     Flags.l2Traffic := l2Traffic flags;
     Flags.l3Traffic := l3Traffic flags;
     Flags.ci := ci flags;
     Flags.verbose := verbose flags |}.

(** [for (const x of xs) { f(x) }] *)
Fixpoint forEach {A} (f : A -> M unit) (xs : list A) : M unit :=
  match xs with
  | [] => ret tt
  | x :: rest => f x ;; forEach f rest
  end.

Definition displayWarnings (result : Validation.ValidationResult) : M unit :=
  forEach (fun warning => logger.warn (Validation.wmessage warning))
    (Validation.warnings result).

Section Command.
Context {executor : CommandExecutor}.
Variable buildDockerImages : InitContext -> M InitContext.
Variable deployL2 : InitContext -> M (InitContext * option AnyTrustConfig).
Variable configureL2Nodes : InitContext -> option AnyTrustConfig -> M InitContext.
Variable setupTrafficGenerators : InitContext -> M InitContext.
(** [process.cwd()] *)
Variable processCwd : string.

(** [options] is [{ cwd?: string }]; only [cwd] is passed here. *)
Definition initCommand (flags : InitCommandFlags) (cwd : option string) : M unit :=
  let testnodeFlags := toTestnodeFlags flags in
  (* Validate flags *)
  let validation := Validation.validateFlags testnodeFlags in
  if negb (Validation.valid validation) then
    forEach (fun error => logger.error (Validation.message error))
      (Validation.errors validation) ;;
    throwError "Invalid flag configuration"
  else
  (* Display warnings *)
  when (0 <? Z.of_nat (List.length (Validation.warnings validation)))
    (displayWarnings validation) ;;
  (* Run initialization *)
  let workDir := match cwd with Some d => d | None => processCwd end in
  runInit buildDockerImages deployL2 configureL2Nodes setupTrafficGenerators
    testnodeFlags workDir.

End Command.
End InitCommand.

(* ================================================================= *)
(** ** Worlds reached by the logging helpers *)

Module Worlds.
Import Shell.

(** The world after [logger.debug message]: the line is written in
    verbose mode only. *)
Definition debugLogged (message : string) (w : World) : World :=
  if verboseMode w then appendLog (Debug, message) w else w.

(** The commands run between the world [before] and the world [after],
    oldest first, when [after] continues [before]. *)
Definition ranSince (before after : World) : list Call :=
  List.rev (List.firstn (List.length (calls after) - List.length (calls before))
              (calls after)).

(** The options [{ cwd: ctx.workDir }]. *)
Definition inWorkDir (ctx : Orchestration.InitContext) : ExecOptions :=
  {| cwd := Some (Orchestration.workDir ctx); env := None; timeout := None |}.

End Worlds.

(* ================================================================= *)
(** ** src/orchestration/anytrust.ts and src/orchestration/l2-deploy.ts *)

Module Deploy.
Import JsString Shell Compose Orchestration.
Local Open Scope js_scope.

Definition BACKSLASH : ascii := ascii_of_nat 92.

(** src/config/defaults.ts *)
Definition DEV_PRIVATE_KEY : string :=
  "b6b15c8cb491557369f3c7d2c287b053eb229daa9c22138887752191c9520659".

(** [ctx.sequencerAddress = a], [ctx.l2OwnerKey = k], [ctx.wasmRoot = r] *)
Definition setSequencerAddress (ctx : InitContext) (a : string) : InitContext :=
  {| flags := flags ctx; workDir := workDir ctx;
     l2OwnerAddress := l2OwnerAddress ctx; l2OwnerKey := l2OwnerKey ctx;
     sequencerAddress := Some a; wasmRoot := wasmRoot ctx;
     l1ChainId := l1ChainId ctx; anyTrustConfig := anyTrustConfig ctx |}.

Definition setL2OwnerKey (ctx : InitContext) (k : string) : InitContext :=
  {| flags := flags ctx; workDir := workDir ctx;
     l2OwnerAddress := l2OwnerAddress ctx; l2OwnerKey := Some k;
     sequencerAddress := sequencerAddress ctx; wasmRoot := wasmRoot ctx;
     l1ChainId := l1ChainId ctx; anyTrustConfig := anyTrustConfig ctx |}.

Definition setWasmRoot (ctx : InitContext) (r : string) : InitContext :=
  {| flags := flags ctx; workDir := workDir ctx;
     l2OwnerAddress := l2OwnerAddress ctx; l2OwnerKey := l2OwnerKey ctx;
     sequencerAddress := sequencerAddress ctx; wasmRoot := Some r;
     l1ChainId := l1ChainId ctx; anyTrustConfig := anyTrustConfig ctx |}.

(** The value of an optional string field where the code has checked it. *)
Definition valueOf (o : option string) : string :=
  match o with Some s => s | None => "" end.

Section Executor.
Context {executor : CommandExecutor}.

(* ----------------------------------------------------------------- *)
(** *** anytrust.ts *)

Definition createDasDirectories (ctx : InitContext) : M unit :=
  logger.step "Creating DAS directories" ;;
  mkdirResult <-
    composeRun "datool"
      ["sh"; "-c";
       ("mkdir -p /das-committee-a/keys /das-committee-a/data /das-committee-a/metadata "
        ++ "/das-committee-b/keys /das-committee-b/data /das-committee-b/metadata "
        ++ "/das-mirror/data /das-mirror/metadata")%string]
      (options (workDir ctx) false false None) ;;
  if negb (code mkdirResult =? 0)
  then throwError ("Failed to create DAS directories: " ++ stderr mkdirResult)%string
  else
  chownResult <- composeRun "datool" ["sh"; "-c"; "chown -R 1000:1000 /das*"]
                   (options (workDir ctx) false false None) ;;
  if negb (code chownResult =? 0)
  then throwError ("Failed to fix DAS directory ownership: " ++ stderr chownResult)%string
  else ret tt.

Definition generateDasKeys (ctx : InitContext) : M unit :=
  logger.step "Generating DAS committee keys" ;;
  keygenAResult <- composeRun "datool" ["keygen"; "--dir"; "/das-committee-a/keys"]
                     (options (workDir ctx) false false None) ;;
  if negb (code keygenAResult =? 0)
  then throwError ("Failed to generate committee A keys: " ++ stderr keygenAResult)%string
  else
  keygenBResult <- composeRun "datool" ["keygen"; "--dir"; "/das-committee-b/keys"]
                     (options (workDir ctx) false false None) ;;
  if negb (code keygenBResult =? 0)
  then throwError ("Failed to generate committee B keys: " ++ stderr keygenBResult)%string
  else ret tt.

Definition writeDasConfigs (ctx : InitContext) : M unit :=
  logger.step "Writing DAS configuration files" ;;
  committeeResult <- composeRun "scripts" ["write-l2-das-committee-config"]
                       (options (workDir ctx) false false None) ;;
  if negb (code committeeResult =? 0)
  then throwError ("Failed to write DAS committee config: " ++ stderr committeeResult)%string
  else
  mirrorResult <- composeRun "scripts" ["write-l2-das-mirror-config"]
                    (options (workDir ctx) false false None) ;;
  if negb (code mirrorResult =? 0)
  then throwError ("Failed to write DAS mirror config: " ++ stderr mirrorResult)%string
  else ret tt.

Definition readBlsKeys (ctx : InitContext) : M AnyTrustConfig :=
  logger.step "Reading DAS BLS public keys" ;;
  blsAResult <- composeRun "datool" ["sh"; "-c"; "cat /das-committee-a/keys/das_bls.pub"]
                  (options (workDir ctx) false false None) ;;
  if negb (code blsAResult =? 0)
  then throwError ("Failed to read committee A BLS key: " ++ stderr blsAResult)%string
  else
  blsBResult <- composeRun "datool" ["sh"; "-c"; "cat /das-committee-b/keys/das_bls.pub"]
                  (options (workDir ctx) false false None) ;;
  if negb (code blsBResult =? 0)
  then throwError ("Failed to read committee B BLS key: " ++ stderr blsBResult)%string
  else
  let dasBlsA := cleanOutput (stdout blsAResult) in
  let dasBlsB := cleanOutput (stdout blsBResult) in
  logger.debug ("DAS BLS A: " ++ String.substring 0 20 dasBlsA ++ "...")%string ;;
  logger.debug ("DAS BLS B: " ++ String.substring 0 20 dasBlsB ++ "...")%string ;;
  ret {| dasBlsA := dasBlsA; dasBlsB := dasBlsB |}.

Definition writeKeysetConfig (ctx : InitContext) (dasBlsA dasBlsB : string) : M unit :=
  logger.step "Writing DAS keyset configuration" ;;
  keysetConfigResult <-
    composeRun "scripts"
      ["write-l2-das-keyset-config"; "--dasBlsA"; dasBlsA; "--dasBlsB"; dasBlsB]
      (options (workDir ctx) false false None) ;;
  if negb (code keysetConfigResult =? 0)
  then throwError ("Failed to write DAS keyset config: " ++ stderr keysetConfigResult)%string
  else
  dumpKeysetResult <-
    composeRun "datool"
      ["sh"; "-c";
       ("/usr/local/bin/datool dumpkeyset --conf.file /config/l2_das_keyset.json"
        ++ " | grep 'Keyset: ' | awk '{ printf "
        ++ String DQUOTE "%s" ++ String DQUOTE ", $2 }' > /config/l2_das_keyset.hex")%string]
      (options (workDir ctx) false false None) ;;
  if negb (code dumpKeysetResult =? 0)
  then throwError ("Failed to dump keyset: " ++ stderr dumpKeysetResult)%string
  else ret tt.

Definition setValidKeyset (ctx : InitContext) : M unit :=
  logger.step "Setting valid keyset on chain" ;;
  result <- composeRun "scripts" ["set-valid-keyset"]
              (options (workDir ctx) false false (Some 120000)) ;;
  if negb (code result =? 0)
  then throwError ("Failed to set valid keyset: " ++ stderr result)%string
  else ret tt.

Definition startAnyTrustServices (ctx : InitContext) : M unit :=
  logger.step "Starting AnyTrust committee and mirror" ;;
  exitCode <- composeUp ["das-committee-a"; "das-committee-b"; "das-mirror"]
                (options (workDir ctx) true false None) ;;
  if negb (exitCode =? 0)
  then throwError "Failed to start AnyTrust services"
  else logger.success "AnyTrust services started".

Definition setupAnyTrust (ctx : InitContext) : M (option AnyTrustConfig) :=
  if negb (Flags.l2Anytrust (flags ctx))
  then logger.debug "Skipping AnyTrust setup (not enabled)" ;; ret None
  else
    logger.step "Setting up AnyTrust Data Availability Committee" ;;
    createDasDirectories ctx ;;
    generateDasKeys ctx ;;
    writeDasConfigs ctx ;;
    keys <- readBlsKeys ctx ;;
    writeKeysetConfig ctx (dasBlsA keys) (dasBlsB keys) ;;
    setValidKeyset ctx ;;
    when (Flags.run (flags ctx)) (startAnyTrustServices ctx) ;;
    logger.success "AnyTrust setup complete" ;;
    ret (Some {| dasBlsA := dasBlsA keys; dasBlsB := dasBlsB keys |}).

Definition buildAnyTrustConfigArgs (config : AnyTrustConfig) : list string :=
  ["--anytrust"; "--dasBlsA"; dasBlsA config; "--dasBlsB"; dasBlsB config].

(* ----------------------------------------------------------------- *)
(** *** l2-deploy.ts *)

Definition writeL2ChainConfig (ctx : InitContext) : M unit :=
  if negb (truthyOpt (l2OwnerAddress ctx))
  then throwError "L2 owner address not set"
  else
  let args := ["--l2owner"; valueOf (l2OwnerAddress ctx); "write-l2-chain-config"] in
  args <-
    (if Flags.l2Anytrust (flags ctx)
     then logger.step "Writing L2 chain config (AnyTrust enabled)" ;;
          ret (args ++ ["--anytrust"])
     else logger.step "Writing L2 chain config" ;; ret args) ;;
  result <- composeRun "scripts" args (options (workDir ctx) false false None) ;;
  if negb (code result =? 0)
  then throwError ("Failed to write L2 chain config: " ++ stderr result)%string
  else ret tt.

Definition getSequencerAddress (ctx : InitContext) : M string :=
  result <- composeRun "scripts" ["print-address"; "--account"; "sequencer"]
              (options (workDir ctx) false false None) ;;
  if negb (code result =? 0)
  then throwError ("Failed to get sequencer address: " ++ stderr result)%string
  else
  let address := cleanOutput (getLastLine (stdout result)) in
  if negb (truthy address) || negb (startsWith address "0x")
  then throwError ("Invalid sequencer address: " ++ address)%string
  else ret address.

Definition getL2OwnerKey (ctx : InitContext) : M string :=
  result <- composeRun "scripts" ["print-private-key"; "--account"; "l2owner"]
              (options (workDir ctx) false false None) ;;
  if negb (code result =? 0)
  then throwError ("Failed to get l2owner private key: " ++ stderr result)%string
  else
  let key := cleanOutput (getLastLine (stdout result)) in
  if negb (truthy key)
  then throwError "Invalid l2owner private key"
  else ret key.

Definition getWasmRoot (ctx : InitContext) : M string :=
  result <- composeRun "sequencer"
              ["sh"; "-c"; "cat /home/user/target/machines/latest/module-root.txt"]
              (options (workDir ctx) false false None) ;;
  if negb (code result =? 0)
  then throwError ("Failed to get WASM module root: " ++ stderr result)%string
  else
  let wasmRoot := cleanOutput (stdout result) in
  if negb (truthy wasmRoot)
  then throwError "Invalid WASM module root"
  else ret wasmRoot.

(** The environment of the rollup deployment, in insertion order. *)
Definition rollupEnv (ctx : InitContext) : list (string * string) :=
  [ ("PARENT_CHAIN_RPC", "http://geth:8545");
    ("DEPLOYER_PRIVKEY", valueOf (l2OwnerKey ctx));
    ("PARENT_CHAIN_ID", numberToString (l1ChainId ctx));
    ("CHILD_CHAIN_NAME", "arb-dev-test");
    ("MAX_DATA_SIZE", "117964");
    ("OWNER_ADDRESS", valueOf (l2OwnerAddress ctx));
    ("WASM_MODULE_ROOT", valueOf (wasmRoot ctx));
    ("SEQUENCER_ADDRESS", valueOf (sequencerAddress ctx));
    ("AUTHORIZE_VALIDATORS", "10");
    ("CHILD_CHAIN_CONFIG_PATH", "/config/l2_chain_config.json");
    ("CHAIN_DEPLOYMENT_INFO", "/config/deployment.json");
    ("CHILD_CHAIN_INFO", "/config/deployed_chain_info.json") ].

Definition deployRollup (ctx : InitContext) : M unit :=
  if negb (truthyOpt (l2OwnerAddress ctx)) || negb (truthyOpt (l2OwnerKey ctx))
     || negb (truthyOpt (sequencerAddress ctx)) || negb (truthyOpt (wasmRoot ctx))
  then throwError "Missing required context values for rollup deployment"
  else
  logger.step "Deploying L2 chain" ;;
  let env := rollupEnv ctx in
  let envFlags :=
    join " " (List.map (fun kv => ("-e " ++ fst kv ++ "=" ++ snd kv)%string) env) in
  let cmd :=
    ("docker compose run " ++ envFlags ++ " rollupcreator create-rollup-testnode")%string in
  result <- runWithCode cmd
              {| Shell.cwd := Some (workDir ctx); Shell.env := None;
                 Shell.timeout := Some 300000 |} ;;
  if negb (code result =? 0)
  then throwError ("Failed to deploy rollup: " ++ stderr result)%string
  else logger.success "L2 rollup deployed".

Definition processDeployedChainInfo (ctx : InitContext) : M unit :=
  logger.step "Processing deployed chain info" ;;
  let jqCommand :=
    if Flags.l2Timeboost (flags ctx)
    then ("jq " ++ String DQUOTE ".[]\ |\ ."
          ++ String BACKSLASH (String DQUOTE "track-block-metadata-from")
          ++ String BACKSLASH (String DQUOTE "=1\ |\ [.]")
          ++ String DQUOTE
               " /config/deployed_chain_info.json > /config/l2_chain_info.json")%string
    else "jq [.[]] /config/deployed_chain_info.json > /config/l2_chain_info.json" in
  result <- composeRun "rollupcreator" ["sh"; "-c"; jqCommand]
              (options (workDir ctx) false false None) ;;
  if negb (code result =? 0)
  then throwError ("Failed to process deployed chain info: " ++ stderr result)%string
  else ret tt.

Definition deployL2 (ctx : InitContext) : M (InitContext * option AnyTrustConfig) :=
  address <- getSequencerAddress ctx ;;
  let ctx := setSequencerAddress ctx address in
  logger.debug ("Sequencer address: " ++ address)%string ;;
  key <- getL2OwnerKey ctx ;;
  let ctx := setL2OwnerKey ctx key in
  logger.debug "L2 owner key retrieved" ;;
  root <- getWasmRoot ctx ;;
  let ctx := setWasmRoot ctx root in
  logger.debug ("WASM root: " ++ root)%string ;;
  writeL2ChainConfig ctx ;;
  deployRollup ctx ;;
  processDeployedChainInfo ctx ;;
  anyTrustConfig <- setupAnyTrust ctx ;;
  logger.success "L2 deployment complete" ;;
  ret (ctx, anyTrustConfig).

End Executor.
End Deploy.

(* ================================================================= *)
(** ** src/orchestration/timeboost.ts *)

Module Timeboost.
Import JsString Shell Compose Orchestration.
Local Open Scope js_scope.

Record TimeboostConfig := {
  biddingTokenAddress : string;
  auctionContractAddress : string;
  auctioneerAddress : string
}.

(** [s] between double quotes. *)
Definition quoted (s : string) : string :=
  String DQUOTE (s ++ String DQUOTE "").

Section Executor.
Context {executor : CommandExecutor}.

Definition fundAuctioneer (ctx : InitContext) : M unit :=
  logger.step "Funding auctioneer account" ;;
  result <- composeRun "scripts"
              ["send-l2"; "--ethamount"; "100"; "--to"; "auctioneer"; "--wait"]
              (options (workDir ctx) false false None) ;;
  if negb (code result =? 0)
  then throwError ("Failed to fund auctioneer: " ++ stderr result)%string
  else ret tt.

Definition deployAuctionContract (ctx : InitContext) (biddingTokenAddress : string)
  : M string :=
  logger.step "Deploying express lane auction contract" ;;
  result <- composeRun "scripts"
              ["deploy-express-lane-auction"; "--bidding-token"; biddingTokenAddress]
              (options (workDir ctx) false false (Some 120000)) ;;
  if negb (code result =? 0)
  then throwError ("Failed to deploy auction contract: " ++ stderr result)%string
  else
  (* Extract auction contract address from output (last word of last line) *)
  let lastLine := getLastLine (stdout result) in
  let words := splitWhiteSpace lastLine in
  let auctionAddress :=
    cleanOutput (match lastElement words with
                 | Some w => if truthy w then w else ""
                 | None => ""
                 end) in
  if negb (truthy auctionAddress) || negb (startsWith auctionAddress "0x")
  then throwError ("Invalid auction contract address: " ++ auctionAddress)%string
  else
  logger.debug ("Auction contract address: " ++ auctionAddress)%string ;;
  ret auctionAddress.

Definition getAuctioneerAddress (ctx : InitContext) : M string :=
  result <- composeRun "scripts" ["print-address"; "--account"; "auctioneer"]
              (options (workDir ctx) false false None) ;;
  if negb (code result =? 0)
  then throwError ("Failed to get auctioneer address: " ++ stderr result)%string
  else
  let address := cleanOutput (getLastLine (stdout result)) in
  if negb (truthy address) || negb (startsWith address "0x")
  then throwError ("Invalid auctioneer address: " ++ address)%string
  else ret address.

Definition writeTimeboostConfigs (ctx : InitContext) (auctionContractAddress : string)
  : M unit :=
  logger.step "Writing timeboost configuration" ;;
  result <- composeRun "scripts"
              ["write-timeboost-configs"; "--auction-contract"; auctionContractAddress]
              (options (workDir ctx) false false None) ;;
  if negb (code result =? 0)
  then throwError ("Failed to write timeboost configs: " ++ stderr result)%string
  else ret tt.

Definition fixAuctioneerPermissions (ctx : InitContext) : M unit :=
  logger.step "Fixing auctioneer permissions" ;;
  result <- composeRun "timeboost-auctioneer" ["sh"; "-c"; "chown -R 1000:1000 /data"]
              (options (workDir ctx) false false None) ;;
  when (negb (code result =? 0))
    (logger.warn ("Failed to fix auctioneer permissions: " ++ stderr result)%string).

Definition fundTestAccounts (ctx : InitContext) (biddingTokenAddress : string) : M unit :=
  logger.step "Funding alice and bob test accounts for timeboost" ;;
  aliceEthResult <- composeRun "scripts"
                      ["send-l2"; "--ethamount"; "10"; "--to"; "user_alice"; "--wait"]
                      (options (workDir ctx) false false None) ;;
  if negb (code aliceEthResult =? 0)
  then throwError ("Failed to fund alice with ETH: " ++ stderr aliceEthResult)%string
  else
  bobEthResult <- composeRun "scripts"
                    ["send-l2"; "--ethamount"; "10"; "--to"; "user_bob"; "--wait"]
                    (options (workDir ctx) false false None) ;;
  if negb (code bobEthResult =? 0)
  then throwError ("Failed to fund bob with ETH: " ++ stderr bobEthResult)%string
  else
  aliceTokenResult <-
    composeRun "scripts"
      ["transfer-erc20"; "--token"; biddingTokenAddress; "--amount"; "10000";
       "--from"; "auctioneer"; "--to"; "user_alice"]
      (options (workDir ctx) false false None) ;;
  if negb (code aliceTokenResult =? 0)
  then throwError ("Failed to transfer tokens to alice: " ++ stderr aliceTokenResult)%string
  else
  bobTokenResult <-
    composeRun "scripts"
      ["transfer-erc20"; "--token"; biddingTokenAddress; "--amount"; "10000";
       "--from"; "auctioneer"; "--to"; "user_bob"]
      (options (workDir ctx) false false None) ;;
  if negb (code bobTokenResult =? 0)
  then throwError ("Failed to transfer tokens to bob: " ++ stderr bobTokenResult)%string
  else ret tt.

Definition updateSequencerConfig (ctx : InitContext)
    (auctionContractAddress auctioneerAddress : string) : M unit :=
  logger.step "Updating sequencer config for timeboost" ;;
  let sedCommand :=
    ("sed -i 's/\(" ++ quoted "execution" ++ ":{" ++ quoted "sequencer" ++ ":{"
     ++ quoted "enable" ++ ":true," ++ quoted "dangerous" ++ ":{"
     ++ quoted "timeboost" ++ ":{" ++ quoted "enable" ++ ":\)false/\1true,"
     ++ quoted "auction-contract-address" ++ ":" ++ quoted auctionContractAddress ++ ","
     ++ quoted "auctioneer-address" ++ ":" ++ quoted auctioneerAddress
     ++ "/' /config/sequencer_config.json")%string in
  result <- composeRun "scripts" ["sh"; "-c"; sedCommand]
              (options (workDir ctx) false false None) ;;
  if negb (code result =? 0)
  then throwError ("Failed to update sequencer config: " ++ stderr result)%string
  else ret tt.

Definition restartSequencers (ctx : InitContext) : M unit :=
  logger.step "Restarting sequencer nodes" ;;
  let initialNodes :=
    Services.calculateInitialSequencerNodes (Flags.redundantsequencers (flags ctx)) in
  result <- runWithCode
              ("docker compose restart "
               ++ join " " (List.map Services.serviceString initialNodes))%string
              {| Shell.cwd := Some (workDir ctx); Shell.env := None;
                 Shell.timeout := Some 120000 |} ;;
  when (negb (code result =? 0))
    (logger.warn ("Failed to restart sequencers: " ++ stderr result)%string).

Definition setupTimeboost (ctx : InitContext) : M (option TimeboostConfig) :=
  if negb (Flags.l2Timeboost (flags ctx))
  then logger.debug "Skipping Timeboost setup (not enabled)" ;; ret None
  else
    logger.step "Setting up Timeboost Express Lane Auction" ;;
    fundAuctioneer ctx ;;
    biddingTokenAddress <- deployBiddingToken ctx ;;
    auctionContractAddress <- deployAuctionContract ctx biddingTokenAddress ;;
    auctioneerAddress <- getAuctioneerAddress ctx ;;
    logger.info ("Bidding token: " ++ biddingTokenAddress)%string ;;
    logger.info ("Auction contract: " ++ auctionContractAddress)%string ;;
    writeTimeboostConfigs ctx auctionContractAddress ;;
    fixAuctioneerPermissions ctx ;;
    fundTestAccounts ctx biddingTokenAddress ;;
    updateSequencerConfig ctx auctionContractAddress auctioneerAddress ;;
    restartSequencers ctx ;;
    logger.success "Timeboost setup complete" ;;
    ret (Some {| biddingTokenAddress := biddingTokenAddress;
                 auctionContractAddress := auctionContractAddress;
                 auctioneerAddress := auctioneerAddress |}).

End Executor.
End Timeboost.

(* ================================================================= *)
(** ** src/orchestration/l2-config.ts *)

Module L2Config.
Import JsString Shell Compose Orchestration Deploy Timeboost.
Local Open Scope js_scope.

Definition buildConfigArgs (ctx : InitContext) (anyTrustConfig : option AnyTrustConfig)
  : list string :=
  let args := [] in
  let args := if Flags.simple (flags ctx) then args ++ ["--simple"] else args in
  let args :=
    match anyTrustConfig with
    | Some config =>
        if Flags.l2Anytrust (flags ctx) then args ++ buildAnyTrustConfigArgs config
        else args
    | None => args
    end in
  let args := if Flags.l2Timeboost (flags ctx) then args ++ ["--timeboost"] else args in
  args.

Section Executor.
Context {executor : CommandExecutor}.
(** src/orchestration/l3-deploy.ts *)
Variable deployL3 : InitContext -> M InitContext.

Definition writeNodeConfigs (ctx : InitContext) (anyTrustConfig : option AnyTrustConfig)
  : M unit :=
  logger.step "Writing node configs" ;;
  let baseArgs := ["write-config"] in
  let configArgs := buildConfigArgs ctx anyTrustConfig in
  result <- composeRun "scripts" (baseArgs ++ configArgs)
              (options (workDir ctx) false false None) ;;
  if negb (code result =? 0)
  then throwError ("Failed to write node configs: " ++ stderr result)%string
  else ret tt.

Definition initializeRedis (ctx : InitContext) : M unit :=
  if Flags.simple (flags ctx)
  then logger.debug "Skipping redis init (simple mode)"
  else
  logger.step "Initializing redis" ;;
  upExitCode <- composeUp ["redis"] (options (workDir ctx) true false None) ;;
  if negb (upExitCode =? 0)
  then throwError "Failed to start redis"
  else
  result <- composeRun "scripts"
              ["redis-init"; "--redundancy";
               numberToString (Flags.redundantsequencers (flags ctx))]
              (options (workDir ctx) false false None) ;;
  if negb (code result =? 0)
  then throwError ("Failed to initialize redis: " ++ stderr result)%string
  else logger.success "Redis initialized".

Definition startSequencersAndFund (ctx : InitContext) : M unit :=
  logger.step "Starting initial sequencer nodes" ;;
  let initialNodes :=
    Services.calculateInitialSequencerNodes (Flags.redundantsequencers (flags ctx)) in
  exitCode <- composeUp (List.map Services.serviceString initialNodes)
                (options (workDir ctx) true false None) ;;
  if negb (exitCode =? 0)
  then throwError "Failed to start sequencer nodes"
  else
  logger.step "Funding L2 funnel and dev key" ;;
  bridgeResult <- composeRun "scripts" ["bridge-funds"; "--ethamount"; "100000"; "--wait"]
                    (options (workDir ctx) false false (Some 120000)) ;;
  if negb (code bridgeResult =? 0)
  then throwError ("Failed to bridge funds: " ++ stderr bridgeResult)%string
  else
  sendResult <- composeRun "scripts"
                  ["send-l2"; "--ethamount"; "100"; "--to"; "l2owner"; "--wait"]
                  (options (workDir ctx) false false None) ;;
  if negb (code sendResult =? 0)
  then throwError ("Failed to fund l2owner on L2: " ++ stderr sendResult)%string
  else logger.success "Sequencers started and accounts funded".

(** The ten-second pause before the bridge deployment takes time but
    changes nothing else; it is left out. *)
Definition deployTokenBridge (ctx : InitContext) : M unit :=
  if negb (Flags.tokenbridge (flags ctx)) then ret tt
  else
  if negb (truthyOpt (l2OwnerKey ctx))
  then throwError "L2 owner key not available for token bridge deployment"
  else
  logger.step "Deploying L1-L2 token bridge" ;;
  rollupResult <-
    composeRun "poster"
      ["sh"; "-c";
       "jq -r '.[0].rollup.rollup' /config/deployed_chain_info.json | tail -n 1 | tr -d '\r\n'"]
      (options (workDir ctx) false false None) ;;
  if negb (code rollupResult =? 0)
  then throwError ("Failed to get rollup address: " ++ stderr rollupResult)%string
  else
  let rollupAddress := trim (stdout rollupResult) in
  logger.debug "Waiting before token bridge deploy..." ;;
  let envFlags :=
    join " "
      [ ("-e ROLLUP_OWNER_KEY=" ++ valueOf (l2OwnerKey ctx))%string;
        ("-e ROLLUP_ADDRESS=" ++ rollupAddress)%string;
        ("-e PARENT_KEY=" ++ DEV_PRIVATE_KEY)%string;
        "-e PARENT_RPC=http://geth:8545";
        ("-e CHILD_KEY=" ++ DEV_PRIVATE_KEY)%string;
        "-e CHILD_RPC=http://sequencer:8547" ] in
  deployResult <-
    runWithCode
      ("docker compose run " ++ envFlags ++ " tokenbridge deploy:local:token-bridge")%string
      {| Shell.cwd := Some (workDir ctx); Shell.env := None;
         Shell.timeout := Some 300000 |} ;;
  if negb (code deployResult =? 0)
  then throwError ("Failed to deploy token bridge: " ++ stderr deployResult)%string
  else
  copyResult <-
    composeRun "tokenbridge"
      ["sh"; "-c";
       "cat network.json && cp network.json l1l2_network.json && cp network.json localNetwork.json"]
      (options (workDir ctx) false false None) ;;
  when (negb (code copyResult =? 0))
    (logger.warn "Failed to copy token bridge network files") ;;
  logger.success "Token bridge deployed".

Definition deployPostDeployContracts (ctx : InitContext) : M unit :=
  if negb (truthyOpt (l2OwnerKey ctx))
  then throwError "L2 owner key not available"
  else
  logger.step "Deploying CacheManager on L2" ;;
  let envFlags :=
    ("-e CHILD_CHAIN_RPC=http://sequencer:8547 -e CHAIN_OWNER_PRIVKEY="
     ++ valueOf (l2OwnerKey ctx))%string in
  cacheResult <-
    runWithCode
      ("docker compose run " ++ envFlags ++ " rollupcreator deploy-cachemanager-testnode")%string
      {| Shell.cwd := Some (workDir ctx); Shell.env := None; Shell.timeout := None |} ;;
  when (negb (code cacheResult =? 0))
    (logger.warn ("CacheManager deployment failed: " ++ stderr cacheResult)%string) ;;
  logger.step "Deploying Stylus Deployer on L2" ;;
  stylusResult <- composeRun "scripts" ["create-stylus-deployer"; "--deployer"; "l2owner"]
                    (options (workDir ctx) false false None) ;;
  when (negb (code stylusResult =? 0))
    (logger.warn ("Stylus deployer deployment failed: " ++ stderr stylusResult)%string) ;;
  logger.step "Applying gas estimation workaround" ;;
  _ <- composeRun "scripts"
         ["send-l1"; "--ethamount"; "1"; "--to";
          "address_0x0000000000000000000000000000000000000000"; "--wait"]
         (options (workDir ctx) false false None) ;;
  _ <- composeRun "scripts"
         ["send-l2"; "--ethamount"; "1"; "--to";
          "address_0x0000000000000000000000000000000000000000"; "--wait"]
         (options (workDir ctx) false false None) ;;
  ret tt.

Definition configureL2Nodes (ctx : InitContext) (anyTrustConfig : option AnyTrustConfig)
  : M InitContext :=
  writeNodeConfigs ctx anyTrustConfig ;;
  initializeRedis ctx ;;
  startSequencersAndFund ctx ;;
  _ <- setupTimeboost ctx ;;
  deployTokenBridge ctx ;;
  deployPostDeployContracts ctx ;;
  ctx <- deployL3 ctx ;;
  logger.success "L2 configuration complete" ;;
  ret ctx.

End Executor.
End L2Config.

(* ================================================================= *)
(** ** Further concrete inputs *)

Module MoreExamples.
Import JsString Shell Compose Orchestration.

(** An executor whose every command succeeds and prints one address,
    with the line ending of a Windows console. *)
Definition addressExecutor : CommandExecutor := {|
  execShell := fun _ _ _ =>
    {| stdout := ("0x3f1Eae7D46d88F08fc2F8ed27FCb2AB183EB2d0E"
                  ++ String CR (String LF ""))%string;
       stderr := ""; code := 0 |};
  spawnShell := fun _ _ _ _ => inr 0
|}.

(** An executor whose every command fails with exit code 1. *)
Definition failingExecutor : CommandExecutor := {|
  execShell := fun _ _ _ => {| stdout := ""; stderr := "no such service"; code := 1 |};
  spawnShell := fun _ _ _ _ => inr 1
|}.

Definition exampleContext : InitContext :=
  Scheduler.initialContext Flags.defaultFlags "/testnode".

(** [defaultFlags] with the two optional L2 features as given. *)
Definition featureFlags (anytrust timeboost : bool) : Flags.TestnodeFlags := {|
  Flags.init := false;
  Flags.force := false;
  Flags.devNitro := false;
  Flags.devBlockscout := false;
  Flags.devContracts := false;
  Flags.build := false;
  Flags.buildDevNitro := false;
  Flags.buildDevBlockscout := false;
  Flags.buildUtils := false;
  Flags.forceBuildUtils := false;
  Flags.buildNodeImages := false;
  Flags.validate := false;
  Flags.blockscout := false;
  Flags.tokenbridge := false;
  Flags.l3node := false;
  Flags.l3FeeToken := false;
  Flags.l3FeeTokenPricer := false;
  Flags.l3FeeTokenDecimals := Integer 18;
  Flags.l3TokenBridge := false;
  Flags.l2Anytrust := anytrust;
  Flags.l2Timeboost := timeboost;
  Flags.batchposters := 1;
  Flags.redundantsequencers := 0;
  Flags.pos := false;
  Flags.run := true;
  Flags.detach := false;
  Flags.nowait := false;
  Flags.simple := true;
  Flags.l1Traffic := true;
  Flags.l2Traffic := true;
  Flags.l3Traffic := true;
  Flags.ci := false;
  Flags.verbose := false
|}.

(** The context after the L1 phase of a run with those features: the
    owner address is known, nothing else is. *)
Definition ownedContext (anytrust timeboost : bool) : InitContext :=
  setL2OwnerAddress
    (Scheduler.initialContext (featureFlags anytrust timeboost) "/testnode")
    "0x3f1Eae7D46d88F08fc2F8ed27FCb2AB183EB2d0E".

(** The options of [ntn init] with no option given, except the fee token
    pricer. *)
Definition exampleInitFlags (pricer : bool) : InitCommand.InitCommandFlags := {|
  InitCommand.force := false;
  InitCommand.simple := true;
  InitCommand.l3node := false;
  InitCommand.l3FeeToken := false;
  InitCommand.l3FeeTokenDecimals := Integer 18;
  InitCommand.l3FeeTokenPricer := pricer;
  InitCommand.l3TokenBridge := false;
  InitCommand.tokenbridge := false;
  InitCommand.blockscout := false;
  InitCommand.l2Anytrust := false;
  InitCommand.l2Timeboost := false;
  InitCommand.pos := false;
  InitCommand.validate := false;
  InitCommand.batchposters := 1;
  InitCommand.redundantsequencers := 0;
  InitCommand.devNitro := false;
  InitCommand.devBlockscout := false;
  InitCommand.devContracts := false;
  InitCommand.build := false;
  InitCommand.buildDevNitro := false;
  InitCommand.buildDevBlockscout := false;
  InitCommand.buildUtils := false;
  InitCommand.forceBuildUtils := false;
  InitCommand.buildNodeImages := false;
  InitCommand.l1Traffic := true;
  InitCommand.l2Traffic := true;
  InitCommand.l3Traffic := true;
  InitCommand.ci := false;
  InitCommand.verbose := false
|}.

End MoreExamples.

(* ================================================================= *)
(** * Properties *)

(* ================================================================= *)
(** ** Service topology *)

Module ServicesFacts.
Import Services.

Lemma pushIf_app c xs l : pushIf c xs l = l ++ (if c then xs else []).
Proof. destruct c; simpl; [reflexivity | now rewrite app_nil_r]. Qed.

Lemma calculateServices_segments flags :
  calculateServices flags =
    [sequencer]
    ++ (if negb (simple flags) then [redis] else [])
    ++ (if 0 <? redundantsequencers flags then [sequencer_b] else [])
    ++ (if 1 <? redundantsequencers flags then [sequencer_c] else [])
    ++ (if 2 <? redundantsequencers flags then [sequencer_d] else [])
    ++ (if (0 <? batchposters flags) && negb (simple flags) then [poster] else [])
    ++ (if 1 <? batchposters flags then [poster_b] else [])
    ++ (if 2 <? batchposters flags then [poster_c] else [])
    ++ (if validate flags then [validator]
        else if negb (simple flags) then [staker_unsafe] else [])
    ++ (if l3node flags then [l3node_service] else [])
    ++ (if blockscout flags then [blockscout_service] else [])
    ++ (if l2Timeboost flags then [timeboost_auctioneer; timeboost_bid_validator] else []).
Proof.
  unfold calculateServices.
  rewrite !pushIf_app.
  destruct (validate flags); [| destruct (negb (simple flags))];
    rewrite ?pushIf_app, <- ?app_assoc, ?app_nil_r; simpl; reflexivity.
Qed.

Lemma In_when (x : ServiceName) (c : bool) xs :
  In x (if c then xs else []) <-> c = true /\ In x xs.
Proof. destruct c; simpl; intuition discriminate. Qed.

Ltac members :=
  rewrite calculateServices_segments;
  repeat (rewrite in_app_iff);
  repeat (rewrite In_when); simpl;
  rewrite ?andb_true_iff, ?negb_true_iff, ?Z.ltb_lt.

(** C4: for every flag set, ['poster'] is in the topology exactly when
    [batchposters > 0] and [simple] is false; ['poster_b'] exactly when
    [batchposters > 1] and ['poster_c'] exactly when [batchposters > 2],
    whatever [simple] is. *)
Theorem posters_by_count_and_mode flags :
  (In poster (calculateServices flags)
     <-> 0 < batchposters flags /\ simple flags = false)
  /\ (In poster_b (calculateServices flags) <-> 1 < batchposters flags)
  /\ (In poster_c (calculateServices flags) <-> 2 < batchposters flags).
Proof.
  split; [| split].
  all: members.
  all: try (destruct (validate flags), (negb (simple flags)); simpl).
  all: intuition (try discriminate; auto).
Qed.

(** C9: the topology never holds both ['validator'] and
    ['staker-unsafe']: the former is in it exactly when [validate] is
    set, the latter exactly when neither [validate] nor [simple] is, and
    with [validate] unset in simple mode neither is. *)
Theorem validator_or_staker flags :
  ~ (In validator (calculateServices flags) /\ In staker_unsafe (calculateServices flags))
  /\ (In validator (calculateServices flags) <-> validate flags = true)
  /\ (In staker_unsafe (calculateServices flags)
      <-> validate flags = false /\ simple flags = false)
  /\ (validate flags = false -> simple flags = true ->
      ~ In validator (calculateServices flags)
      /\ ~ In staker_unsafe (calculateServices flags)).
Proof.
  assert (Hv : In validator (calculateServices flags) <-> validate flags = true).
  { members. destruct (validate flags), (simple flags); simpl;
      intuition (try discriminate; auto). }
  assert (Hs : In staker_unsafe (calculateServices flags)
               <-> validate flags = false /\ simple flags = false).
  { members. destruct (validate flags), (simple flags); simpl;
      intuition (try discriminate; auto). }
  rewrite Hv, Hs. repeat split; try tauto; intuition congruence.
Qed.

(** C7: two batch posters, no redundant sequencer and every boolean flag
    unset give exactly the five services sequencer, redis, poster,
    poster_b and staker-unsafe, none of them twice. *)
Theorem five_services :
  let flags := {| simple := false; redundantsequencers := 0; batchposters := 2;
                  validate := false; l3node := false; blockscout := false;
                  l2Timeboost := false |} in
  calculateServices flags = [sequencer; redis; poster; poster_b; staker_unsafe]
  /\ List.length (calculateServices flags) = 5%nat
  /\ NoDup (calculateServices flags).
Proof.
  cbv zeta. split; [reflexivity | split; [reflexivity |]].
  change (NoDup [sequencer; redis; poster; poster_b; staker_unsafe]).
  repeat constructor; simpl; intuition discriminate.
Qed.

(** C10: the initial sequencer nodes begin with ['sequencer'], hold
    ['sequencer_b'] exactly when [redundantsequencers > 0], and are all
    members of the topology computed from the same flags. *)
Theorem initial_sequencers_in_topology flags :
  (exists rest, calculateInitialSequencerNodes (redundantsequencers flags) = sequencer :: rest)
  /\ (In sequencer_b (calculateInitialSequencerNodes (redundantsequencers flags))
      <-> 0 < redundantsequencers flags)
  /\ (forall s, In s (calculateInitialSequencerNodes (redundantsequencers flags)) ->
                In s (calculateServices flags)).
Proof.
  unfold calculateInitialSequencerNodes. rewrite pushIf_app. cbn [app].
  split; [eexists; reflexivity | split].
  - destruct (Z.ltb_spec 0 (redundantsequencers flags)); simpl.
    + intuition.
    + split; [intros [H' | []]; discriminate | lia].
  - intros s Hs.
    assert (Hs' : s = sequencer \/ (0 < redundantsequencers flags /\ s = sequencer_b)).
    { destruct (Z.ltb_spec 0 (redundantsequencers flags)); simpl in Hs; intuition. }
    destruct Hs' as [-> | [Hlt ->]]; members; intuition.
Qed.

End ServicesFacts.

(* ================================================================= *)
(** ** Comparisons of numbers that may be NaN *)

Module NumberFacts.

Lemma strictEquals_true d z : Number.strictEquals d (Integer z) = true <-> d = Integer z.
Proof.
  destruct d as [x |]; cbn [Number.strictEquals]; [| split; discriminate].
  rewrite Z.eqb_eq. split; [now intros -> | now intros [= ->]].
Qed.

Lemma strictEquals_false d z : Number.strictEquals d (Integer z) = false <-> d <> Integer z.
Proof.
  rewrite <- strictEquals_true. destruct (Number.strictEquals d (Integer z));
    split; congruence.
Qed.

(** [d < lo || d > hi] holds of the integers outside [lo..hi] only. *)
Lemma outside_true lo hi d :
  Number.lt d (Integer lo) || Number.gt d (Integer hi) = true
  <-> exists z, d = Integer z /\ ~ lo <= z <= hi.
Proof.
  destruct d as [x |]; cbn [Number.lt Number.gt orb].
  - rewrite orb_true_iff, !Z.ltb_lt. split.
    + intros H. exists x. split; [reflexivity | lia].
    + intros (z & [= <-] & H). lia.
  - split; [discriminate | intros (z & H & _); discriminate].
Qed.

(** [d < lo || d > hi] fails for the integers of [lo..hi] and for NaN. *)
Lemma outside_false lo hi d :
  Number.lt d (Integer lo) || Number.gt d (Integer hi) = false
  <-> match d with Integer z => lo <= z <= hi | NaN => True end.
Proof.
  destruct d as [x |]; cbn [Number.lt Number.gt orb]; [| tauto].
  rewrite orb_false_iff, !Z.ltb_ge. lia.
Qed.

End NumberFacts.

(* ================================================================= *)
(** ** Flag validation *)

Module ValidationFacts.
Import Flags Defaults Validation Examples.

Lemma errIf_segment c e l : errIf c e l = l ++ (if c then [e] else []).
Proof. destruct c; simpl; [reflexivity | now rewrite app_nil_r]. Qed.

(** The eight tests of the validator, in the order it makes them. *)
Lemma errors_segments flags :
  errors (validateFlags flags) =
    (if nowait flags && negb (detach flags) then [nowaitRequiresDetach] else [])
    ++ (if l3FeeToken flags && negb (l3node flags)
        then [{| code := L3_FEE_TOKEN_REQUIRES_L3NODE;
                 message := "--l3-fee-token requires --l3node to be provided";
                 field := Some "l3FeeToken" |}] else [])
    ++ (if l3FeeTokenPricer flags && negb (l3FeeToken flags)
        then [pricerRequiresFeeToken] else [])
    ++ (if negb (Number.strictEquals (l3FeeTokenDecimals flags) (Integer 18))
           && negb (l3FeeToken flags)
        then [decimalsRequireFeeToken] else [])
    ++ (if l3TokenBridge flags && negb (l3node flags)
        then [{| code := L3_TOKEN_BRIDGE_REQUIRES_L3NODE;
                 message := "--l3-token-bridge requires --l3node to be provided";
                 field := Some "l3TokenBridge" |}] else [])
    ++ (if Number.lt (l3FeeTokenDecimals flags) (Integer 0)
           || Number.gt (l3FeeTokenDecimals flags) (Integer 36)
        then [{| code := L3_FEE_TOKEN_DECIMALS_OUT_OF_RANGE;
                 message := "l3-fee-token-decimals must be in range [0,36], value: "
                            ++ Number.toString (l3FeeTokenDecimals flags);
                 field := Some "l3FeeTokenDecimals" |}] else [])
    ++ (if (batchposters flags <? 0) || (3 <? batchposters flags)
        then [{| code := BATCH_POSTERS_OUT_OF_RANGE;
                 message := "batchposters must be between 0 and 3, value: "
                            ++ numberToString (batchposters flags);
                 field := Some "batchposters" |}] else [])
    ++ (if (redundantsequencers flags <? 0) || (3 <? redundantsequencers flags)
        then [{| code := REDUNDANT_SEQUENCERS_OUT_OF_RANGE;
                 message := "redundantsequencers must be between 0 and 3, value: "
                            ++ numberToString (redundantsequencers flags);
                 field := Some "redundantsequencers" |}] else []).
Proof.
  unfold validateFlags, validateRuntimeDependencies, validateL3Dependencies,
    validateRangeConstraints. cbn [errors].
  rewrite !errIf_segment. cbn [app]. rewrite <- !app_assoc. reflexivity.
Qed.

Lemma valid_errors flags :
  valid (validateFlags flags) = true <-> errors (validateFlags flags) = [].
Proof.
  unfold validateFlags. cbn [valid errors].
  destruct (_ ++ _ ++ _) as [| e l]; cbn; [tauto |].
  split; discriminate.
Qed.

Lemma NoDup_selected {K} (pairs : list (K * bool)) :
  NoDup (map fst pairs) -> NoDup (map fst (filter snd pairs)).
Proof.
  induction pairs as [| [k c] pairs IH]; [constructor |]. cbn [map fst filter snd].
  intros H. inversion H as [| ? ? Hk Hrest]; subst. destruct c; [| now apply IH].
  cbn [map fst]. constructor; [| now apply IH].
  intros Hin. apply Hk. apply in_map_iff in Hin as ([k' c'] & <- & Hin).
  apply filter_In in Hin as [Hin _]. now apply (in_map fst) in Hin.
Qed.

Lemma In_selected {K} (pairs : list (K * bool)) k :
  In k (map fst (filter snd pairs)) <-> In (k, true) pairs.
Proof.
  rewrite in_map_iff. split.
  - intros ([k' c] & <- & Hin). apply filter_In in Hin as [Hin Hc].
    cbn [snd fst] in *. now subst c.
  - intros Hin. exists (k, true). split; [reflexivity |]. now apply filter_In.
Qed.

(** The codes reported, as the tests that hold among the eight. *)
Lemma codes_selected flags :
  map code (errors (validateFlags flags)) =
  map fst (filter snd
    [(NOWAIT_REQUIRES_DETACH, nowait flags && negb (detach flags));
     (L3_FEE_TOKEN_REQUIRES_L3NODE, l3FeeToken flags && negb (l3node flags));
     (L3_FEE_TOKEN_PRICER_REQUIRES_FEE_TOKEN,
      l3FeeTokenPricer flags && negb (l3FeeToken flags));
     (L3_FEE_TOKEN_DECIMALS_REQUIRES_FEE_TOKEN,
      negb (Number.strictEquals (l3FeeTokenDecimals flags) (Integer 18))
      && negb (l3FeeToken flags));
     (L3_TOKEN_BRIDGE_REQUIRES_L3NODE, l3TokenBridge flags && negb (l3node flags));
     (L3_FEE_TOKEN_DECIMALS_OUT_OF_RANGE,
      Number.lt (l3FeeTokenDecimals flags) (Integer 0)
      || Number.gt (l3FeeTokenDecimals flags) (Integer 36));
     (BATCH_POSTERS_OUT_OF_RANGE, (batchposters flags <? 0) || (3 <? batchposters flags));
     (REDUNDANT_SEQUENCERS_OUT_OF_RANGE,
      (redundantsequencers flags <? 0) || (3 <? redundantsequencers flags))]).
Proof.
  rewrite errors_segments, !map_app.
  destruct (nowait flags && negb (detach flags)),
    (l3FeeToken flags && negb (l3node flags)),
    (l3FeeTokenPricer flags && negb (l3FeeToken flags)),
    (negb (Number.strictEquals (l3FeeTokenDecimals flags) (Integer 18))
     && negb (l3FeeToken flags)),
    (l3TokenBridge flags && negb (l3node flags)),
    (Number.lt (l3FeeTokenDecimals flags) (Integer 0)
     || Number.gt (l3FeeTokenDecimals flags) (Integer 36)),
    ((batchposters flags <? 0) || (3 <? batchposters flags)),
    ((redundantsequencers flags <? 0) || (3 <? redundantsequencers flags));
    reflexivity.
Qed.

Lemma out_of_range lo hi x : (x <? lo) || (hi <? x) = true <-> ~ lo <= x <= hi.
Proof. rewrite orb_true_iff, !Z.ltb_lt. lia. Qed.

Lemma violated (a b : bool) : a && negb b = true <-> a = true /\ b = false.
Proof. now rewrite andb_true_iff, negb_true_iff. Qed.

(** Each code is among the reported ones exactly when its own test
    holds, whatever the other tests say. *)
Lemma reported_iff_violated flags :
  let codes := map code (errors (validateFlags flags)) in
  (In NOWAIT_REQUIRES_DETACH codes <-> nowait flags = true /\ detach flags = false)
  /\ (In L3_FEE_TOKEN_REQUIRES_L3NODE codes
      <-> l3FeeToken flags = true /\ l3node flags = false)
  /\ (In L3_FEE_TOKEN_PRICER_REQUIRES_FEE_TOKEN codes
      <-> l3FeeTokenPricer flags = true /\ l3FeeToken flags = false)
  /\ (In L3_FEE_TOKEN_DECIMALS_REQUIRES_FEE_TOKEN codes
      <-> l3FeeTokenDecimals flags <> Integer 18 /\ l3FeeToken flags = false)
  /\ (In L3_TOKEN_BRIDGE_REQUIRES_L3NODE codes
      <-> l3TokenBridge flags = true /\ l3node flags = false)
  /\ (In L3_FEE_TOKEN_DECIMALS_OUT_OF_RANGE codes
      <-> exists decimals,
            l3FeeTokenDecimals flags = Integer decimals /\ ~ 0 <= decimals <= 36)
  /\ (In BATCH_POSTERS_OUT_OF_RANGE codes <-> ~ 0 <= batchposters flags <= 3)
  /\ (In REDUNDANT_SEQUENCERS_OUT_OF_RANGE codes
      <-> ~ 0 <= redundantsequencers flags <= 3).
Proof.
  cbv zeta. rewrite codes_selected.
  rewrite <- NumberFacts.strictEquals_false,
    <- (negb_true_iff (Number.strictEquals (l3FeeTokenDecimals flags) (Integer 18))).
  rewrite <- !violated, <- !out_of_range, <- NumberFacts.outside_true.
  set (c1 := nowait flags && negb (detach flags)).
  set (c2 := l3FeeToken flags && negb (l3node flags)).
  set (c3 := l3FeeTokenPricer flags && negb (l3FeeToken flags)).
  set (c4 := negb (Number.strictEquals (l3FeeTokenDecimals flags) (Integer 18))
             && negb (l3FeeToken flags)).
  set (c5 := l3TokenBridge flags && negb (l3node flags)).
  set (c6 := Number.lt (l3FeeTokenDecimals flags) (Integer 0)
             || Number.gt (l3FeeTokenDecimals flags) (Integer 36)).
  set (c7 := (batchposters flags <? 0) || (3 <? batchposters flags)).
  set (c8 := (redundantsequencers flags <? 0) || (3 <? redundantsequencers flags)).
  rewrite !In_selected. cbn [In].
  repeat split; intros H;
    repeat match goal with
           | H : _ \/ _ |- _ => destruct H
           | H : False |- _ => destruct H
           | H : (_, _) = (_, _) |- _ => inversion H; clear H
           end; try assumption; try reflexivity; try (rewrite H; auto 12).
Qed.


(** C6: [nowait] without [detach], every other rule being satisfied,
    makes the flags invalid with the single error NOWAIT_REQUIRES_DETACH. *)
Theorem nowait_without_detach_only_error flags :
  nowait flags = true ->
  detach flags = false ->
  (l3FeeToken flags = true -> l3node flags = true) ->
  (l3FeeTokenPricer flags = true -> l3FeeToken flags = true) ->
  (l3FeeTokenDecimals flags = Integer 18 \/ l3FeeToken flags = true) ->
  (l3TokenBridge flags = true -> l3node flags = true) ->
  match l3FeeTokenDecimals flags with
  | Integer decimals => MIN_FEE_TOKEN_DECIMALS <= decimals <= MAX_FEE_TOKEN_DECIMALS
  | NaN => True
  end ->
  0 <= batchposters flags <= MAX_BATCH_POSTERS ->
  0 <= redundantsequencers flags <= MAX_REDUNDANT_SEQUENCERS ->
  valid (validateFlags flags) = false
  /\ errors (validateFlags flags) = [nowaitRequiresDetach].
Proof.
  unfold MIN_FEE_TOKEN_DECIMALS, MAX_FEE_TOKEN_DECIMALS, MAX_BATCH_POSTERS,
    MAX_REDUNDANT_SEQUENCERS.
  intros Hw Hdt Hft Hpr Hdec Hbr Hd Hb Hr.
  assert (l3FeeToken flags && negb (l3node flags) = false) as E1.
  { destruct (l3FeeToken flags); [rewrite Hft by reflexivity |]; reflexivity. }
  assert (l3FeeTokenPricer flags && negb (l3FeeToken flags) = false) as E2.
  { destruct (l3FeeTokenPricer flags); [rewrite Hpr by reflexivity |]; reflexivity. }
  assert (negb (Number.strictEquals (l3FeeTokenDecimals flags) (Integer 18))
          && negb (l3FeeToken flags) = false) as E3.
  { destruct Hdec as [-> | ->]; [reflexivity | apply andb_false_r]. }
  assert (l3TokenBridge flags && negb (l3node flags) = false) as E4.
  { destruct (l3TokenBridge flags); [rewrite Hbr by reflexivity |]; reflexivity. }
  apply NumberFacts.outside_false in Hd.
  unfold validateFlags, validateRuntimeDependencies, validateL3Dependencies,
    validateRangeConstraints, MIN_FEE_TOKEN_DECIMALS, MAX_FEE_TOKEN_DECIMALS,
    MAX_BATCH_POSTERS, MAX_REDUNDANT_SEQUENCERS.
  cbn [errors valid]. rewrite Hw, Hdt, E1, E2, E3, E4, Hd.
  rewrite (proj2 (Z.ltb_ge _ _) (proj1 Hb)), (proj2 (Z.ltb_ge _ _) (proj2 Hb)).
  rewrite (proj2 (Z.ltb_ge _ _) (proj1 Hr)), (proj2 (Z.ltb_ge _ _) (proj2 Hr)).
  split; reflexivity.
Qed.

(** C1, as stated, fails: in simple mode with two batch posters the
    topology holds ['poster_b']. *)
Lemma simple_two_posters_keeps_poster_b :
  simple simpleTwoPosters = true
  /\ batchposters simpleTwoPosters = 2
  /\ In Services.poster_b
       (Services.calculateServices (Services.ofTestnodeFlags simpleTwoPosters)).
Proof. repeat split. right. now left. Qed.

(** C1, amended: in simple mode with two batch posters (the other flags
    at their defaults) the topology is sequencer and poster_b, so
    ['poster'] and ['poster_c'] are absent; validation succeeds without
    errors and warns with SIMPLE_MODE_IGNORES_BATCH_POSTERS. *)
Theorem simple_two_posters :
  Services.calculateServices (Services.ofTestnodeFlags simpleTwoPosters)
    = [Services.sequencer; Services.poster_b]
  /\ ~ In Services.poster
         (Services.calculateServices (Services.ofTestnodeFlags simpleTwoPosters))
  /\ ~ In Services.poster_c
         (Services.calculateServices (Services.ofTestnodeFlags simpleTwoPosters))
  /\ valid (validateFlags simpleTwoPosters) = true
  /\ errors (validateFlags simpleTwoPosters) = []
  /\ (exists w, In w (warnings (validateFlags simpleTwoPosters))
               /\ wcode w = SIMPLE_MODE_IGNORES_BATCH_POSTERS).
Proof.
  split; [reflexivity |].
  split; [simpl; intuition discriminate |].
  split; [simpl; intuition discriminate |].
  split; [reflexivity |]. split; [reflexivity |].
  eexists. split; [left; reflexivity | reflexivity].
Qed.
End ValidationFacts.

(* ================================================================= *)
(** ** Output extraction *)

Module StringFacts.
Import JsString OutputExtraction.

Lemma last_cons_nonempty {A} (x : A) xs d : xs <> [] -> last (x :: xs) d = last xs d.
Proof. destruct xs; [congruence | reflexivity]. Qed.

Lemma splitChar_nonempty sep s : splitChar sep s <> [].
Proof.
  destruct s as [| c r]; simpl; [discriminate |].
  destruct (Ascii.eqb c sep); [discriminate |].
  destruct (splitChar sep r); discriminate.
Qed.

Lemma splitWhiteSpace_nonempty s : splitWhiteSpace s <> [].
Proof.
  induction s as [| c r IH]; simpl; [discriminate |].
  destruct (isWhiteSpace c).
  - destruct r as [| c' r']; [discriminate |].
    destruct (isWhiteSpace c'); [exact IH | discriminate].
  - destruct (splitWhiteSpace r); discriminate.
Qed.

Lemma lastElement_last {A} (xs : list A) d :
  xs <> [] -> lastElement xs = Some (last xs d).
Proof.
  unfold lastElement.
  induction xs as [| x [| y ys] IH]; intros H; [congruence | reflexivity |].
  change (last (map Some (y :: ys)) None = Some (last (y :: ys) d)).
  apply IH. discriminate.
Qed.

(** The last piece of a split that prepends a character to the first piece. *)
Lemma last_prepend c (l : list string) :
  l <> [] ->
  last (match l with w :: ws => String c w :: ws | [] => [String c ""] end) ""
  = match l with
    | [w] => String c w
    | _ => last l ""
    end.
Proof. destruct l as [| w [| w' ws]]; [congruence | reflexivity | reflexivity]. Qed.

Lemma trimEnd_fixed_cons c r :
  trimEnd (String c r) = String c r ->
  (r = "" /\ isWhiteSpace c = false) \/ (r <> "" /\ trimEnd r = r).
Proof.
  intros H. cbn [trimEnd] in H.
  destruct (trimEnd r) as [| c' r'] eqn:E.
  - destruct (isWhiteSpace c); [discriminate |]. left. now inversion H.
  - injection H as Hr. right.
    split; [rewrite <- Hr; discriminate | exact Hr].
Qed.

Lemma trimEnd_idempotent s : trimEnd (trimEnd s) = trimEnd s.
Proof.
  induction s as [| c r IH]; [reflexivity |]. simpl.
  destruct (trimEnd r) as [| c' r'] eqn:E.
  - destruct (isWhiteSpace c) eqn:W; [reflexivity |]. simpl. now rewrite W.
  - change (trimEnd (String c (String c' r')) = String c (String c' r')).
    cbn [trimEnd] in IH |- *. 
    destruct (trimEnd r') eqn:E'.
    + destruct (isWhiteSpace c'); [discriminate | ]. now rewrite IH.
    + now rewrite IH.
Qed.

Lemma trimEnd_cons_fixed c r : r <> "" -> trimEnd r = r -> trimEnd (String c r) = String c r.
Proof.
  intros Hne Hr. cbn [trimEnd]. rewrite Hr.
  destruct r; [congruence | reflexivity].
Qed.

(** The last line of a string that does not end in white space does not
    end in white space either, and is not empty unless the string is. *)
Lemma lastLine_fixed s :
  trimEnd s = s ->
  trimEnd (last (splitChar LF s) "") = last (splitChar LF s) ""
  /\ (s <> "" -> last (splitChar LF s) "" <> "").
Proof.
  induction s as [| c r IH]; intros H.
  - split; [reflexivity | congruence].
  - cbn [splitChar].
    destruct (trimEnd_fixed_cons _ _ H) as [[-> W] | [Hne Hr]].
    + assert (Ascii.eqb c LF = false) as ->.
      { destruct (Ascii.eqb_spec c LF) as [-> |]; [discriminate W | reflexivity]. }
      simpl. rewrite W. split; [reflexivity | discriminate].
    + destruct (IH Hr) as [IH1 IH2]. specialize (IH2 Hne).
      destruct (Ascii.eqb c LF).
      * rewrite last_cons_nonempty by apply splitChar_nonempty.
        split; [exact IH1 | intros _; exact IH2].
      * rewrite last_prepend by apply splitChar_nonempty.
        destruct (splitChar LF r) as [| w [| w' ws]] eqn:E.
        -- now apply splitChar_nonempty in E.
        -- cbn [last] in IH1, IH2.
           split; [now apply trimEnd_cons_fixed | discriminate].
        -- split; [exact IH1 | intros _; exact IH2].
Qed.

Lemma last_In {A} (xs : list A) d : xs <> [] -> In (last xs d) xs.
Proof.
  induction xs as [| x [| y ys] IH]; intros H; [congruence | now left |].
  right. apply IH. discriminate.
Qed.

Lemma last_filterTruthy xs :
  truthy (last xs "") = true -> last (filterTruthy xs) "" = last xs "".
Proof.
  unfold filterTruthy.
  induction xs as [| x xs IH]; [reflexivity |].
  destruct xs as [| y ys].
  - cbn [last filter]. intros ->. reflexivity.
  - intros H. rewrite (last_cons_nonempty x (y :: ys)) in * by discriminate.
    specialize (IH H). cbn [filter] in *.
    destruct (truthy x); [| exact IH].
    rewrite last_cons_nonempty; [exact IH |].
    assert (In (last (y :: ys) "") (filter truthy (y :: ys))) as Hin.
    { apply filter_In. split; [apply last_In; discriminate | exact H]. }
    cbn [filter] in Hin. intros E. rewrite E in Hin. contradiction.
Qed.

Lemma truthy_nonempty s : s <> "" -> truthy s = true.
Proof. destruct s; [congruence | reflexivity]. Qed.

Lemma trimEnd_trimStart s : trimEnd s = s -> trimEnd (trimStart s) = trimStart s.
Proof.
  induction s as [| c r IH]; intros H; [reflexivity |].
  cbn [trimStart]. destruct (isWhiteSpace c) eqn:W; [| exact H].
  destruct (trimEnd_fixed_cons _ _ H) as [[_ W'] | [_ Hr]]; [congruence | now apply IH].
Qed.

Lemma last_splitWhiteSpace_trimStart s :
  last (splitWhiteSpace (trimStart s)) "" = last (splitWhiteSpace s) "".
Proof.
  induction s as [| c r IH]; [reflexivity |].
  cbn [trimStart splitWhiteSpace]. destruct (isWhiteSpace c) eqn:W.
  - rewrite IH. destruct r as [| c' r']; [reflexivity |].
    destruct (isWhiteSpace c'); [reflexivity |].
    now rewrite last_cons_nonempty by apply splitWhiteSpace_nonempty.
  - cbn [splitWhiteSpace]. now rewrite W.
Qed.

Lemma last_splitWhiteSpace_noWhiteSpace s :
  noWhiteSpace (last (splitWhiteSpace s) "") = true.
Proof.
  induction s as [| c r IH]; [reflexivity |].
  cbn [splitWhiteSpace]. destruct (isWhiteSpace c) eqn:W.
  - destruct r as [| c' r']; [reflexivity |].
    destruct (isWhiteSpace c'); [exact IH |].
    now rewrite last_cons_nonempty by apply splitWhiteSpace_nonempty.
  - rewrite last_prepend by apply splitWhiteSpace_nonempty.
    destruct (splitWhiteSpace r) as [| w [| w' ws]] eqn:E; [reflexivity | | exact IH].
    cbn [last] in IH. cbn [noWhiteSpace]. now rewrite W, IH.
Qed.

Lemma noWhiteSpace_trimStart s : noWhiteSpace s = true -> trimStart s = s.
Proof.
  destruct s as [| c r]; [reflexivity |]. cbn [noWhiteSpace trimStart].
  intros H. apply andb_true_iff in H as [W _].
  apply negb_true_iff in W. now rewrite W.
Qed.

Lemma noWhiteSpace_trimEnd s : noWhiteSpace s = true -> trimEnd s = s.
Proof.
  induction s as [| c r IH]; [reflexivity |]. cbn [noWhiteSpace trimEnd].
  intros H. apply andb_true_iff in H as [W Hr]. apply negb_true_iff in W.
  rewrite (IH Hr), W. destruct r; reflexivity.
Qed.

Lemma noWhiteSpace_removeCR s : noWhiteSpace s = true -> removeCR s = s.
Proof.
  induction s as [| c r IH]; [reflexivity |]. cbn [noWhiteSpace removeCR].
  intros H. apply andb_true_iff in H as [W Hr]. apply negb_true_iff in W.
  destruct (Ascii.eqb_spec c CR) as [-> |]; [discriminate W |].
  now rewrite (IH Hr).
Qed.

Lemma replaceCRLF_cons c1 c2 r :
  replaceCRLF (String c1 (String c2 r)) =
  if Ascii.eqb c1 CR && Ascii.eqb c2 LF then String LF (replaceCRLF r)
  else String c1 (replaceCRLF (String c2 r)).
Proof. reflexivity. Qed.

Lemma noWhiteSpace_replaceCRLF s : noWhiteSpace s = true -> replaceCRLF s = s.
Proof.
  induction s as [| c r IH]; [reflexivity |]. cbn [noWhiteSpace].
  intros H. apply andb_true_iff in H as [W Hr]. apply negb_true_iff in W.
  destruct r as [| c' r']; [reflexivity |].
  rewrite replaceCRLF_cons.
  destruct (Ascii.eqb_spec c CR) as [-> |]; [discriminate W |].
  cbn [andb]. now rewrite (IH Hr).
Qed.

Lemma noWhiteSpace_cleanOutput s : noWhiteSpace s = true -> Shell.cleanOutput s = s.
Proof.
  intros H. unfold Shell.cleanOutput, trim.
  rewrite (noWhiteSpace_replaceCRLF _ H), (noWhiteSpace_removeCR _ H).
  rewrite (noWhiteSpace_trimStart _ H). now apply noWhiteSpace_trimEnd.
Qed.

Lemma trim_fixed s : trimEnd (trim s) = trim s.
Proof. unfold trim. apply trimEnd_idempotent. Qed.

(** The line the specification describes is the line [getLastLine]
    starts from. *)
Lemma finalNonEmptyLine_last output :
  OutputExtraction.finalNonEmptyLine output = last (splitChar LF (trim output)) "".
Proof.
  unfold OutputExtraction.finalNonEmptyLine.
  destruct (trim output) as [| c r] eqn:E; [reflexivity |].
  apply last_filterTruthy, truthy_nonempty.
  apply (lastLine_fixed (String c r)); [| discriminate].
  rewrite <- E. apply trim_fixed.
Qed.

Lemma getLastLine_trimStart output :
  Shell.getLastLine output = trimStart (OutputExtraction.finalNonEmptyLine output).
Proof.
  unfold Shell.getLastLine.
  rewrite (lastElement_last _ "") by apply splitChar_nonempty.
  rewrite finalNonEmptyLine_last. unfold trim at 1.
  apply trimEnd_trimStart, lastLine_fixed, trim_fixed.
Qed.

Lemma extracted_lastToken output : extracted output = OutputExtraction.lastToken output.
Proof.
  unfold extracted, OutputExtraction.lastToken.
  rewrite (lastElement_last _ "") by apply splitWhiteSpace_nonempty.
  rewrite getLastLine_trimStart, last_splitWhiteSpace_trimStart.
  pose proof (last_splitWhiteSpace_noWhiteSpace
                (OutputExtraction.finalNonEmptyLine output)) as H.
  set (w := last _ _) in *.
  replace (if truthy w then w else "") with w by (destruct w; reflexivity).
  now rewrite noWhiteSpace_cleanOutput, noWhiteSpace_removeCR.
Qed.

Lemma prefix_append p s : String.prefix p (p ++ s)%string = true.
Proof.
  induction p as [| c p IH]; cbn [String.append String.prefix].
  - now destruct s.
  - destruct (ascii_dec c c); [exact IH | congruence].
Qed.

Lemma includes_prefix s p : String.prefix p s = true -> includes s p = true.
Proof. intros H. destruct s; cbn [includes]; now rewrite H. Qed.

Lemma includes_middle a b c : includes (a ++ (b ++ c))%string b = true.
Proof.
  induction a as [| x a IH]; cbn [String.append].
  - apply includes_prefix, prefix_append.
  - cbn [includes]. rewrite IH. apply orb_true_r.
Qed.

Lemma includes_suffix a b : includes (a ++ b)%string b = true.
Proof.
  rewrite <- (includes_middle a b "") at 1.
  f_equal. f_equal. induction b as [| x b IH]; cbn [String.append]; congruence.
Qed.

End StringFacts.

(* ================================================================= *)
(** ** The scheduler and the sub-workflows *)

Module MonadFacts.
Import Shell.

Lemma bind_returned {A B} (m : M A) (k : A -> M B) w a w1 :
  m w = (Returned a, w1) -> bind m k w = k a w1.
Proof. unfold bind. now intros ->. Qed.

Lemma bind_threw {A B} (m : M A) (k : A -> M B) w t w1 :
  m w = (Threw t, w1) -> bind m k w = (Threw t, w1).
Proof. unfold bind. now intros ->. Qed.

Lemma bind_returned_inv {A B} (m : M A) (k : A -> M B) w b w2 :
  bind m k w = (Returned b, w2) ->
  exists a w1, m w = (Returned a, w1) /\ k a w1 = (Returned b, w2).
Proof.
  unfold bind. destruct (m w) as [[a | t] w1]; [| discriminate].
  intros H. now exists a, w1.
Qed.

Lemma writeLog_run level message w :
  writeLog level message w = (Returned tt, appendLog (level, message) w).
Proof. reflexivity. Qed.

End MonadFacts.

Module SchedulerFacts.
Import JsString Shell Compose Orchestration Scheduler MonadFacts.
Local Open Scope js_scope.

Section Facts.
Context {executor : CommandExecutor}.
Variable buildDockerImages : InitContext -> M InitContext.
Variable deployL2 : InitContext -> M (InitContext * option AnyTrustConfig).
Variable configureL2Nodes : InitContext -> option AnyTrustConfig -> M InitContext.
Variable setupTrafficGenerators : InitContext -> M InitContext.

Abbreviation phases :=
  (createInitPhases buildDockerImages deployL2 configureL2Nodes setupTrafficGenerators).
Abbreviation runInit' :=
  (runInit buildDockerImages deployL2 configureL2Nodes setupTrafficGenerators).

Lemma runPhases_app pre post ctx w :
  runPhases (pre ++ post) ctx w = (ctx' <- runPhases pre ctx ;; runPhases post ctx') w.
Proof.
  revert ctx w. induction pre as [| p pre IH]; intros ctx w; [reflexivity |].
  cbn [app runPhases]. unfold bind.
  destruct (runPhase p ctx w) as [[c | t] w1]; [| reflexivity].
  rewrite IH. reflexivity.
Qed.

Lemma runPhase_threw phase ctx w error w2 :
  skipped phase ctx = false ->
  run phase ctx (appendLog (Info, name phase) w) = (Threw error, w2) ->
  runPhase phase ctx w = (Threw error, appendLog (phaseFailedLine phase error) w2).
Proof.
  intros Hskip Hrun. unfold runPhase. rewrite Hskip.
  unfold logger.info, logger.error, tryCatch, bind. rewrite !writeLog_run, Hrun.
  reflexivity.
Qed.

(** The scheduler on a failing phase: the thrown value reaches the
    caller as it is, and the world is the one the phase left plus the
    scheduler's error line. *)
Lemma runInit_phase_threw flags workDir w0 pre phase post ctx w1 error w2 :
  phases = pre ++ phase :: post ->
  runBefore pre flags workDir w0 = (Returned ctx, w1) ->
  skipped phase ctx = false ->
  run phase ctx (appendLog (Info, name phase) w1) = (Threw error, w2) ->
  runInit' flags workDir w0 = (Threw error, appendLog (phaseFailedLine phase error) w2).
Proof.
  intros Hphases Hpre Hskip Hrun.
  unfold runInit. rewrite Hphases.
  unfold runBefore in Hpre.
  apply bind_returned_inv in Hpre as (u & wi & Hinfo & Hpre).
  rewrite (bind_returned _ _ _ _ _ Hinfo).
  apply bind_threw. rewrite runPhases_app.
  change (initialContext flags workDir) with
    {| Orchestration.flags := flags; Orchestration.workDir := workDir;
       l2OwnerAddress := None; l2OwnerKey := None;
       sequencerAddress := None; wasmRoot := None;
       l1ChainId := 1337; anyTrustConfig := None |} in Hpre.
  rewrite (bind_returned _ _ _ _ _ Hpre).
  cbn [runPhases]. apply bind_threw.
  now apply runPhase_threw.
Qed.

Lemma command_run cmd w :
  logger.command cmd w = (Returned tt, commandLogged cmd w).
Proof.
  unfold logger.command, commandLogged, isVerbose, when, bind.
  destruct (verboseMode w); reflexivity.
Qed.

Lemma calls_commandLogged cmd w : calls (commandLogged cmd w) = calls w.
Proof. unfold commandLogged. destruct (verboseMode w); reflexivity. Qed.

Lemma runWithCode_run cmd options w :
  runWithCode cmd options w =
    (Returned (execShell (calls w) cmd options),
     recordCall (RunWithCode cmd options) (commandLogged cmd w)).
Proof.
  unfold runWithCode. rewrite (bind_returned _ _ _ _ _ (command_run cmd w)).
  now rewrite calls_commandLogged.
Qed.

Lemma runStreaming_run cmd args options w :
  runStreaming cmd args options w =
    (match spawnShell (calls w) cmd args options with
     | inl e => Threw e
     | inr c => Returned c
     end,
     recordCall (RunStreaming cmd args options)
       (commandLogged (cmd ++ " " ++ join " " args)%string w)).
Proof.
  unfold runStreaming. rewrite (bind_returned _ _ _ _ _ (command_run _ w)).
  rewrite calls_commandLogged. now destruct (spawnShell _ _ _ _).
Qed.

Lemma startGeth_sync_failure ctx w :
  spawnShell (calls w) "docker" gethUpArgs (gethUpOptions ctx) = inr 0 ->
  code (execShell (RunStreaming "docker" gethUpArgs (gethUpOptions ctx) :: calls w)
          syncWaitCommand (syncWaitOptions ctx)) <> 0 ->
  exists w',
    startGeth ctx w =
      (Threw (ErrorObj
         ("Geth sync failed: "
          ++ stderr (execShell (RunStreaming "docker" gethUpArgs (gethUpOptions ctx) :: calls w)
                       syncWaitCommand (syncWaitOptions ctx)))%string), w')
    /\ calls w' = RunWithCode syncWaitCommand (syncWaitOptions ctx)
                  :: RunStreaming "docker" gethUpArgs (gethUpOptions ctx) :: calls w.
Proof.
  intros Hup Hsync. apply Z.eqb_neq in Hsync.
  unfold startGeth, waitForSync, composeUp, composeRun.
  unfold logger.step. rewrite (bind_returned _ _ _ _ _ (writeLog_run _ _ _)).
  erewrite bind_returned.
  2:{ rewrite runStreaming_run. cbn [calls appendLog].
      cbn. fold gethUpArgs. fold (gethUpOptions ctx). rewrite Hup. reflexivity. }
  cbn [Z.eqb negb].
  rewrite (bind_returned _ _ _ _ _ (writeLog_run _ _ _)).
  erewrite bind_returned by apply runWithCode_run.
  cbn [calls appendLog recordCall]. rewrite calls_commandLogged. cbn [calls appendLog].
  change (join " " _) with syncWaitCommand.
  match goal with
  | |- context [execShell _ syncWaitCommand ?o] => change o with (syncWaitOptions ctx)
  end.
  change (RunStreaming "docker" _ _) with (RunStreaming "docker" gethUpArgs (gethUpOptions ctx)).
  rewrite Hsync. cbn [negb]. unfold throwError, throw.
  eexists; split; [reflexivity |].
  cbn [calls recordCall]. rewrite calls_commandLogged. cbn [calls appendLog recordCall].
  now rewrite calls_commandLogged.
Qed.

Lemma debug_run message w :
  exists w', logger.debug message w = (Returned tt, w') /\ calls w' = calls w.
Proof.
  unfold logger.debug, isVerbose, when, bind.
  destruct (verboseMode w); eexists; split; reflexivity.
Qed.

Lemma inversion_returned {A} (a b : A) (w1 w2 : World) :
  (Returned a, w1) = (Returned b, w2) -> a = b /\ w1 = w2.
Proof. intros H. now inversion H. Qed.

(** C2: when the run reaches [startGeth], geth starts and the
    wait-for-sync command exits with a non-zero code, [runInit] throws an
    error whose message begins with "Geth sync failed" (no other step of
    the L1 setup words its failure so); the sync wait is the last command
    run, and the last line logged is the scheduler's error line for the
    phase "Setup L1 chain": no later phase runs, whatever its body. *)
Theorem sync_wait_failure_aborts_run flags workDir w0 ctx w1 :
  let upCall := RunStreaming "docker" gethUpArgs (gethUpOptions ctx) in
  let syncResult := execShell (upCall :: calls w1) syncWaitCommand (syncWaitOptions ctx) in
  let message := ("Geth sync failed: " ++ stderr syncResult)%string in
  let final := runInit' flags workDir w0 in
  runUntilStartGeth buildDockerImages deployL2 configureL2Nodes setupTrafficGenerators
    flags workDir w0 = (Returned ctx, w1) ->
  spawnShell (calls w1) "docker" gethUpArgs (gethUpOptions ctx) = inr 0 ->
  code syncResult <> 0 ->
  fst final = Threw (ErrorObj message)
  /\ startsWith message "Geth sync failed" = true
  /\ startsWith message "Failed to" = false
  /\ calls (snd final) = RunWithCode syncWaitCommand (syncWaitOptions ctx) :: upCall :: calls w1
  /\ hd_error (logged (snd final))
     = Some (Error, ("Phase " ++ String DQUOTE "Setup L1 chain" ++ String DQUOTE " failed: "
                     ++ message)%string).
Proof.
  intros upCall syncResult message final Hreach Hup Hsync.
  unfold runUntilStartGeth in Hreach.
  apply bind_returned_inv in Hreach as (c & wa & Hpre & Hreach).
  apply bind_returned_inv in Hreach as ([] & wb & Hinfo & Hreach).
  apply bind_returned_inv in Hreach as ([] & wc & Hkeys & Hreach).
  apply bind_returned_inv in Hreach as ([] & wd & Hgenesis & Hreach).
  apply bind_returned_inv in Hreach as ([] & we & Hprysm & Hreach).
  apply bind_returned_inv in Hreach as ([] & wf & Hinit & Hreach).
  apply inversion_returned in Hreach as [-> ->].
  apply inversion_returned in Hinfo as [_ <-].
  destruct (startGeth_sync_failure ctx w1 Hup Hsync) as (w3 & Hgeth & Hcalls).
  assert (Hrun : runInit' flags workDir w0 =
            (Threw (ErrorObj message),
             appendLog (phaseFailedLine
                          {| name := "Setup L1 chain"; run := fun ctx => setupL1 ctx;
                             skip := None |} (ErrorObj message)) w3)).
  { apply (runInit_phase_threw flags workDir w0 (firstn 2 phases) _ (skipn 3 phases) ctx wa);
      [reflexivity | exact Hpre | reflexivity |].
    cbn [run name]. unfold setupL1.
    rewrite (bind_returned _ _ _ _ _ Hkeys), (bind_returned _ _ _ _ _ Hgenesis).
    rewrite (bind_returned _ _ _ _ _ Hprysm), (bind_returned _ _ _ _ _ Hinit).
    now apply bind_threw. }
  subst final. rewrite Hrun. cbn [fst snd].
  repeat split; [exact Hcalls].
Qed.

(** C3, amended: when the body of a phase throws, [runInit] throws the
    very same value to its caller; the name of the failing phase is
    attached to the error line the scheduler logs, not to the value
    thrown; and nothing runs afterwards: the final world is the one the
    phase left plus that line. *)
Theorem phase_failure_reaches_caller_unchanged
    flags workDir w0 pre phase post ctx w1 error w2 :
  phases = pre ++ phase :: post ->
  runBefore pre flags workDir w0 = (Returned ctx, w1) ->
  skipped phase ctx = false ->
  run phase ctx (appendLog (Info, name phase) w1) = (Threw error, w2) ->
  let line := phaseFailedLine phase error in
  runInit' flags workDir w0 = (Threw error, appendLog line w2)
  /\ includes (snd line) (name phase) = true
  /\ calls (appendLog line w2) = calls w2.
Proof.
  intros Hphases Hpre Hskip Hrun line. split; [| split; [| reflexivity]].
  - now apply (runInit_phase_threw flags workDir w0 pre phase post ctx w1).
  - apply (StringFacts.includes_middle ("Phase " ++ String DQUOTE "")).
Qed.

(** C8: when its command succeeds, [deployBiddingToken] extracts the
    last white-space-delimited token of the final non-empty line of the
    trimmed output, carriage returns stripped.  If that token starts
    with "0x" it is returned as it is; otherwise an error is thrown whose
    message includes the token. *)
Theorem address_extraction ctx w :
  let result := execShell (calls w) createTokenCommand (createTokenOptions ctx) in
  let token := OutputExtraction.lastToken (stdout result) in
  let message := ("Invalid bidding token address: " ++ token)%string in
  code result = 0 ->
  (startsWith token "0x" = true -> fst (deployBiddingToken ctx w) = Returned token)
  /\ (startsWith token "0x" = false ->
      fst (deployBiddingToken ctx w) = Threw (ErrorObj message)
      /\ includes message token = true).
Proof.
  intros result token message Hcode.
  assert (Hrun : exists w',
             deployBiddingToken ctx w =
               (if negb (truthy token) || negb (startsWith token "0x")
                then throwError message
                else (logger.debug ("Bidding token address: " ++ token)%string ;; ret token)) w').
  { unfold deployBiddingToken, composeRun.
    unfold logger.step. rewrite (bind_returned _ _ _ _ _ (writeLog_run _ _ _)).
    erewrite bind_returned by apply runWithCode_run.
    cbn [calls appendLog].
    change (join " " _) with createTokenCommand.
    match goal with
    | |- context [execShell _ createTokenCommand ?o] =>
        change o with (createTokenOptions ctx)
    end.
    fold result. apply Z.eqb_eq in Hcode. rewrite Hcode. cbn [negb].
    change (cleanOutput _) with (OutputExtraction.extracted (stdout result)).
    rewrite StringFacts.extracted_lastToken. fold token. fold message.
    eexists. reflexivity. }
  destruct Hrun as (w' & Hrun). rewrite Hrun. split.
  - intros H0x. rewrite H0x.
    assert (truthy token = true) as -> by (destruct token; [discriminate H0x | reflexivity]).
    cbn [negb orb].
    destruct (debug_run ("Bidding token address: " ++ token)%string w') as (w'' & Hd & _).
    now rewrite (bind_returned _ _ _ _ _ Hd).
  - intros H0x. rewrite H0x. rewrite orb_true_r. split; [reflexivity |].
    apply StringFacts.includes_suffix.
Qed.

End Facts.
End SchedulerFacts.

(* ================================================================= *)
(** ** The properties at concrete inputs *)

Module Runs.
Import JsString Shell Compose Orchestration Scheduler Examples.


(** [nowait] alone on the default flags: the single item. *)
Lemma nowait_without_detach_example :
  Validation.valid
    (Validation.validateFlags (exampleFlags false false true (Integer 18))) = false
  /\ Validation.errors (Validation.validateFlags (exampleFlags false false true (Integer 18)))
     = [Validation.nowaitRequiresDetach].
Proof.
  refine (ValidationFacts.nowait_without_detach_only_error
            (exampleFlags false false true (Integer 18)) _ _ _ _ _ _ _ _ _).
  all: try reflexivity.
  all: try (simpl; discriminate).
  all: try (left; reflexivity).
  all: try (unfold Defaults.MIN_FEE_TOKEN_DECIMALS, Defaults.MAX_FEE_TOKEN_DECIMALS,
              Defaults.MAX_BATCH_POSTERS, Defaults.MAX_REDUNDANT_SEQUENCERS; simpl; lia).
Defined.

(** The run against [syncFailingExecutor]: the sync wait fails, the
    error says so, "build" was run and none of the later bodies was. *)
Lemma sync_wait_failure_example :
  fst syncFailingRun = Threw (ErrorObj "Geth sync failed: timed out")
  /\ hd_error (calls (snd syncFailingRun))
     = Some (RunWithCode syncWaitCommand
               (syncWaitOptions (initialContext Flags.defaultFlags "/testnode")))
  /\ ranCommand "build" (snd syncFailingRun) = true
  /\ ranCommand "deploy-l2" (snd syncFailingRun) = false
  /\ ranCommand "configure-l2" (snd syncFailingRun) = false
  /\ ranCommand "traffic" (snd syncFailingRun) = false.
Proof.
  pose proof
    (SchedulerFacts.sync_wait_failure_aborts_run (executor := syncFailingExecutor)
       (noisy (executor := syncFailingExecutor) "build")
       (noisyDeployL2 (executor := syncFailingExecutor))
       (fun ctx _ => noisy (executor := syncFailingExecutor) "configure-l2" ctx)
       (noisy (executor := syncFailingExecutor) "traffic")
       Flags.defaultFlags "/testnode" (initialWorld false)
       (initialContext Flags.defaultFlags "/testnode")
       (snd (runUntilStartGeth (executor := syncFailingExecutor)
               (noisy (executor := syncFailingExecutor) "build")
               (noisyDeployL2 (executor := syncFailingExecutor))
               (fun ctx _ => noisy (executor := syncFailingExecutor) "configure-l2" ctx)
               (noisy (executor := syncFailingExecutor) "traffic")
               Flags.defaultFlags "/testnode" (initialWorld false)))) as H.
  cbv zeta in H.
  destruct H as (Hout & _ & _ & Hcalls & _).
  - vm_compute. reflexivity.
  - vm_compute. reflexivity.
  - vm_compute. discriminate.
  - split; [exact Hout |].
    split; [unfold syncFailingRun; rewrite Hcalls; reflexivity |].
    repeat split; vm_compute; reflexivity.
Defined.

(** C3, as stated, fails: in that run the phase "Setup L1 chain" fails
    (the scheduler's last line says so), and the error the caller
    receives does not mention the phase. *)
Lemma propagated_error_lacks_phase_name :
  hd_error (logged (snd syncFailingRun))
  = Some (Error,
          ("Phase " ++ String DQUOTE "Setup L1 chain" ++ String DQUOTE
             " failed: Geth sync failed: timed out")%string)
  /\ fst syncFailingRun = Threw (ErrorObj "Geth sync failed: timed out")
  /\ includes "Geth sync failed: timed out" "Setup L1 chain" = false.
Proof. repeat split; vm_compute; reflexivity. Qed.

(** The failing phase of that run, seen by the scheduler. *)
Lemma phase_failure_example :
  fst syncFailingRun = Threw (ErrorObj "Geth sync failed: timed out")
  /\ hd_error (logged (snd syncFailingRun))
     = Some (Error,
             ("Phase " ++ String DQUOTE "Setup L1 chain" ++ String DQUOTE
                " failed: Geth sync failed: timed out")%string).
Proof.
  set (ctx := initialContext Flags.defaultFlags "/testnode").
  set (pre := List.firstn 2 syncFailingPhases).
  set (phase := List.nth 2 syncFailingPhases
                  {| name := ""; run := fun c => Shell.ret c; skip := None |}).
  set (w1 := snd (runBefore pre Flags.defaultFlags "/testnode" (initialWorld false))).
  set (w2 := snd (run phase ctx (appendLog (Info, name phase) w1))).
  pose proof
    (SchedulerFacts.phase_failure_reaches_caller_unchanged
       (executor := syncFailingExecutor)
       (noisy (executor := syncFailingExecutor) "build")
       (noisyDeployL2 (executor := syncFailingExecutor))
       (fun ctx _ => noisy (executor := syncFailingExecutor) "configure-l2" ctx)
       (noisy (executor := syncFailingExecutor) "traffic")
       Flags.defaultFlags "/testnode" (initialWorld false)
       pre phase (List.skipn 3 syncFailingPhases) ctx w1
       (ErrorObj "Geth sync failed: timed out") w2) as H.
  cbv zeta in H.
  destruct H as (Hrun & _ & _).
  - reflexivity.
  - vm_compute. reflexivity.
  - reflexivity.
  - vm_compute. reflexivity.
  - unfold syncFailingRun. rewrite Hrun. split; reflexivity.
Defined.

(** A two-line output whose last line ends with an address and CR LF. *)
Lemma address_extraction_example :
  fst (deployBiddingToken (executor := tokenExecutor)
         (initialContext Flags.defaultFlags "/testnode") (initialWorld false))
  = Returned "0xABCDEF0123456789000000000000000000000000".
Proof.
  refine (proj1 (SchedulerFacts.address_extraction (executor := tokenExecutor)
                   (initialContext Flags.defaultFlags "/testnode")
                   (initialWorld false) _) _).
  - reflexivity.
  - vm_compute. reflexivity.
Defined.

End Runs.

(* ================================================================= *)
(** * Further properties of the configuration and orchestration code *)

Module TopologyFacts.
Import Services ServiceGroups ServicesFacts.

Lemma same_true a b : same a b = true <-> a = b.
Proof. unfold same. destruct (ServiceName_eq_dec a b); intuition discriminate. Qed.

Lemma distinct_NoDup l : distinct l = true -> NoDup l.
Proof.
  induction l as [| x r IH]; [constructor |]. cbn [distinct].
  intros H. apply andb_true_iff in H as [Hx Hr]. constructor; [| now apply IH].
  intros Hin. apply negb_true_iff in Hx.
  assert (existsb (same x) r = true) as E; [| congruence].
  apply existsb_exists. exists x. split; [exact Hin | now apply same_true].
Qed.

(** X1: [calculateServices] never lists a service twice, whatever the flags. *)
Theorem topology_has_no_duplicates flags : NoDup (calculateServices flags).
Proof.
  rewrite calculateServices_segments. apply distinct_NoDup.
  destruct (simple flags), (validate flags), (l3node flags), (blockscout flags),
    (l2Timeboost flags), (0 <? redundantsequencers flags),
    (1 <? redundantsequencers flags), (2 <? redundantsequencers flags),
    (0 <? batchposters flags), (1 <? batchposters flags), (2 <? batchposters flags);
    reflexivity.
Qed.

(** X2: the topology starts with [sequencer]; [redis] is in it exactly when
    [simple] is off; a redundant sequencer or an extra poster of a higher
    tier is never present without the tier below it. *)
Theorem tiers_are_never_skipped flags :
  (exists rest, calculateServices flags = sequencer :: rest)
  /\ (In redis (calculateServices flags) <-> simple flags = false)
  /\ (In sequencer_d (calculateServices flags) -> In sequencer_c (calculateServices flags))
  /\ (In sequencer_c (calculateServices flags) -> In sequencer_b (calculateServices flags))
  /\ (In poster_c (calculateServices flags) -> In poster_b (calculateServices flags)).
Proof.
  split; [rewrite calculateServices_segments; eexists; reflexivity |].
  assert (Hb : In sequencer_b (calculateServices flags) <-> 0 < redundantsequencers flags).
  { members. destruct (validate flags), (negb (simple flags)); simpl;
      intuition (try discriminate; auto). }
  assert (Hc : In sequencer_c (calculateServices flags) <-> 1 < redundantsequencers flags).
  { members. destruct (validate flags), (negb (simple flags)); simpl;
      intuition (try discriminate; auto). }
  assert (Hd : In sequencer_d (calculateServices flags) <-> 2 < redundantsequencers flags).
  { members. destruct (validate flags), (negb (simple flags)); simpl;
      intuition (try discriminate; auto). }
  assert (Hr : In redis (calculateServices flags) <-> simple flags = false).
  { members. destruct (validate flags), (simple flags); simpl;
      intuition (try discriminate; auto). }
  assert (Hpb : In poster_b (calculateServices flags) <-> 1 < batchposters flags).
  { members. destruct (validate flags), (negb (simple flags)); simpl;
      intuition (try discriminate; auto). }
  assert (Hpc : In poster_c (calculateServices flags) <-> 2 < batchposters flags).
  { members. destruct (validate flags), (negb (simple flags)); simpl;
      intuition (try discriminate; auto). }
  rewrite Hb, Hc, Hd, Hr, Hpb, Hpc. split; [tauto |]. repeat split; lia.
Qed.

Lemma count_occ_filter (f : ServiceName -> bool) l x :
  count_occ ServiceName_eq_dec (filter f l) x
  = if f x then count_occ ServiceName_eq_dec l x else 0%nat.
Proof.
  induction l as [| a l IH]; [now destruct (f x) |].
  cbn [filter]. destruct (f a) eqn:Fa; cbn [count_occ];
    destruct (ServiceName_eq_dec a x) as [-> | Hne]; rewrite ?IH.
  - now rewrite Fa.
  - reflexivity.
  - now rewrite Fa.
  - reflexivity.
Qed.

Lemma categorized_permutation services :
  Permutation
    (allCategorized (categorizeServices services) ++ filter uncategorized services)
    services.
Proof.
  apply (Permutation_count_occ ServiceName_eq_dec). intros x.
  unfold allCategorized, categorizeServices.
  cbn [core sequencers posters validation l3 explorer timeboost].
  rewrite !count_occ_app, !count_occ_filter.
  destruct x; cbn; lia.
Qed.

Lemma topology_is_categorized flags :
  filter uncategorized (calculateServices flags) = [].
Proof.
  rewrite calculateServices_segments.
  destruct (simple flags), (validate flags), (l3node flags), (blockscout flags),
    (l2Timeboost flags), (0 <? redundantsequencers flags),
    (1 <? redundantsequencers flags), (2 <? redundantsequencers flags),
    (0 <? batchposters flags), (1 <? batchposters flags), (2 <? batchposters flags);
    reflexivity.
Qed.

(** X3: the groups of [categorizeServices], taken together with the services
    no group tests for (geth, beacon_chain, validator_client, prysm), are
    a rearrangement of the input list: nothing is dropped, duplicated or
    put in two groups. *)
Theorem categories_rearrange_services services :
  Permutation (allCategorized (categorizeServices services)
               ++ filter uncategorized services) services.
Proof. apply categorized_permutation. Qed.

(** X4: on a topology of [calculateServices] the groups of
    [categorizeServices] are a rearrangement of the whole topology, and
    the sequencer group is not empty. *)
Theorem categories_rearrange_topology flags :
  Permutation (allCategorized (categorizeServices (calculateServices flags)))
    (calculateServices flags)
  /\ sequencers (categorizeServices (calculateServices flags)) <> [].
Proof.
  split.
  - pose proof (categorized_permutation (calculateServices flags)) as H.
    now rewrite topology_is_categorized, app_nil_r in H.
  - rewrite calculateServices_segments. discriminate.
Qed.

End TopologyFacts.

Module FormatFacts.
Import JsString Services ServiceGroups.

Lemma splitChar_lacks sep s : lacksChar sep s = true -> splitChar sep s = [s].
Proof.
  induction s as [| c r IH]; [reflexivity |]. cbn [lacksChar splitChar].
  intros H. apply andb_true_iff in H as [Hc Hr]. apply negb_true_iff in Hc.
  now rewrite Hc, (IH Hr).
Qed.

Lemma splitChar_append sep s r :
  lacksChar sep s = true ->
  splitChar sep (s ++ String sep r)%string = s :: splitChar sep r.
Proof.
  induction s as [| c s IH]; cbn [lacksChar String.append splitChar].
  - intros _. now rewrite Ascii.eqb_refl.
  - intros H. apply andb_true_iff in H as [Hc Hs]. apply negb_true_iff in Hc.
    now rewrite Hc, (IH Hs).
Qed.

Lemma splitChar_join sep names :
  names <> [] ->
  Forall (fun n => lacksChar sep n = true) names ->
  splitChar sep (join (String sep "") names) = names.
Proof.
  unfold join.
  induction names as [| n [| m rest] IH]; intros Hne Hall; [congruence | |].
  - cbn [String.concat]. apply splitChar_lacks. now inversion Hall.
  - inversion Hall as [| ? ? Hn Hrest]; subst.
    change (String.concat (String sep "") (n :: m :: rest))
      with (n ++ String sep (String.concat (String sep "") (m :: rest)))%string.
    rewrite splitChar_append by exact Hn. f_equal. apply IH; [discriminate | exact Hrest].
Qed.

(** X5: splitting the string of [formatServicesForCompose] at its spaces
    gives back the names of a non-empty service list, in order. *)
Theorem formatted_services_split_back services :
  services <> [] ->
  splitChar " " (formatServicesForCompose services) = map serviceString services.
Proof.
  intros Hne. unfold formatServicesForCompose. apply splitChar_join.
  - destruct services; [congruence | discriminate].
  - apply Forall_forall. intros n Hn. apply in_map_iff in Hn as (s & <- & _).
    destruct s; reflexivity.
Qed.

End FormatFacts.

Module RuleFacts.
Import JsString Shell Flags Defaults Validation ValidationAssert ValidationFacts.

Lemma segment_nil {A} (c : bool) (e : A) : (if c then [e] else []) = [] <-> c = false.
Proof. destruct c; split; congruence. Qed.

Lemma app_nil_iff {A} (l l' : list A) : l ++ l' = [] <-> l = [] /\ l' = [].
Proof. destruct l; simpl; intuition congruence. Qed.

Lemma implies_false (a b : bool) : a && negb b = false <-> (a = true -> b = true).
Proof. destruct a, b; simpl; intuition congruence. Qed.

Lemma in_range_false lo hi x : (x <? lo) || (hi <? x) = false <-> lo <= x <= hi.
Proof. rewrite orb_false_iff, !Z.ltb_ge. lia. Qed.

Lemma valid_iff_rules flags :
  valid (validateFlags flags) = true <-> Rules flags.
Proof.
  rewrite valid_errors, errors_segments.
  rewrite !app_nil_iff, !segment_nil.
  rewrite !implies_false, !in_range_false, NumberFacts.outside_false.
  rewrite negb_true_iff, NumberFacts.strictEquals_false.
  split.
  - intros (H1 & H2 & H3 & H4 & H5 & H6 & H7 & H8). now constructor.
  - intros []. tauto.
Qed.

(** X6: [validateFlags] reports [valid] exactly when the eight fatal rules
    hold, the decimals' range rule being that of the validator's test
    (an integer from 0 to 36, or NaN); no warning affects validity. *)
Theorem valid_exactly_when_rules_hold flags :
  valid (validateFlags flags) = true <-> Rules flags.
Proof. apply valid_iff_rules. Qed.

(** X7: the error codes of [validateFlags] are pairwise distinct, and each
    code is reported exactly when its own rule is violated; the decimals'
    range error is reported exactly for numbers outside 0..36, so never
    for NaN. *)
Theorem each_violation_reported_once flags :
  let codes := map code (errors (validateFlags flags)) in
  NoDup codes
  /\ (In NOWAIT_REQUIRES_DETACH codes <-> nowait flags = true /\ detach flags = false)
  /\ (In L3_FEE_TOKEN_REQUIRES_L3NODE codes
      <-> l3FeeToken flags = true /\ l3node flags = false)
  /\ (In L3_FEE_TOKEN_PRICER_REQUIRES_FEE_TOKEN codes
      <-> l3FeeTokenPricer flags = true /\ l3FeeToken flags = false)
  /\ (In L3_FEE_TOKEN_DECIMALS_REQUIRES_FEE_TOKEN codes
      <-> l3FeeTokenDecimals flags <> Integer 18 /\ l3FeeToken flags = false)
  /\ (In L3_TOKEN_BRIDGE_REQUIRES_L3NODE codes
      <-> l3TokenBridge flags = true /\ l3node flags = false)
  /\ (In L3_FEE_TOKEN_DECIMALS_OUT_OF_RANGE codes
      <-> exists decimals,
            l3FeeTokenDecimals flags = Integer decimals /\ ~ 0 <= decimals <= 36)
  /\ (In L3_FEE_TOKEN_DECIMALS_OUT_OF_RANGE codes -> l3FeeTokenDecimals flags <> NaN)
  /\ (In BATCH_POSTERS_OUT_OF_RANGE codes <-> ~ 0 <= batchposters flags <= 3)
  /\ (In REDUNDANT_SEQUENCERS_OUT_OF_RANGE codes
      <-> ~ 0 <= redundantsequencers flags <= 3).
Proof.
  cbv zeta.
  destruct (reported_iff_violated flags) as (H1 & H2 & H3 & H4 & H5 & H6 & H7 & H8).
  split.
  { rewrite codes_selected. apply NoDup_selected. cbn [map fst].
    repeat constructor; simpl; intuition discriminate. }
  split; [exact H1 |]. split; [exact H2 |]. split; [exact H3 |].
  split; [exact H4 |]. split; [exact H5 |]. split; [exact H6 |].
  split; [| split; [exact H7 | exact H8]].
  intros Hin E. apply H6 in Hin as (z & Hz & _). congruence.
Qed.

End RuleFacts.

Module AssertFacts.
Import JsString Shell Flags Defaults Validation ValidationAssert RuleFacts.

Lemma prefix_append_weaken p a b :
  String.prefix p a = true -> String.prefix p (a ++ b)%string = true.
Proof.
  revert a. induction p as [| c p IH]; intros a;
    [intros _; destruct (a ++ b)%string; reflexivity |].
  destruct a as [| x a]; cbn [String.prefix String.append]; [discriminate |].
  destruct (ascii_dec c x); [apply IH | discriminate].
Qed.

Lemma includes_append_l a b x : includes a x = true -> includes (a ++ b)%string x = true.
Proof.
  induction a as [| c a IH]; cbn [includes String.append].
  - rewrite orb_false_r. intros H. destruct x; [| discriminate H].
    now destruct b.
  - intros H. apply orb_true_iff in H as [H | H].
    + pose proof (prefix_append_weaken x (String c a) b H) as P.
      cbn [String.append] in P. now rewrite P.
    + rewrite (IH H). apply orb_true_r.
Qed.

Lemma includes_append_r a b x : includes b x = true -> includes (a ++ b)%string x = true.
Proof.
  intros H. induction a as [| c a IH]; cbn [includes String.append]; [exact H |].
  rewrite IH. apply orb_true_r.
Qed.

Lemma includes_self x : includes x x = true.
Proof.
  apply StringFacts.includes_prefix.
  induction x as [| c x IH]; [reflexivity |]. cbn [String.prefix].
  destruct (ascii_dec c c); [exact IH | congruence].
Qed.

Lemma includes_join sep names x :
  In x names -> includes (join sep names) x = true.
Proof.
  unfold join. induction names as [| n [| m rest] IH]; intros Hin; [contradiction | |].
  - destruct Hin as [-> | []]. cbn [String.concat]. apply includes_self.
  - change (String.concat sep (n :: m :: rest))
      with (n ++ (sep ++ String.concat sep (m :: rest)))%string.
    destruct Hin as [-> | Hin].
    + apply includes_append_l, includes_self.
    + apply includes_append_r, includes_append_r, IH, Hin.
Qed.

(** X8: [assertValidFlags] returns exactly when the fatal rules hold
    (the decimals' range rule holding of NaN as of the integers from 0 to
    36); otherwise it throws an [Error] whose message starts with
    "Invalid flag configuration:" and contains the message of every
    reported error. *)
Theorem assertion_throws_exactly_on_violations flags :
  match assertValidFlags flags with
  | Returned _ => Rules flags
  | Threw t =>
      ~ Rules flags
      /\ exists text,
           t = ErrorObj text
           /\ startsWith text "Invalid flag configuration:" = true
           /\ forall e, In e (errors (validateFlags flags)) ->
                        includes text (message e) = true
  end.
Proof.
  unfold assertValidFlags.
  destruct (valid (validateFlags flags)) eqn:V; cbn [negb].
  - now apply valid_iff_rules.
  - split.
    + intros R. apply valid_iff_rules in R. congruence.
    + eexists. split; [reflexivity |]. split; [reflexivity |].
      intros e He.
      apply (includes_append_r "Invalid flag configuration:").
      apply (includes_append_r (String LF "")).
      apply includes_join. now apply in_map.
Qed.

End AssertFacts.

Module WarningFacts.
Import Flags Validation Services ServicesFacts.

Lemma warnIf_segment c e l : warnIf c e l = l ++ (if c then [e] else []).
Proof. destruct c; simpl; [reflexivity | now rewrite app_nil_r]. Qed.

Lemma warned_iff flags k :
  (exists w, In w (warnings (validateFlags flags)) /\ wcode w = k) <->
  match k with
  | SIMPLE_MODE_IGNORES_BATCH_POSTERS =>
      Flags.simple flags = true /\ 1 < Flags.batchposters flags
  | SIMPLE_MODE_IGNORES_REDUNDANT_SEQUENCERS =>
      Flags.simple flags = true /\ 0 < Flags.redundantsequencers flags
  | L3_TRAFFIC_WITHOUT_L3NODE =>
      l3Traffic flags = true /\ Flags.l3node flags = false
  end.
Proof.
  unfold validateFlags, generateWarnings. cbn [warnings].
  rewrite !warnIf_segment. cbn [app].
  destruct k.
  all: rewrite <- ?Z.ltb_lt, <- ?(negb_true_iff (Flags.l3node flags)), <- ?andb_true_iff.
  all: destruct (Flags.simple flags && (1 <? Flags.batchposters flags)),
         (Flags.simple flags && (0 <? Flags.redundantsequencers flags)),
         (l3Traffic flags && negb (Flags.l3node flags)); cbn [app In].
  all: split; [intros (w & Hin & Hw) | intros H].
  all: repeat match goal with
              | H : _ \/ _ |- _ => destruct H
              | H : False |- _ => destruct H
              end; subst; cbn [wcode] in *; try discriminate; try congruence;
         try reflexivity.
  all: first
         [ eexists; split; [left; reflexivity | reflexivity]
         | eexists; split; [right; left; reflexivity | reflexivity]
         | eexists; split; [right; right; left; reflexivity | reflexivity] ].
Qed.

(** X9: the settings the two simple-mode warnings call ignored are used by
    [calculateServices] all the same: with the redundant-sequencer warning
    [sequencer_b] is in the topology, and with the batch-poster warning
    [poster_b] is, while [poster] is not. *)
Theorem ignored_settings_still_start_services flags :
  ((exists w, In w (warnings (validateFlags flags))
              /\ wcode w = SIMPLE_MODE_IGNORES_REDUNDANT_SEQUENCERS) ->
   In sequencer_b (calculateServices (ofTestnodeFlags flags)))
  /\ ((exists w, In w (warnings (validateFlags flags))
                 /\ wcode w = SIMPLE_MODE_IGNORES_BATCH_POSTERS) ->
      In poster_b (calculateServices (ofTestnodeFlags flags))
      /\ ~ In poster (calculateServices (ofTestnodeFlags flags))).
Proof.
  rewrite !warned_iff.
  split; [intros [Hs Hrs] | intros [Hs Hbp]; split].
  all: members; cbn [simple batchposters redundantsequencers validate ofTestnodeFlags].
  all: rewrite ?Hs; destruct (Flags.validate flags); simpl.
  all: intuition (try discriminate; try lia; auto).
Qed.

End WarningFacts.

Module InitCommandFacts.
Import JsString Shell Orchestration InitCommand MonadFacts.

Lemma effective_simple flags :
  Flags.simple (toTestnodeFlags flags) = true <->
  simple flags = true /\ devNitro flags = false /\ devBlockscout flags = false
  /\ validate flags = false /\ batchposters flags <= 1 /\ redundantsequencers flags <= 0.
Proof.
  unfold toTestnodeFlags. cbn [Flags.simple].
  rewrite <- !Z.ltb_ge.
  destruct (simple flags), (devNitro flags), (devBlockscout flags), (validate flags),
    (1 <? batchposters flags), (0 <? redundantsequencers flags); cbn;
    intuition discriminate.
Qed.

(** X10: the flags [toTestnodeFlags] builds never break the nowait rule and
    never draw a simple-mode warning (the only possible warning is the
    L3 traffic one); when they are in simple mode the topology is the
    sequencer plus the requested L3 node, explorer and Timeboost
    services. *)
Theorem init_flags_avoid_simple_mode_conflicts flags :
  let t := toTestnodeFlags flags in
  ~ In Validation.NOWAIT_REQUIRES_DETACH
      (map Validation.code (Validation.errors (Validation.validateFlags t)))
  /\ (forall w, In w (Validation.warnings (Validation.validateFlags t)) ->
                Validation.wcode w = Validation.L3_TRAFFIC_WITHOUT_L3NODE)
  /\ (Flags.simple t = true ->
      Services.calculateServices (Services.ofTestnodeFlags t)
      = [Services.sequencer]
        ++ (if l3node flags then [Services.l3node_service] else [])
        ++ (if blockscout flags then [Services.blockscout_service] else [])
        ++ (if l2Timeboost flags
            then [Services.timeboost_auctioneer; Services.timeboost_bid_validator]
            else [])).
Proof.
  cbv zeta. split; [| split].
  - rewrite ValidationFacts.codes_selected, ValidationFacts.In_selected.
    cbn [In Flags.nowait Flags.detach toTestnodeFlags andb].
    intros H.
    repeat match goal with
           | H : _ \/ _ |- _ => destruct H
           | H : False |- _ => destruct H
           | H : (_, _) = (_, _) |- _ => inversion H; clear H
           end.
  - intros w Hw.
    destruct (Validation.wcode w) eqn:E; [exfalso | exfalso | reflexivity].
    + assert (Hex : exists w, In w (Validation.warnings
                                      (Validation.validateFlags (toTestnodeFlags flags)))
                              /\ Validation.wcode w
                                 = Validation.SIMPLE_MODE_IGNORES_BATCH_POSTERS)
        by (now exists w).
      apply WarningFacts.warned_iff in Hex as [Hs Hb].
      apply effective_simple in Hs. cbn [Flags.batchposters toTestnodeFlags] in Hb. lia.
    + assert (Hex : exists w, In w (Validation.warnings
                                      (Validation.validateFlags (toTestnodeFlags flags)))
                              /\ Validation.wcode w
                                 = Validation.SIMPLE_MODE_IGNORES_REDUNDANT_SEQUENCERS)
        by (now exists w).
      apply WarningFacts.warned_iff in Hex as [Hs Hb].
      apply effective_simple in Hs.
      cbn [Flags.redundantsequencers toTestnodeFlags] in Hb. lia.
  - intros Hs. pose proof Hs as Hs'. apply effective_simple in Hs' as (_ & _ & _ & Hv & Hb & Hr).
    rewrite ServicesFacts.calculateServices_segments.
    cbn [Services.simple Services.validate Services.l3node Services.blockscout
         Services.l2Timeboost Services.batchposters Services.redundantsequencers
         Services.ofTestnodeFlags].
    rewrite Hs.
    cbn [Flags.validate Flags.l3node Flags.blockscout Flags.l2Timeboost
         Flags.batchposters Flags.redundantsequencers toTestnodeFlags].
    rewrite Hv.
    rewrite (proj2 (Z.ltb_ge 0 (redundantsequencers flags))) by lia.
    rewrite (proj2 (Z.ltb_ge 1 (redundantsequencers flags))) by lia.
    rewrite (proj2 (Z.ltb_ge 2 (redundantsequencers flags))) by lia.
    rewrite (proj2 (Z.ltb_ge 1 (batchposters flags))) by lia.
    rewrite (proj2 (Z.ltb_ge 2 (batchposters flags))) by lia.
    rewrite andb_false_r. reflexivity.
Qed.

Lemma forEach_log {A} level (text : A -> string) xs w :
  forEach (fun x => writeLog level (text x)) xs w
  = (Returned tt,
     {| verboseMode := verboseMode w; calls := calls w;
        logged := rev (map (fun x => (level, text x)) xs) ++ logged w |}).
Proof.
  revert w. induction xs as [| x xs IH]; intros w; [now destruct w |].
  cbn [forEach]. rewrite (bind_returned _ _ _ _ _ (writeLog_run _ _ _)), IH.
  cbn [map rev appendLog verboseMode calls logged]. now rewrite <- app_assoc.
Qed.

Section Command.
Context {executor : CommandExecutor}.
Variable buildDockerImages : InitContext -> M InitContext.
Variable deployL2 : InitContext -> M (InitContext * option AnyTrustConfig).
Variable configureL2Nodes : InitContext -> option AnyTrustConfig -> M InitContext.
Variable setupTrafficGenerators : InitContext -> M InitContext.
Variable processCwd : string.

(** X11: [initCommand] on flags that fail validation logs each error message
    once, in order, runs no command, and throws
    [Error "Invalid flag configuration"]. *)
Theorem invalid_flags_stop_before_any_command flags cwd w :
  let validation := Validation.validateFlags (toTestnodeFlags flags) in
  let final :=
    initCommand buildDockerImages deployL2 configureL2Nodes setupTrafficGenerators
      processCwd flags cwd w in
  Validation.valid validation = false ->
  fst final = Threw (ErrorObj "Invalid flag configuration")
  /\ calls (snd final) = calls w
  /\ logged (snd final)
     = rev (map (fun e => (Error, Validation.message e)) (Validation.errors validation))
       ++ logged w.
Proof.
  cbv zeta. intros Hv. unfold initCommand. rewrite Hv. cbn [negb].
  unfold logger.error.
  rewrite (bind_returned _ _ _ _ _ (forEach_log Error Validation.message _ w)).
  repeat split.
Qed.

End Command.
End InitCommandFacts.

Module CleaningFacts.
Import JsString Shell ServiceGroups StringFacts.

Lemma trimStart_length s : (String.length (trimStart s) <= String.length s)%nat.
Proof.
  induction s as [| c r IH]; [reflexivity |]. cbn [trimStart].
  destruct (isWhiteSpace c); cbn [String.length]; lia.
Qed.

Lemma trimStart_fixed_head c r :
  trimStart (String c r) = String c r -> isWhiteSpace c = false.
Proof.
  cbn [trimStart]. destruct (isWhiteSpace c); [| reflexivity].
  intros H. pose proof (trimStart_length r) as L. rewrite H in L.
  cbn [String.length] in L. lia.
Qed.

Lemma trimStart_idempotent s : trimStart (trimStart s) = trimStart s.
Proof.
  induction s as [| c r IH]; [reflexivity |]. cbn [trimStart].
  destruct (isWhiteSpace c) eqn:W; [exact IH |]. cbn [trimStart]. now rewrite W.
Qed.

Lemma trimStart_trimEnd s : trimStart s = s -> trimStart (trimEnd s) = trimEnd s.
Proof.
  destruct s as [| c r]; [reflexivity |]. intros H.
  apply trimStart_fixed_head in H. cbn [trimEnd].
  destruct (trimEnd r); rewrite ?H; cbn [trimStart]; now rewrite H.
Qed.

Lemma trim_idempotent s : trim (trim s) = trim s.
Proof.
  unfold trim. rewrite (trimStart_trimEnd (trimStart s)) by apply trimStart_idempotent.
  apply trimEnd_idempotent.
Qed.

Lemma lacksChar_trimStart c s : lacksChar c s = true -> lacksChar c (trimStart s) = true.
Proof.
  induction s as [| x r IH]; [reflexivity |]. cbn [trimStart].
  destruct (isWhiteSpace x); [| tauto]. cbn [lacksChar].
  intros H. apply andb_true_iff in H as [_ H]. now apply IH.
Qed.

Lemma lacksChar_trimEnd c s : lacksChar c s = true -> lacksChar c (trimEnd s) = true.
Proof.
  induction s as [| x r IH]; [reflexivity |]. cbn [lacksChar trimEnd].
  intros H. apply andb_true_iff in H as [Hx Hr]. specialize (IH Hr).
  destruct (trimEnd r).
  - destruct (isWhiteSpace x); [reflexivity |]. cbn [lacksChar]. now rewrite Hx.
  - cbn [lacksChar] in *. now rewrite Hx, IH.
Qed.

Lemma lacksChar_trim c s : lacksChar c s = true -> lacksChar c (trim s) = true.
Proof. intros H. now apply lacksChar_trimEnd, lacksChar_trimStart. Qed.

Lemma splitChar_pieces sep s :
  Forall (fun piece => lacksChar sep piece = true) (splitChar sep s).
Proof.
  induction s as [| c r IH]; [repeat constructor |]. cbn [splitChar].
  destruct (Ascii.eqb c sep) eqn:E; [now constructor |].
  destruct (splitChar sep r) as [| w ws]; [repeat constructor; cbn; now rewrite E |].
  inversion IH; subst. constructor; [cbn [lacksChar]; now rewrite E | assumption].
Qed.

(** X12: [getLastLine] returns a single line (no line feed) that is already
    trimmed, and the empty string for blank output. *)
Theorem last_line_is_one_trimmed_line output :
  trim (getLastLine output) = getLastLine output
  /\ lacksChar LF (getLastLine output) = true
  /\ (trim output = "" -> getLastLine output = "").
Proof.
  unfold getLastLine.
  rewrite (lastElement_last _ "") by apply splitChar_nonempty.
  split; [apply trim_idempotent | split].
  - apply lacksChar_trim.
    pose proof (splitChar_pieces LF (trim output)) as H.
    rewrite Forall_forall in H. apply H, last_In, splitChar_nonempty.
  - intros ->. reflexivity.
Qed.

Lemma removeCR_replaceCRLF_both s :
  removeCR (replaceCRLF s) = removeCR s
  /\ forall c, removeCR (replaceCRLF (String c s)) = removeCR (String c s).
Proof.
  induction s as [| c2 r [IH1 IH2]].
  - split; [reflexivity | intros c; reflexivity].
  - split; [apply IH2 |]. intros c. rewrite replaceCRLF_cons.
    destruct (Ascii.eqb_spec c CR) as [-> | Hc]; cbn [andb].
    + destruct (Ascii.eqb_spec c2 LF) as [-> | Hl].
      * cbn [removeCR]. rewrite IH1. reflexivity.
      * cbn [removeCR]. change (Ascii.eqb CR CR) with true. cbn iota.
        apply IH2.
    + cbn [removeCR]. destruct (Ascii.eqb c CR) eqn:E.
      * apply Ascii.eqb_eq in E. contradiction.
      * f_equal. apply IH2.
Qed.

Lemma lacksChar_removeCR s : lacksChar CR (removeCR s) = true.
Proof.
  induction s as [| c r IH]; [reflexivity |]. cbn [removeCR].
  destruct (Ascii.eqb c CR) eqn:E; [exact IH |]. cbn [lacksChar]. now rewrite E.
Qed.

Lemma removeCR_lacks s : lacksChar CR s = true -> removeCR s = s.
Proof.
  induction s as [| c r IH]; [reflexivity |]. cbn [lacksChar removeCR].
  intros H. apply andb_true_iff in H as [Hc Hr]. apply negb_true_iff in Hc.
  now rewrite Hc, (IH Hr).
Qed.

Lemma lacksChar_removeCR_other c s :
  lacksChar c s = true -> lacksChar c (removeCR s) = true.
Proof.
  induction s as [| x r IH]; [reflexivity |]. cbn [lacksChar removeCR].
  intros H. apply andb_true_iff in H as [Hx Hr].
  destruct (Ascii.eqb x CR); [now apply IH |]. cbn [lacksChar]. now rewrite Hx, IH.
Qed.

Lemma cleanOutput_trim_removeCR output : cleanOutput output = trim (removeCR output).
Proof. unfold cleanOutput. now rewrite (proj1 (removeCR_replaceCRLF_both output)). Qed.

Lemma cleanOutput_clean output :
  cleanOutput output = trim (removeCR output)
  /\ lacksChar CR (cleanOutput output) = true
  /\ trim (cleanOutput output) = cleanOutput output
  /\ cleanOutput (cleanOutput output) = cleanOutput output.
Proof.
  rewrite !cleanOutput_trim_removeCR.
  assert (L : lacksChar CR (trim (removeCR output)) = true)
    by apply lacksChar_trim, lacksChar_removeCR.
  repeat split; [exact L | apply trim_idempotent |].
  rewrite (removeCR_lacks _ L). apply trim_idempotent.
Qed.

(** X13: [cleanOutput] is removal of every carriage return followed by
    [trim] (its first replacement changes nothing in the result); its
    result has no carriage return, is trimmed, and is left alone by a
    second call. *)
Theorem clean_output_drops_carriage_returns output :
  cleanOutput output = trim (removeCR output)
  /\ lacksChar CR (cleanOutput output) = true
  /\ trim (cleanOutput output) = cleanOutput output
  /\ cleanOutput (cleanOutput output) = cleanOutput output.
Proof. apply cleanOutput_clean. Qed.

End CleaningFacts.

Module RunFacts.
Import JsString Shell Compose Orchestration Scheduler Worlds MonadFacts SchedulerFacts.

Lemma bind_assoc {A B C} (m : M A) (f : A -> M B) (g : B -> M C) w :
  bind (bind m f) g w = bind m (fun x => bind (f x) g) w.
Proof. unfold bind. destruct (m w) as [[a | t] w1]; reflexivity. Qed.

Lemma bind_ret {A B} (a : A) (k : A -> M B) w : bind (ret a) k w = k a w.
Proof. reflexivity. Qed.

Lemma bind_throw {A B} (t : Thrown) (k : A -> M B) w : bind (throw t) k w = (Threw t, w).
Proof. reflexivity. Qed.

Lemma bind_writeLog {B} level message (k : unit -> M B) w :
  bind (writeLog level message) k w = k tt (appendLog (level, message) w).
Proof. reflexivity. Qed.

Lemma bind_debug {B} message (k : unit -> M B) w :
  bind (logger.debug message) k w = k tt (debugLogged message w).
Proof.
  unfold logger.debug, debugLogged, isVerbose, when, bind.
  destruct (verboseMode w); reflexivity.
Qed.

Lemma debug_world message w :
  logger.debug message w = (Returned tt, debugLogged message w).
Proof.
  unfold logger.debug, debugLogged, isVerbose, when, bind.
  destruct (verboseMode w); reflexivity.
Qed.

Lemma calls_debugLogged message w : calls (debugLogged message w) = calls w.
Proof. unfold debugLogged. destruct (verboseMode w); reflexivity. Qed.

Section Executor.
Context {executor : CommandExecutor}.

Lemma bind_runWithCode {B} cmd options (k : ExecResult -> M B) w :
  bind (runWithCode cmd options) k w
  = k (execShell (calls w) cmd options)
      (recordCall (RunWithCode cmd options) (commandLogged cmd w)).
Proof. unfold bind at 1. now rewrite runWithCode_run. Qed.

Lemma bind_runStreaming {B} cmd args options (k : Z -> M B) w :
  bind (runStreaming cmd args options) k w
  = match spawnShell (calls w) cmd args options with
    | inl e =>
        (Threw e,
         recordCall (RunStreaming cmd args options)
           (commandLogged (cmd ++ " " ++ join " " args)%string w))
    | inr c =>
        k c (recordCall (RunStreaming cmd args options)
               (commandLogged (cmd ++ " " ++ join " " args)%string w))
    end.
Proof.
  unfold bind at 1. rewrite runStreaming_run.
  now destruct (spawnShell _ _ _ _).
Qed.

End Executor.

(** One step of a run: the outermost call is replaced by its effect. *)
Ltac run_step :=
  first
    [ rewrite bind_assoc
    | rewrite bind_writeLog
    | rewrite bind_debug
    | rewrite bind_runWithCode
    | rewrite bind_runStreaming
    | rewrite bind_ret
    | rewrite bind_throw
    | rewrite writeLog_run
    | rewrite debug_world
    | rewrite runWithCode_run ];
  cbn beta.

Ltac run_step_in H :=
  first
    [ rewrite bind_assoc in H
    | rewrite bind_writeLog in H
    | rewrite bind_debug in H
    | rewrite bind_runWithCode in H
    | rewrite bind_runStreaming in H
    | rewrite bind_ret in H
    | rewrite bind_throw in H
    | rewrite writeLog_run in H
    | rewrite debug_world in H
    | rewrite runWithCode_run in H ];
  cbn beta in H.

Ltac unfold_logger :=
  unfold logger.step, logger.success, logger.info, logger.warn, logger.error,
    throwError, when in *.

Ltac calls_norm :=
  repeat first
    [ rewrite calls_commandLogged
    | rewrite calls_debugLogged
    | progress cbn [calls recordCall appendLog] ].

Ltac calls_norm_in H :=
  repeat first
    [ rewrite calls_commandLogged in H
    | rewrite calls_debugLogged in H
    | progress cbn [calls recordCall appendLog] in H ].

(** Runs a hypothesis [H : m w = (Returned _, _)] forward, discarding
    the branches that throw. *)
Ltac run_returned H :=
  unfold composeRun in H; cbn zeta in H; unfold_logger;
  repeat first
    [ run_step_in H
    | match type of H with
      | bind (if ?c then _ else _) _ _ = _ =>
          let E := fresh "E" in destruct c eqn:E
      | (if ?c then _ else _) _ = _ =>
          let E := fresh "E" in destruct c eqn:E; [try discriminate H | try discriminate H]
      | (Threw _, _) = (Returned _, _) => discriminate H
      end ].

(** Runs the goal forward through every branch. *)
Ltac run_all :=
  unfold composeRun; cbn zeta; unfold_logger;
  repeat first
    [ run_step
    | match goal with
      | |- context [bind (if ?c then _ else _) _ _] => destruct c
      | |- context [(if ?c then _ else _) _] => destruct c
      end ].

(** Splits [c1 :: ... :: cn :: t = ?ran ++ t]. *)
Ltac peel_calls :=
  match goal with
  | |- ?l = _ ++ ?t =>
      let rec peel l acc :=
        first
          [ constr_eq l t; instantiate (1 := acc); reflexivity
          | lazymatch l with
            | ?c :: ?r => peel r (acc ++ [c])
            end ] in
      peel l (@nil Call)
  end.

Section Cleanup.
Context {executor : CommandExecutor}.

Lemma last_two {A} (l : list A) a b d : last (l ++ [a; b]) d = b.
Proof. change [a; b] with ([a] ++ [b]). rewrite app_assoc. apply last_last. Qed.

Lemma removeLeftovers_run ctx result kind rmCommand w :
  exists w' ran,
    removeLeftovers ctx result kind rmCommand w = (Returned tt, w')
    /\ calls w' = ran ++ calls w
    /\ (List.length ran <= 1)%nat.
Proof.
  unfold removeLeftovers, when.
  destruct ((code result =? 0) && truthy (trim (stdout result)));
    [| exists w, []; repeat split; cbn; lia].
  cbn zeta.
  destruct (0 <? Z.of_nat (List.length (filterTruthy (splitChar LF (trim (stdout result))))));
    [| exists w, []; repeat split; cbn; lia].
  repeat run_step.
  eexists; eexists; split; [reflexivity |]. calls_norm.
  split; [peel_calls | cbn; lia].
Qed.

(** X14: [cleanupExisting] always returns, whatever the commands' exit
    codes: it starts with [docker compose down] in the working directory
    and runs between four and six commands. *)
Theorem cleanup_is_best_effort ctx w :
  exists w' ran,
    cleanupExisting ctx w = (Returned ctx, w')
    /\ calls w' = ran ++ calls w
    /\ (4 <= List.length ran <= 6)%nat
    /\ List.last ran (RunWithCode "" (inWorkDir ctx))
       = RunWithCode "docker compose down" (inWorkDir ctx).
Proof.
  unfold cleanupExisting, composeDown. cbn zeta.
  unfold_logger. cbn [buildBaseArgs truthyOpt composeFile projectName volumes
    removeOrphans app join String.concat Compose.cwd Compose.env Compose.timeout].
  do 2 run_step.
  set (down := execShell _ _ _).
  destruct (negb (code down =? 0)); repeat run_step.
  all: match goal with
       | |- context [bind (removeLeftovers ?c ?r ?k ?rm) _ ?w0] =>
           destruct (removeLeftovers_run c r k rm w0) as (w1 & ran1 & E1 & C1 & L1);
           rewrite (bind_returned _ _ _ _ _ E1)
       end; repeat run_step.
  all: match goal with
       | |- context [bind (removeLeftovers ?c ?r ?k ?rm) _ ?w0] =>
           destruct (removeLeftovers_run c r k rm w0) as (w2 & ran2 & E2 & C2 & L2);
           rewrite (bind_returned _ _ _ _ _ E2)
       end; repeat run_step.
  all: calls_norm_in C2; rewrite C1 in C2; calls_norm_in C1; calls_norm_in C2.
  all: exists (appendLog (Success, "Cleanup complete") w2).
  all: eexists (ran2 ++ [_; _] ++ ran1 ++ [_; _]).
  all: split; [reflexivity |]; calls_norm; rewrite C2.
  all: split; [rewrite <- !app_assoc; reflexivity |].
  all: rewrite !length_app; cbn [length]; split; [lia |].
  all: rewrite !app_assoc; apply last_two.
Qed.

End Cleanup.

Section L1.
Context {executor : CommandExecutor}.

(** X15: when starting geth does not exit with code 0, [startGeth] throws
    right after that one command (no sync wait is run); for an exit code
    the error is [Error "Failed to start geth"]. *)
Theorem geth_start_failure_skips_sync_wait ctx w :
  spawnShell (calls w) "docker" gethUpArgs (gethUpOptions ctx) <> inr 0 ->
  exists t w',
    startGeth ctx w = (Threw t, w')
    /\ calls w' = RunStreaming "docker" gethUpArgs (gethUpOptions ctx) :: calls w
    /\ (forall c, spawnShell (calls w) "docker" gethUpArgs (gethUpOptions ctx) = inr c ->
                  t = ErrorObj "Failed to start geth").
Proof.
  intros Hup. unfold startGeth, composeUp. unfold_logger. cbn zeta.
  cbn [buildBaseArgs truthyOpt composeFile projectName detach wait removeOrphans noBuild
       forceRecreate options app Compose.cwd Compose.env].
  run_step. run_step. calls_norm.
  change (spawnShell (calls w) "docker" _ _)
    with (spawnShell (calls w) "docker" gethUpArgs (gethUpOptions ctx)).
  destruct (spawnShell (calls w) "docker" gethUpArgs (gethUpOptions ctx)) as [e | c].
  - eexists; eexists. split; [reflexivity |]. calls_norm.
    split; [reflexivity | discriminate].
  - destruct (Z.eqb_spec c 0) as [-> | Hc]; [congruence |]. cbn [negb].
    eexists; eexists. split; [reflexivity |]. calls_norm.
    split; [reflexivity | reflexivity].
Qed.

(** X16: when [setupL1] returns, the context differs from the input only in
    the L2 owner address, which starts with "0x", holds no carriage
    return and is trimmed. *)
Theorem l1_setup_records_owner_address ctx w ctx' w' :
  setupL1 ctx w = (Returned ctx', w') ->
  exists address,
    ctx' = setL2OwnerAddress ctx address
    /\ startsWith address "0x" = true
    /\ ServiceGroups.lacksChar CR address = true
    /\ trim address = address.
Proof.
  intros H. unfold setupL1 in H.
  apply bind_returned_inv in H as ([] & w1 & _ & H).
  apply bind_returned_inv in H as ([] & w2 & _ & H).
  apply bind_returned_inv in H as ([] & w3 & _ & H).
  apply bind_returned_inv in H as ([] & w4 & _ & H).
  apply bind_returned_inv in H as ([] & w5 & _ & H).
  apply bind_returned_inv in H as ([] & w6 & _ & H).
  apply bind_returned_inv in H as (address & w7 & Haddr & H).
  cbn zeta in H. unfold_logger. repeat run_step_in H.
  apply inversion_returned in H as [<- _].
  exists address. split; [reflexivity |].
  unfold getL2OwnerAddress, composeRun in Haddr. cbn zeta in Haddr.
  run_step_in Haddr.
  destruct (negb (code _ =? 0)); [discriminate Haddr |].
  match type of Haddr with
  | (if ?c then _ else _) _ = _ => destruct c eqn:C; [discriminate Haddr |]
  end.
  apply inversion_returned in Haddr as [<- _].
  apply orb_false_iff in C as [_ C]. apply negb_false_iff in C.
  split; [exact C |].
  destruct (CleaningFacts.cleanOutput_clean
              (getLastLine (stdout (execShell (calls w6)
                 (join " " (["docker"; "compose"] ++ buildBaseArgs
                    (options (workDir ctx) false false None)
                    ++ ["run"; "--rm"; "scripts"] ++ ["print-address"; "--account"; "l2owner"]))
                 {| Shell.cwd := Compose.cwd (options (workDir ctx) false false None);
                    Shell.env := Compose.env (options (workDir ctx) false false None);
                    Shell.timeout := Compose.timeout (options (workDir ctx) false false None) |}))))
    as (_ & Hcr & Htrim & _).
  split; assumption.
Qed.

End L1.

Section Failures.
Context {executor : CommandExecutor}.
Variable buildDockerImages : InitContext -> M InitContext.
Variable deployL2 : InitContext -> M (InitContext * option AnyTrustConfig).
Variable configureL2Nodes : InitContext -> option AnyTrustConfig -> M InitContext.
Variable setupTrafficGenerators : InitContext -> M InitContext.

Lemma runPhases_threw phases ctx w error w' :
  runPhases phases ctx w = (Threw error, w') ->
  exists phase ctx1 w1 w2,
    In phase phases
    /\ skipped phase ctx1 = false
    /\ run phase ctx1 w1 = (Threw error, w2)
    /\ w' = appendLog (phaseFailedLine phase error) w2.
Proof.
  revert ctx w. induction phases as [| p rest IH]; intros ctx w H; [discriminate H |].
  cbn [runPhases] in H. unfold bind in H.
  destruct (runPhase p ctx w) as [[c | t] wp] eqn:E.
  - destruct (IH _ _ H) as (phase & ctx1 & w1 & w2 & Hin & Hs & Hr & Hw).
    exists phase, ctx1, w1, w2. repeat split; try assumption. now right.
  - injection H as -> ->. unfold runPhase in E.
    destruct (skipped p ctx) eqn:S.
    + rewrite bind_debug in E. discriminate E.
    + unfold logger.info, logger.error in E. rewrite bind_writeLog in E.
      unfold tryCatch in E.
      destruct (run p ctx (appendLog (Info, name p) w)) as [[c | t] wr] eqn:R;
        [discriminate E |].
      rewrite bind_writeLog in E. unfold throw in E. inversion E; subst.
      exists p, ctx, (appendLog (Info, name p) w), wr.
      repeat split; try assumption. now left.
Qed.

(** X17: every failure of [runInit] is the failure of one of its phases: the
    phase was not skipped, its body threw the very value [runInit] throws,
    and the scheduler's error line for that phase is the last thing
    logged. *)
Theorem scheduler_adds_no_failure flags workDir w error w' :
  runInit buildDockerImages deployL2 configureL2Nodes setupTrafficGenerators
    flags workDir w = (Threw error, w') ->
  exists phase ctx1 w1 w2,
    In phase (createInitPhases buildDockerImages deployL2 configureL2Nodes
                setupTrafficGenerators)
    /\ skipped phase ctx1 = false
    /\ run phase ctx1 w1 = (Threw error, w2)
    /\ w' = appendLog (phaseFailedLine phase error) w2.
Proof.
  intros H. unfold runInit in H. unfold logger.info, logger.success in H.
  rewrite bind_writeLog in H. unfold bind in H.
  destruct (runPhases _ _ _) as [[c | t] wp] eqn:E.
  - rewrite writeLog_run in H. discriminate H.
  - injection H as -> ->. now apply runPhases_threw in E.
Qed.

End Failures.
End RunFacts.

Module DeployFacts.
Import JsString Shell Compose Orchestration Scheduler Worlds Deploy.
Import MonadFacts SchedulerFacts RunFacts.

Section Executor.
Context {executor : CommandExecutor}.

Lemma getSequencerAddress_returned ctx w a w' :
  getSequencerAddress ctx w = (Returned a, w') ->
  startsWith a "0x" = true.
Proof.
  intros H. unfold getSequencerAddress in H. run_returned H.
  apply inversion_returned in H as [<- <-].
  apply orb_false_iff in E0 as [_ C]. now apply negb_false_iff in C.
Qed.

Lemma getL2OwnerKey_returned ctx w k w' :
  getL2OwnerKey ctx w = (Returned k, w') -> truthy k = true.
Proof.
  intros H. unfold getL2OwnerKey in H. run_returned H.
  apply inversion_returned in H as [<- <-]. now apply negb_false_iff in E0.
Qed.

Lemma getWasmRoot_returned ctx w r w' :
  getWasmRoot ctx w = (Returned r, w') -> truthy r = true.
Proof.
  intros H. unfold getWasmRoot in H. run_returned H.
  apply inversion_returned in H as [<- <-]. now apply negb_false_iff in E0.
Qed.

Lemma writeL2ChainConfig_returned ctx w w' :
  writeL2ChainConfig ctx w = (Returned tt, w') -> truthyOpt (l2OwnerAddress ctx) = true.
Proof.
  intros H. unfold writeL2ChainConfig in H.
  destruct (truthyOpt (l2OwnerAddress ctx)); [reflexivity | discriminate H].
Qed.

Lemma setupAnyTrust_returned ctx w cfg w' :
  setupAnyTrust ctx w = (Returned cfg, w') ->
  (Flags.l2Anytrust (flags ctx) = false /\ cfg = None /\ calls w' = calls w)
  \/ (Flags.l2Anytrust (flags ctx) = true
      /\ exists keys, cfg = Some keys
           /\ ServiceGroups.lacksChar CR (dasBlsA keys) = true
           /\ ServiceGroups.lacksChar CR (dasBlsB keys) = true
           /\ trim (dasBlsA keys) = dasBlsA keys
           /\ trim (dasBlsB keys) = dasBlsB keys).
Proof.
  intros H. unfold setupAnyTrust in H.
  destruct (Flags.l2Anytrust (flags ctx)); cbn [negb] in H.
  - right. split; [reflexivity |]. unfold_logger. run_step_in H.
    apply bind_returned_inv in H as ([] & w1 & _ & H).
    apply bind_returned_inv in H as ([] & w2 & _ & H).
    apply bind_returned_inv in H as ([] & w3 & _ & H).
    apply bind_returned_inv in H as (keys & w4 & Hkeys & H).
    apply bind_returned_inv in H as ([] & w5 & _ & H).
    apply bind_returned_inv in H as ([] & w6 & _ & H).
    apply bind_returned_inv in H as ([] & w7 & _ & H).
    run_step_in H. apply inversion_returned in H as [<- _].
    unfold readBlsKeys in Hkeys. run_returned Hkeys.
    apply inversion_returned in Hkeys as [<- _]. cbn [dasBlsA dasBlsB].
    eexists. split; [reflexivity |]. cbn [dasBlsA dasBlsB].
    repeat split; apply CleaningFacts.cleanOutput_clean.
  - left. run_step_in H. apply inversion_returned in H as [<- <-].
    repeat split. apply calls_debugLogged.
Qed.

(** X18: when [deployL2] returns, the context holds a sequencer address
    starting with "0x", a non-empty owner key and WASM module root; the
    owner address was there before and is kept, as are the flags and the
    working directory; an AnyTrust configuration is returned exactly when
    AnyTrust is enabled. *)
Theorem l2_deployment_fills_the_context ctx w ctx' cfg w' :
  deployL2 ctx w = (Returned (ctx', cfg), w') ->
  (exists a, sequencerAddress ctx' = Some a /\ startsWith a "0x" = true)
  /\ truthyOpt (l2OwnerKey ctx') = true
  /\ truthyOpt (wasmRoot ctx') = true
  /\ truthyOpt (l2OwnerAddress ctx) = true
  /\ l2OwnerAddress ctx' = l2OwnerAddress ctx
  /\ flags ctx' = flags ctx
  /\ workDir ctx' = workDir ctx
  /\ (cfg = None <-> Flags.l2Anytrust (flags ctx) = false).
Proof.
  intros H. unfold deployL2 in H.
  apply bind_returned_inv in H as (a & w1 & Ha & H). cbn zeta in H. run_step_in H.
  apply bind_returned_inv in H as (k & w2 & Hk & H). run_step_in H.
  apply bind_returned_inv in H as (r & w3 & Hr & H). run_step_in H.
  apply bind_returned_inv in H as ([] & w4 & Hw & H).
  apply bind_returned_inv in H as ([] & w5 & _ & H).
  apply bind_returned_inv in H as ([] & w6 & _ & H).
  apply bind_returned_inv in H as (cfg' & w7 & Hat & H).
  unfold_logger. run_step_in H. apply inversion_returned in H as [H _].
  injection H as <- <-.
  apply getSequencerAddress_returned in Ha.
  apply getL2OwnerKey_returned in Hk. apply getWasmRoot_returned in Hr.
  apply writeL2ChainConfig_returned in Hw.
  apply setupAnyTrust_returned in Hat.
  cbn [sequencerAddress l2OwnerKey wasmRoot l2OwnerAddress flags workDir
       setSequencerAddress setL2OwnerKey setWasmRoot truthyOpt] in *.
  split; [now exists a |]. repeat split; try assumption.
  - intros ->. destruct Hat as [(Hf & _) | (_ & keys & Hc & _)];
      [exact Hf | discriminate Hc].
  - intros Hf. destruct Hat as [(_ & Hc & _) | (Ht & _)]; [exact Hc | congruence].
Qed.

Lemma getSequencerAddress_one ctx w :
  exists c, calls (snd (getSequencerAddress ctx w)) = c :: calls w.
Proof.
  unfold getSequencerAddress. run_all; unfold throw, ret; cbn [snd]; calls_norm; eexists; reflexivity.
Qed.

Lemma getL2OwnerKey_one ctx w :
  exists c, calls (snd (getL2OwnerKey ctx w)) = c :: calls w.
Proof.
  unfold getL2OwnerKey. run_all; unfold throw, ret; cbn [snd]; calls_norm; eexists; reflexivity.
Qed.

Lemma getWasmRoot_one ctx w :
  exists c, calls (snd (getWasmRoot ctx w)) = c :: calls w.
Proof.
  unfold getWasmRoot. run_all; unfold throw, ret; cbn [snd]; calls_norm; eexists; reflexivity.
Qed.

(** X19: without an L2 owner address [deployL2] always throws, having run at
    least one and at most three commands. *)
Theorem l2_deployment_needs_owner_address ctx w :
  truthyOpt (l2OwnerAddress ctx) = false ->
  exists t w' ran,
    deployL2 ctx w = (Threw t, w')
    /\ calls w' = ran ++ calls w
    /\ (1 <= List.length ran <= 3)%nat.
Proof.
  intros Hmissing. unfold deployL2.
  destruct (getSequencerAddress_one ctx w) as (c1 & C1).
  unfold bind at 1. destruct (getSequencerAddress ctx w) as [[a | t] w1]; cbn [snd] in C1.
  2:{ exists t, w1, [c1]. repeat split; [exact C1 | cbn; lia | cbn; lia]. }
  cbn zeta. run_step.
  destruct (getL2OwnerKey_one (setSequencerAddress ctx a)
              (debugLogged ("Sequencer address: " ++ a)%string w1)) as (c2 & C2).
  unfold bind at 1.
  destruct (getL2OwnerKey _ _) as [[k | t] w2]; cbn [snd] in C2;
    rewrite calls_debugLogged, C1 in C2.
  2:{ exists t, w2, [c2; c1]. repeat split; [exact C2 | cbn; lia | cbn; lia]. }
  run_step.
  destruct (getWasmRoot_one (setL2OwnerKey (setSequencerAddress ctx a) k)
              (debugLogged "L2 owner key retrieved" w2)) as (c3 & C3).
  unfold bind at 1.
  destruct (getWasmRoot _ _) as [[r | t] w3]; cbn [snd] in C3;
    rewrite calls_debugLogged, C2 in C3.
  2:{ exists t, w3, [c3; c2; c1]. repeat split; [exact C3 | cbn; lia | cbn; lia]. }
  run_step. unfold writeL2ChainConfig at 1.
  cbn [l2OwnerAddress setSequencerAddress setL2OwnerKey setWasmRoot].
  rewrite Hmissing. cbn [negb]. unfold throwError. rewrite bind_throw.
  eexists; eexists; exists [c3; c2; c1].
  split; [reflexivity |]. rewrite calls_debugLogged.
  repeat split; [exact C3 | cbn; lia | cbn; lia].
Qed.

End Executor.
End DeployFacts.

Module TimeboostFacts.
Import JsString Shell Compose Orchestration Scheduler Worlds OutputExtraction Deploy Timeboost.
Import MonadFacts SchedulerFacts RunFacts DeployFacts.

Lemma extracted_is_a_token output : noWhiteSpace (extracted output) = true.
Proof.
  rewrite StringFacts.extracted_lastToken. unfold lastToken.
  pose proof (StringFacts.last_splitWhiteSpace_noWhiteSpace (finalNonEmptyLine output)) as H.
  now rewrite (StringFacts.noWhiteSpace_removeCR _ H).
Qed.

Section Executor.
Context {executor : CommandExecutor}.

Lemma deployBiddingToken_returned ctx w a w' :
  deployBiddingToken ctx w = (Returned a, w') ->
  startsWith a "0x" = true /\ noWhiteSpace a = true.
Proof.
  intros H. unfold deployBiddingToken in H. run_returned H.
  apply inversion_returned in H as [<- _].
  apply orb_false_iff in E0 as [_ C]. apply negb_false_iff in C.
  split; [exact C |]. apply extracted_is_a_token.
Qed.

Lemma deployAuctionContract_returned ctx token w a w' :
  deployAuctionContract ctx token w = (Returned a, w') ->
  startsWith a "0x" = true /\ noWhiteSpace a = true.
Proof.
  intros H. unfold deployAuctionContract in H. run_returned H.
  apply inversion_returned in H as [<- _].
  apply orb_false_iff in E0 as [_ C]. apply negb_false_iff in C.
  split; [exact C |]. apply extracted_is_a_token.
Qed.

Lemma getAuctioneerAddress_returned ctx w a w' :
  getAuctioneerAddress ctx w = (Returned a, w') -> startsWith a "0x" = true.
Proof.
  intros H. unfold getAuctioneerAddress in H. run_returned H.
  apply inversion_returned in H as [<- _].
  apply orb_false_iff in E0 as [_ C]. now apply negb_false_iff in C.
Qed.

(** X20: when [setupTimeboost] returns with Timeboost enabled, it returns a
    configuration whose three addresses start with "0x"; the two
    extracted from command output hold no white space. *)
Theorem timeboost_setup_returns_checked_addresses ctx w result w' :
  setupTimeboost ctx w = (Returned result, w') ->
  Flags.l2Timeboost (flags ctx) = true ->
  exists config,
    result = Some config
    /\ startsWith (biddingTokenAddress config) "0x" = true
    /\ noWhiteSpace (biddingTokenAddress config) = true
    /\ startsWith (auctionContractAddress config) "0x" = true
    /\ noWhiteSpace (auctionContractAddress config) = true
    /\ startsWith (auctioneerAddress config) "0x" = true.
Proof.
  intros H Hon. unfold setupTimeboost in H. rewrite Hon in H. cbn [negb] in H.
  unfold_logger. run_step_in H.
  apply bind_returned_inv in H as ([] & w1 & _ & H).
  apply bind_returned_inv in H as (token & w2 & Htoken & H).
  apply bind_returned_inv in H as (auction & w3 & Hauction & H).
  apply bind_returned_inv in H as (auctioneer & w4 & Hauctioneer & H).
  do 2 run_step_in H.
  apply bind_returned_inv in H as ([] & w5 & _ & H).
  apply bind_returned_inv in H as ([] & w6 & _ & H).
  apply bind_returned_inv in H as ([] & w7 & _ & H).
  apply bind_returned_inv in H as ([] & w8 & _ & H).
  apply bind_returned_inv in H as ([] & w9 & _ & H).
  run_step_in H. apply inversion_returned in H as [<- _].
  apply deployBiddingToken_returned in Htoken as [T1 T2].
  apply deployAuctionContract_returned in Hauction as [A1 A2].
  apply getAuctioneerAddress_returned in Hauctioneer.
  eexists. split; [reflexivity |].
  cbn [biddingTokenAddress auctionContractAddress auctioneerAddress].
  repeat split; assumption.
Qed.

(** X21: [fixAuctioneerPermissions] and [restartSequencers] run exactly one
    command each and return whatever its exit code; the restart names
    [sequencer_b] exactly when redundant sequencers are requested. *)
Theorem timeboost_repairs_are_best_effort ctx w :
  (exists w',
     fixAuctioneerPermissions ctx w = (Returned tt, w')
     /\ calls w'
        = RunWithCode
            "docker compose run --rm timeboost-auctioneer sh -c chown -R 1000:1000 /data"
            (inWorkDir ctx) :: calls w)
  /\ (exists w',
        restartSequencers ctx w = (Returned tt, w')
        /\ calls w'
           = RunWithCode
               (if 0 <? Flags.redundantsequencers (flags ctx)
                then "docker compose restart sequencer sequencer_b"
                else "docker compose restart sequencer")
               {| Shell.cwd := Some (workDir ctx); Shell.env := None;
                  Shell.timeout := Some 120000 |} :: calls w).
Proof.
  split.
  - unfold fixAuctioneerPermissions. run_all; unfold ret.
    all: eexists; split; [reflexivity |]; calls_norm; reflexivity.
  - unfold restartSequencers, Services.calculateInitialSequencerNodes, Services.pushIf.
    destruct (0 <? Flags.redundantsequencers (flags ctx)); run_all; unfold ret.
    all: eexists; split; [reflexivity |]; calls_norm; reflexivity.
Qed.

End Executor.
End TimeboostFacts.

Module L2ConfigFacts.
Import JsString Shell Compose Orchestration Scheduler Worlds Deploy Timeboost L2Config.
Import MonadFacts SchedulerFacts RunFacts DeployFacts.

Section Executor.
Context {executor : CommandExecutor}.

(** X22: [deployPostDeployContracts] throws before any command when the owner
    key is missing; with the key it runs exactly four commands and
    returns whatever their exit codes. *)
Theorem post_deploy_contracts_are_best_effort ctx w :
  (truthyOpt (l2OwnerKey ctx) = false ->
   deployPostDeployContracts ctx w = (Threw (ErrorObj "L2 owner key not available"), w))
  /\ (truthyOpt (l2OwnerKey ctx) = true ->
      exists w' ran,
        deployPostDeployContracts ctx w = (Returned tt, w')
        /\ calls w' = ran ++ calls w
        /\ List.length ran = 4%nat).
Proof.
  unfold deployPostDeployContracts. split; intros Hkey; rewrite Hkey; cbn [negb];
    [reflexivity |].
  run_all; unfold ret.
  all: eexists; eexists; split; [reflexivity |]; calls_norm.
  all: split; [peel_calls | reflexivity].
Qed.

Lemma bridge_then_post_throws {A} ctx (k : unit -> M A) w :
  truthyOpt (l2OwnerKey ctx) = false ->
  exists t,
    bind (deployTokenBridge ctx) (fun _ => bind (deployPostDeployContracts ctx) k) w
    = (Threw t, w).
Proof.
  intros Hkey. unfold deployTokenBridge, deployPostDeployContracts. rewrite Hkey.
  cbn [negb]. destruct (Flags.tokenbridge (flags ctx)); cbn [negb]; eexists; reflexivity.
Qed.

Lemma bind_same_prefix {A B} (m : M A) (k k' : A -> M B) w :
  (forall a w1, k a w1 = k' a w1) -> bind m k w = bind m k' w.
Proof. intros H. unfold bind. destruct (m w) as [[a | t] w1]; [apply H | reflexivity]. Qed.

Lemma bind_always_throws {A B} (m : M A) (k : A -> M B) w :
  (forall a w1, exists t, fst (k a w1) = Threw t) ->
  exists t, fst (bind m k w) = Threw t.
Proof.
  intros H. unfold bind. destruct (m w) as [[a | t] w1]; [apply H | now exists t].
Qed.

(** X23: without an owner key [configureL2Nodes] throws, and the L3
    deployment is not reached: the run is the same whatever the L3
    deployment would do. *)
Theorem configuring_without_owner_key_stops_before_l3 deployL3 deployL3' ctx cfg w :
  truthyOpt (l2OwnerKey ctx) = false ->
  (exists t, fst (configureL2Nodes deployL3 ctx cfg w) = Threw t)
  /\ configureL2Nodes deployL3 ctx cfg w = configureL2Nodes deployL3' ctx cfg w.
Proof.
  intros Hkey. unfold configureL2Nodes. split.
  - do 4 (apply bind_always_throws; intros ? ?).
    match goal with
    | |- exists t, fst (bind _ (fun _ => bind _ ?k) ?w0) = _ =>
        destruct (bridge_then_post_throws ctx k w0 Hkey) as (t & E)
    end.
    rewrite E. now exists t.
  - do 4 (apply bind_same_prefix; intros ? ?).
    match goal with
    | |- bind _ (fun _ => bind _ ?k) ?w0 = bind _ (fun _ => bind _ ?k') _ =>
        destruct (bridge_then_post_throws ctx k w0 Hkey) as (t & E);
        destruct (bridge_then_post_throws ctx k' w0 Hkey) as (t' & E')
    end.
    rewrite E, E'. f_equal. f_equal.
    unfold deployTokenBridge, deployPostDeployContracts in E, E'. rewrite Hkey in E, E'.
    cbn [negb] in E, E'. destruct (Flags.tokenbridge (flags ctx)); cbn [negb] in E, E';
      inversion E; inversion E'; reflexivity.
Qed.

(** X24: a feature that is switched off runs no command: [setupPrysm]
    without [pos], [setupAnyTrust] without [l2Anytrust], [setupTimeboost]
    without [l2Timeboost], and [initializeRedis] in simple mode all
    return at once. *)
Theorem disabled_features_run_nothing ctx w :
  (Flags.pos (flags ctx) = false ->
   exists w', setupPrysm ctx w = (Returned tt, w') /\ calls w' = calls w)
  /\ (Flags.l2Anytrust (flags ctx) = false ->
      exists w', setupAnyTrust ctx w = (Returned None, w') /\ calls w' = calls w)
  /\ (Flags.l2Timeboost (flags ctx) = false ->
      exists w', setupTimeboost ctx w = (Returned None, w') /\ calls w' = calls w)
  /\ (Flags.simple (flags ctx) = true ->
      exists w', initializeRedis ctx w = (Returned tt, w') /\ calls w' = calls w).
Proof.
  unfold setupPrysm, setupAnyTrust, setupTimeboost, initializeRedis.
  repeat split; intros ->; cbn [negb].
  all: repeat run_step; unfold ret.
  all: eexists; (split; [reflexivity | apply calls_debugLogged]).
Qed.

End Executor.
End L2ConfigFacts.

Module AnyTrustFacts.
Import JsString Shell Compose Orchestration Scheduler Worlds Deploy.
Import MonadFacts SchedulerFacts RunFacts DeployFacts.

Section Executor.
Context {executor : CommandExecutor}.

(** X25: when [setupAnyTrust] returns with AnyTrust enabled, it returns both
    BLS keys, trimmed and without carriage returns. *)
Theorem any_trust_keys_are_cleaned ctx w cfg w' :
  setupAnyTrust ctx w = (Returned cfg, w') ->
  Flags.l2Anytrust (flags ctx) = true ->
  exists keys,
    cfg = Some keys
    /\ ServiceGroups.lacksChar CR (dasBlsA keys) = true
    /\ ServiceGroups.lacksChar CR (dasBlsB keys) = true
    /\ trim (dasBlsA keys) = dasBlsA keys
    /\ trim (dasBlsB keys) = dasBlsB keys.
Proof.
  intros H Hon.
  apply setupAnyTrust_returned in H as [(Hoff & _) | (_ & keys & Hk)]; [congruence |].
  now exists keys.
Qed.

End Executor.
End AnyTrustFacts.

Module MoreRuns.
Import JsString Shell Compose Orchestration Scheduler Examples MoreExamples.
Import ServiceGroups Deploy Timeboost L2Config.

(** Decimals that are not a number draw no range error; without a fee
    token they count as decimals other than 18. *)
Lemma nan_decimals_example :
  map Validation.code
    (Validation.errors (Validation.validateFlags (exampleFlags false false false NaN)))
  = [Validation.L3_FEE_TOKEN_DECIMALS_REQUIRES_FEE_TOKEN].
Proof. reflexivity. Qed.

(** Two services, joined and split again. *)
Lemma formatted_services_example :
  splitChar " " (formatServicesForCompose [Services.sequencer; Services.poster])
  = ["sequencer"; "poster"].
Proof.
  apply (FormatFacts.formatted_services_split_back [Services.sequencer; Services.poster]).
  discriminate.
Defined.

(** [ntn init --l3-fee-token-pricer]: one message, no command. *)
Lemma invalid_init_flags_example :
  let final :=
    InitCommand.initCommand (executor := addressExecutor)
      (noisy (executor := addressExecutor) "build")
      (noisyDeployL2 (executor := addressExecutor))
      (fun ctx _ => noisy (executor := addressExecutor) "configure-l2" ctx)
      (noisy (executor := addressExecutor) "traffic")
      "/testnode" (exampleInitFlags true) None (initialWorld false) in
  fst final = Threw (ErrorObj "Invalid flag configuration")
  /\ calls (snd final) = []
  /\ logged (snd final)
     = [(Error, Validation.message Validation.pricerRequiresFeeToken)].
Proof.
  apply (InitCommandFacts.invalid_flags_stop_before_any_command
           (executor := addressExecutor)
           (noisy (executor := addressExecutor) "build")
           (noisyDeployL2 (executor := addressExecutor))
           (fun ctx _ => noisy (executor := addressExecutor) "configure-l2" ctx)
           (noisy (executor := addressExecutor) "traffic")
           "/testnode" (exampleInitFlags true) None (initialWorld false)).
  vm_compute. reflexivity.
Defined.

(** [docker compose up] exits with code 1: the failure is reported and
    nothing else is run. *)
Lemma geth_start_failure_example :
  exists w',
    startGeth (executor := failingExecutor) exampleContext (initialWorld false)
    = (Threw (ErrorObj "Failed to start geth"), w')
    /\ calls w' = [RunStreaming "docker" gethUpArgs (gethUpOptions exampleContext)].
Proof.
  destruct (RunFacts.geth_start_failure_skips_sync_wait (executor := failingExecutor)
              exampleContext (initialWorld false)) as (t & w' & E & C & T).
  - vm_compute. discriminate.
  - exists w'. rewrite <- (T 1 eq_refl). split; assumption.
Defined.

(** The L1 phase against [addressExecutor]. *)
Lemma l1_setup_example :
  exists address,
    ownedContext false false = setL2OwnerAddress exampleContext address
    /\ startsWith address "0x" = true
    /\ lacksChar CR address = true
    /\ trim address = address.
Proof.
  apply (RunFacts.l1_setup_records_owner_address (executor := addressExecutor)
           exampleContext (initialWorld false) (ownedContext false false)
           (snd (setupL1 (executor := addressExecutor) exampleContext (initialWorld false)))).
  vm_compute. reflexivity.
Defined.

(** The failure of [syncFailingRun] is the failure of one phase that
    was run. *)
Lemma scheduler_failure_example :
  exists phase ctx1 w1 w2,
    In phase syncFailingPhases
    /\ skipped phase ctx1 = false
    /\ run phase ctx1 w1 = (Threw (ErrorObj "Geth sync failed: timed out"), w2)
    /\ snd syncFailingRun
       = appendLog (phaseFailedLine phase (ErrorObj "Geth sync failed: timed out")) w2.
Proof.
  apply (RunFacts.scheduler_adds_no_failure (executor := syncFailingExecutor)
           (noisy (executor := syncFailingExecutor) "build")
           (noisyDeployL2 (executor := syncFailingExecutor))
           (fun ctx _ => noisy (executor := syncFailingExecutor) "configure-l2" ctx)
           (noisy (executor := syncFailingExecutor) "traffic")
           Flags.defaultFlags "/testnode" (initialWorld false)).
  vm_compute. reflexivity.
Defined.

(** The L2 deployment against [addressExecutor], AnyTrust enabled. *)
Lemma l2_deployment_example :
  let result :=
    deployL2 (executor := addressExecutor) (ownedContext true false) (initialWorld false) in
  exists ctx' keys,
    fst result = Returned (ctx', Some keys)
    /\ truthyOpt (l2OwnerKey ctx') = true
    /\ truthyOpt (wasmRoot ctx') = true
    /\ flags ctx' = featureFlags true false.
Proof.
  cbv zeta.
  pose (a := "0x3f1Eae7D46d88F08fc2F8ed27FCb2AB183EB2d0E").
  pose (ctx' := setWasmRoot (setL2OwnerKey (setSequencerAddress (ownedContext true false) a) a) a).
  pose (keys := {| dasBlsA := a; dasBlsB := a |}).
  pose proof (DeployFacts.l2_deployment_fills_the_context (executor := addressExecutor)
                (ownedContext true false) (initialWorld false) ctx' (Some keys)
                (snd (deployL2 (executor := addressExecutor) (ownedContext true false)
                        (initialWorld false)))) as H.
  destruct H as (_ & Hkey & Hroot & _ & _ & Hflags & _).
  - vm_compute. reflexivity.
  - exists ctx', keys. repeat split; assumption.
Defined.

(** The L2 deployment started without an owner address. *)
Lemma l2_deployment_without_owner_example :
  exists t w' ran,
    deployL2 (executor := addressExecutor) exampleContext (initialWorld false)
    = (Threw t, w')
    /\ calls w' = ran ++ calls (initialWorld false)
    /\ (1 <= List.length ran <= 3)%nat.
Proof.
  apply (DeployFacts.l2_deployment_needs_owner_address (executor := addressExecutor)
           exampleContext (initialWorld false)).
  reflexivity.
Defined.

(** The Timeboost setup against [addressExecutor]. *)
Lemma timeboost_setup_example :
  exists config,
    Some {| biddingTokenAddress := "0x3f1Eae7D46d88F08fc2F8ed27FCb2AB183EB2d0E";
            auctionContractAddress := "0x3f1Eae7D46d88F08fc2F8ed27FCb2AB183EB2d0E";
            auctioneerAddress := "0x3f1Eae7D46d88F08fc2F8ed27FCb2AB183EB2d0E" |}
    = Some config
    /\ startsWith (biddingTokenAddress config) "0x" = true
    /\ OutputExtraction.noWhiteSpace (biddingTokenAddress config) = true
    /\ startsWith (auctionContractAddress config) "0x" = true
    /\ OutputExtraction.noWhiteSpace (auctionContractAddress config) = true
    /\ startsWith (auctioneerAddress config) "0x" = true.
Proof.
  apply (TimeboostFacts.timeboost_setup_returns_checked_addresses
           (executor := addressExecutor) (ownedContext false true) (initialWorld false) _
           (snd (setupTimeboost (executor := addressExecutor) (ownedContext false true)
                   (initialWorld false)))).
  - vm_compute. reflexivity.
  - reflexivity.
Defined.

(** Without an owner key the configuration fails whatever the L3
    deployment would do. *)
Lemma configuring_without_owner_key_example :
  (exists t,
     fst (configureL2Nodes (executor := addressExecutor) ret exampleContext None
            (initialWorld false)) = Threw t)
  /\ configureL2Nodes (executor := addressExecutor) ret exampleContext None
       (initialWorld false)
     = configureL2Nodes (executor := addressExecutor)
         (fun _ => throwError "L3 deployment failed") exampleContext None
         (initialWorld false).
Proof.
  apply (L2ConfigFacts.configuring_without_owner_key_stops_before_l3
           (executor := addressExecutor)).
  reflexivity.
Defined.

(** The AnyTrust setup against [addressExecutor]: the keys are the
    printed address without its line ending. *)
Lemma any_trust_keys_example :
  exists keys,
    Some {| dasBlsA := "0x3f1Eae7D46d88F08fc2F8ed27FCb2AB183EB2d0E";
            dasBlsB := "0x3f1Eae7D46d88F08fc2F8ed27FCb2AB183EB2d0E" |} = Some keys
    /\ lacksChar CR (dasBlsA keys) = true
    /\ lacksChar CR (dasBlsB keys) = true
    /\ trim (dasBlsA keys) = dasBlsA keys
    /\ trim (dasBlsB keys) = dasBlsB keys.
Proof.
  apply (AnyTrustFacts.any_trust_keys_are_cleaned (executor := addressExecutor)
           (ownedContext true false) (initialWorld false) _
           (snd (setupAnyTrust (executor := addressExecutor) (ownedContext true false)
                   (initialWorld false)))).
  - vm_compute. reflexivity.
  - reflexivity.
Defined.

End MoreRuns.
